(** * airbndacquire: exploratory time-series helpers over a review dataframe

    A shallow embedding of [airbndacquire.py].  The seven Python functions
    are straight-line sequences of pandas / statsmodels / matplotlib calls.
    The structural pandas operations they use (dropna, column assignment,
    the [.dt] accessor, groupby-size, reset_index, set_index, reindex, head,
    pct_change) are modelled concretely on typed columns; the numerical and
    parsing routines of the libraries (the reader of one date in a given
    format, describe, resample-sum, STL with its period and its smoother
    length, the Augmented Dickey-Fuller test, ACF/PACF plotting) are fields
    of a [Library] record over which the theorems are universally
    quantified; a sample library serves for evaluation on concrete frames.

    Python effects are explicit: a call runs in a [world] made of the heap
    of dataframes the caller holds (so that in-place mutation of an argument
    is visible through the caller's reference) and the list of console and
    matplotlib events produced so far; a call either returns a value or
    raises an exception, and in both cases leaves a new world behind. *)

From Stdlib Require Import ZArith List String Ascii Bool Lia Permutation Sorted.
From Stdlib Require Import PrimFloat Uint63.
From stdpp Require Import gmap strings.
Import ListNotations.

Local Open Scope string_scope.
Local Open Scope list_scope.
Local Open Scope Z_scope.

Set Warnings "-inexact-float,-register-all".

(* ================================================================== *)
(** ** Scalars *)
(* ================================================================== *)

(** A pandas [Timestamp]: calendar date plus nanoseconds since midnight. *)
Record Timestamp := mkTimestamp {
  ts_year : Z;
  ts_month : Z;
  ts_day : Z;
  ts_nanos : Z
}.

Definition ts_compare (a b : Timestamp) : comparison :=
  match ts_year a ?= ts_year b with
  | Eq => match ts_month a ?= ts_month b with
          | Eq => match ts_day a ?= ts_day b with
                  | Eq => ts_nanos a ?= ts_nanos b
                  | c => c
                  end
          | c => c
          end
  | c => c
  end.

(** Days since 1970-01-01 in the proleptic Gregorian calendar. *)
Definition days_from_civil (y m d : Z) : Z :=
  let y' := if m <=? 2 then y - 1 else y in
  let era := y' / 400 in
  let yoe := y' - era * 400 in
  let mp := (m + 9) mod 12 in
  let doy := (153 * mp + 2) / 5 + d - 1 in
  let doe := yoe * 365 + yoe / 4 - yoe / 100 + doy in
  era * 146097 + doe - 719468.

(** [Timestamp.weekday()]: Monday is 0. *)
Definition ts_weekday (t : Timestamp) : Z :=
  (days_from_civil (ts_year t) (ts_month t) (ts_day t) + 3) mod 7.

(** line 253: [weekday_order] *)
Definition weekday_order : list string :=
  ["Monday"; "Tuesday"; "Wednesday"; "Thursday"; "Friday"; "Saturday"; "Sunday"].

(** [Timestamp.day_name()] *)
Definition ts_day_name (t : Timestamp) : string :=
  nth (Z.to_nat (ts_weekday t)) weekday_order "Sunday".

(** int64 -> float64 conversion, as numpy does when a column is upcast. *)
Definition float_of_Z (z : Z) : float :=
  if z <? 0 then PrimFloat.opp (PrimFloat.of_uint63 (Uint63.of_Z (- z)))
  else PrimFloat.of_uint63 (Uint63.of_Z z).

(** A Python scalar read out of a column. *)
Inductive cell :=
| CStr (s : string)
| CInt (z : Z)
| CFloat (f : float)
| CTime (t : Timestamp)
| CNaT.

(* ================================================================== *)
(** ** Columns, series and dataframes *)
(* ================================================================== *)

(** A column with its dtype.  Object columns hold strings or a missing
    marker, datetime64 columns hold timestamps or NaT, float64 columns use
    NaN for missing; int64 columns have no missing value. *)
Inductive column :=
| ColObj (l : list (option string))
| ColDatetime (l : list (option Timestamp))
| ColInt (l : list Z)
| ColFloat (l : list float).

Record Series := mkSeries {
  s_index : column;
  s_index_name : option string;
  s_values : column;
  s_name : option string
}.

(** Column labels are looked up left to right; the order of the pairs is
    the order of the columns. *)
Record DataFrame := mkDataFrame {
  df_index : column;
  df_index_name : option string;
  df_columns : list (string * column)
}.

(** The argument of a KeyError: the label looked up, or, for
    [dropna(subset=[...])], the list of the labels that are not columns. *)
Inductive key_arg :=
| KeyStr (s : string)
| KeyList (l : list string).

Coercion KeyStr : string >-> key_arg.

Inductive exn :=
| KeyError (key : key_arg)
| AttributeError (msg : string)
| ValueError (msg : string)
| TypeError (msg : string)
| SystemError (msg : string).

Definition raise {A : Type} (e : exn) : exn + A := inl e.

Definition col_length (c : column) : nat :=
  match c with
  | ColObj l => length l
  | ColDatetime l => length l
  | ColInt l => length l
  | ColFloat l => length l
  end.

Definition is_some {A : Type} (o : option A) : bool :=
  match o with Some _ => true | None => false end.

(** [Series.notna()] *)
Definition col_notnull (c : column) : list bool :=
  match c with
  | ColObj l => map is_some l
  | ColDatetime l => map is_some l
  | ColInt l => map (fun _ => true) l
  | ColFloat l => map (fun f => negb (PrimFloat.is_nan f)) l
  end.

(** Boolean-mask row selection. *)
Fixpoint mask_filter {A : Type} (m : list bool) (l : list A) : list A :=
  match m, l with
  | b :: m', x :: l' => if b then x :: mask_filter m' l' else mask_filter m' l'
  | _, _ => []
  end.

Definition col_mask (m : list bool) (c : column) : column :=
  match c with
  | ColObj l => ColObj (mask_filter m l)
  | ColDatetime l => ColDatetime (mask_filter m l)
  | ColInt l => ColInt (mask_filter m l)
  | ColFloat l => ColFloat (mask_filter m l)
  end.

Definition col_firstn (n : nat) (c : column) : column :=
  match c with
  | ColObj l => ColObj (firstn n l)
  | ColDatetime l => ColDatetime (firstn n l)
  | ColInt l => ColInt (firstn n l)
  | ColFloat l => ColFloat (firstn n l)
  end.

Fixpoint get_col (name : string) (cols : list (string * column)) : option column :=
  match cols with
  | [] => None
  | (n, c) :: rest => if String.eqb n name then Some c else get_col name rest
  end.

(** Assignment to a column label: an existing column is replaced where it
    stands, a new one is appended. *)
Fixpoint set_col (name : string) (v : column) (cols : list (string * column))
  : list (string * column) :=
  match cols with
  | [] => [(name, v)]
  | (n, c) :: rest =>
      if String.eqb n name then (n, v) :: rest else (n, c) :: set_col name v rest
  end.

Definition range_index (n : nat) : column :=
  ColInt (map Z.of_nat (seq 0 n)).

(** [df[name]] *)
Definition getitem (df : DataFrame) (name : string) : exn + Series :=
  match get_col name (df_columns df) with
  | Some c => inr (mkSeries (df_index df) (df_index_name df) c (Some name))
  | None => raise (KeyError name)
  end.

(** [df[name] = s], for a series carrying the frame's own index. *)
Definition setitem (df : DataFrame) (name : string) (s : Series) : DataFrame :=
  mkDataFrame (df_index df) (df_index_name df) (set_col name (s_values s) (df_columns df)).

(** [df.dropna(subset=[name])]: a new frame with the rows whose [name]
    entry is missing removed; the index labels of the kept rows are kept.
    When [name] is not a column it raises KeyError with the list of the
    labels not found, here [[name]]. *)
Definition dropna (name : string) (df : DataFrame) : exn + DataFrame :=
  match get_col name (df_columns df) with
  | None => raise (KeyError (KeyList [name]))
  | Some c =>
      let m := col_notnull c in
      inr (mkDataFrame (col_mask m (df_index df)) (df_index_name df)
             (map (fun nc => (fst nc, col_mask m (snd nc))) (df_columns df)))
  end.

(** [df.head()] *)
Definition head (df : DataFrame) : DataFrame :=
  mkDataFrame (col_firstn 5 (df_index df)) (df_index_name df)
    (map (fun nc => (fst nc, col_firstn 5 (snd nc))) (df_columns df)).

(* ------------------------------------------------------------------ *)
(** *** The [.dt] accessor *)

Definition dt_error : exn :=
  AttributeError "Can only use .dt accessor with datetimelike values".

(** [s.dt.year], [s.dt.month], [s.dt.day]: integers, or floats with NaN
    as soon as one entry is NaT. *)
Definition field_values (f : Timestamp -> Z) (l : list (option Timestamp)) : column :=
  if forallb is_some l
  then ColInt (map (fun o => match o with Some t => f t | None => 0 end) l)
  else ColFloat (map (fun o => match o with
                               | Some t => float_of_Z (f t)
                               | None => PrimFloat.nan
                               end) l).

Definition dt_field (f : Timestamp -> Z) (s : Series) : exn + Series :=
  match s_values s with
  | ColDatetime l =>
      inr (mkSeries (s_index s) (s_index_name s) (field_values f l) (s_name s))
  | _ => raise dt_error
  end.

Definition dt_year := dt_field ts_year.
Definition dt_month := dt_field ts_month.
Definition dt_day := dt_field ts_day.

(** [s.dt.day_name()] *)
Definition dt_day_name (s : Series) : exn + Series :=
  match s_values s with
  | ColDatetime l =>
      inr (mkSeries (s_index s) (s_index_name s)
             (ColObj (map (option_map ts_day_name) l)) (s_name s))
  | _ => raise dt_error
  end.

(* ------------------------------------------------------------------ *)
(** *** Reductions *)

Definition opt_min {A : Type} (ltb : A -> A -> bool) (l : list A) : option A :=
  fold_left (fun acc x => match acc with
                          | None => Some x
                          | Some m => if ltb x m then Some x else Some m
                          end) l None.

Definition somes {A : Type} (l : list (option A)) : list A :=
  flat_map (fun o => match o with Some x => [x] | None => [] end) l.

Definition ts_ltb (a b : Timestamp) : bool :=
  match ts_compare a b with Lt => true | _ => false end.

Definition not_nan (l : list float) : list float :=
  List.filter (fun f => negb (PrimFloat.is_nan f)) l.

Definition cell_of {A : Type} (inj : A -> cell) (dflt : cell) (o : option A) : cell :=
  match o with Some x => inj x | None => dflt end.

(** [s.min()] and [s.max()], skipping missing entries. *)
Definition series_min (s : Series) : cell :=
  match s_values s with
  | ColObj l => cell_of CStr (CFloat PrimFloat.nan) (opt_min String.ltb (somes l))
  | ColDatetime l => cell_of CTime CNaT (opt_min ts_ltb (somes l))
  | ColInt l => cell_of CInt (CFloat PrimFloat.nan) (opt_min Z.ltb l)
  | ColFloat l => cell_of CFloat (CFloat PrimFloat.nan) (opt_min PrimFloat.ltb (not_nan l))
  end.

Definition series_max (s : Series) : cell :=
  match s_values s with
  | ColObj l =>
      cell_of CStr (CFloat PrimFloat.nan) (opt_min (fun a b => String.ltb b a) (somes l))
  | ColDatetime l => cell_of CTime CNaT (opt_min (fun a b => ts_ltb b a) (somes l))
  | ColInt l => cell_of CInt (CFloat PrimFloat.nan) (opt_min (fun a b => Z.ltb b a) l)
  | ColFloat l =>
      cell_of CFloat (CFloat PrimFloat.nan) (opt_min (fun a b => PrimFloat.ltb b a) (not_nan l))
  end.

(** The [.year] attribute of a scalar: only timestamps (and NaT) have it.
    A float cell is a numpy.float64 taken from a column, or the plain float
    NaN that a reduction over nothing returns. *)
Definition attr_year (c : cell) : exn + cell :=
  match c with
  | CTime t => inr (CInt (ts_year t))
  | CNaT => inr (CFloat PrimFloat.nan)
  | CStr _ => raise (AttributeError "'str' object has no attribute 'year'")
  | CInt _ => raise (AttributeError "'numpy.int64' object has no attribute 'year'")
  | CFloat f =>
      raise (AttributeError
               (if PrimFloat.is_nan f
                then "'float' object has no attribute 'year'"
                else "'numpy.float64' object has no attribute 'year'"))
  end.

(* ------------------------------------------------------------------ *)
(** *** groupby(...).size() *)

(** Group sizes are tallied in order of first appearance of each key and
    the groups are then ordered by key (the default [sort=True]). *)
Section Tally.
Context {K : Type} (cmp : K -> K -> comparison).

Fixpoint bump (k : K) (acc : list (K * Z)) : list (K * Z) :=
  match acc with
  | [] => [(k, 1)]
  | (k', n) :: rest =>
      match cmp k k' with
      | Eq => (k', n + 1) :: rest
      | _ => (k', n) :: bump k rest
      end
  end.

Definition tally (l : list K) : list (K * Z) :=
  fold_left (fun acc k => bump k acc) l [].

Fixpoint insert_by_key (e : K * Z) (l : list (K * Z)) : list (K * Z) :=
  match l with
  | [] => [e]
  | e' :: rest =>
      match cmp (fst e) (fst e') with
      | Gt => e' :: insert_by_key e rest
      | _ => e :: l
      end
  end.

Definition sort_by_key (l : list (K * Z)) : list (K * Z) :=
  fold_right insert_by_key [] l.

Definition group_sizes (l : list K) : list (K * Z) :=
  sort_by_key (tally l).

(** Whether some key occurs twice. *)
Fixpoint has_dup (l : list K) : bool :=
  match l with
  | [] => false
  | x :: rest =>
      existsb (fun y => match cmp x y with Eq => true | _ => false end) rest
      || has_dup rest
  end.
End Tally.

(** Lookup of a key in a tally. *)
Fixpoint assoc {K : Type} (K_dec : forall a b : K, {a = b} + {a <> b})
    (k : K) (acc : list (K * Z)) : option Z :=
  match acc with
  | [] => None
  | (k', n) :: rest => if K_dec k k' then Some n else assoc K_dec k rest
  end.

Definition float_compare (a b : float) : comparison :=
  match PrimFloat.compare a b with
  | FEq => Eq
  | FLt => Lt
  | FGt => Gt
  | FNotComparable => Eq
  end.

(** [df.groupby(name).size()]: a series of counts indexed by the distinct
    non-missing keys (rows with a missing key belong to no group). *)
Definition groupby_size (name : string) (df : DataFrame) : exn + Series :=
  match get_col name (df_columns df) with
  | None => raise (KeyError name)
  | Some c =>
      let kc :=
        match c with
        | ColObj l =>
            let g := group_sizes String.compare (somes l) in
            (ColObj (map (fun p => Some (fst p)) g), map snd g)
        | ColDatetime l =>
            let g := group_sizes ts_compare (somes l) in
            (ColDatetime (map (fun p => Some (fst p)) g), map snd g)
        | ColInt l =>
            let g := group_sizes Z.compare l in
            (ColInt (map fst g), map snd g)
        | ColFloat l =>
            let g := group_sizes float_compare (not_nan l) in
            (ColFloat (map fst g), map snd g)
        end in
      inr (mkSeries (fst kc) (Some name) (ColInt (snd kc)) None)
  end.

Definition already_exists (name : string) : exn :=
  ValueError (String.append "cannot insert " (String.append name ", already exists")).

(** [s.reset_index(name=v)]: the index becomes the first column, the
    values the second one, named [v]. *)
Definition series_reset_index (v : string) (s : Series) : exn + DataFrame :=
  let idx := match s_index_name s with Some n => n | None => "index" end in
  if String.eqb idx v then raise (already_exists idx)
  else inr (mkDataFrame (range_index (col_length (s_values s))) None
              [(idx, s_index s); (v, s_values s)]).

Fixpoint del_col (name : string) (cols : list (string * column))
  : list (string * column) :=
  match cols with
  | [] => []
  | (n, c) :: rest =>
      if String.eqb n name then del_col name rest else (n, c) :: del_col name rest
  end.

(** [df.set_index(name)] *)
Definition set_index (name : string) (df : DataFrame) : exn + DataFrame :=
  match get_col name (df_columns df) with
  | None =>
      raise (KeyError (String.append "None of ['"
                         (String.append name "'] are in the columns")))
  | Some c => inr (mkDataFrame c (Some name) (del_col name (df_columns df)))
  end.

Definition col_has_dup (c : column) : bool :=
  match c with
  | ColObj l => has_dup String.compare (somes l)
  | ColDatetime l => has_dup ts_compare (somes l)
  | ColInt l => has_dup Z.compare l
  | ColFloat l => has_dup float_compare (not_nan l)
  end.

Fixpoint find_label (lbl : string) (l : list (option string)) : option nat :=
  match l with
  | [] => None
  | o :: rest =>
      if match o with Some s => String.eqb s lbl | None => false end
      then Some 0%nat
      else option_map S (find_label lbl rest)
  end.

(** Row position of each requested label; a non-string index holds none
    of them. *)
Definition label_positions (labels : list string) (idx : column) : list (option nat) :=
  match idx with
  | ColObj l => map (fun lbl => find_label lbl l) labels
  | _ => map (fun _ => None) labels
  end.

(** Picking rows by position, with a missing value where the label was
    not found; an int64 column that receives a missing value is upcast to
    float64. *)
Definition col_take (pos : list (option nat)) (c : column) : column :=
  match c with
  | ColObj l =>
      ColObj (map (fun p => match p with Some i => nth i l None | None => None end) pos)
  | ColDatetime l =>
      ColDatetime (map (fun p => match p with Some i => nth i l None | None => None end) pos)
  | ColInt l =>
      if forallb is_some pos
      then ColInt (map (fun p => match p with Some i => nth i l 0 | None => 0 end) pos)
      else ColFloat (map (fun p => match p with
                                   | Some i => float_of_Z (nth i l 0)
                                   | None => PrimFloat.nan
                                   end) pos)
  | ColFloat l =>
      ColFloat (map (fun p => match p with
                              | Some i => nth i l PrimFloat.nan
                              | None => PrimFloat.nan
                              end) pos)
  end.

(** [df.reindex(labels)] *)
Definition reindex (labels : list string) (df : DataFrame) : exn + DataFrame :=
  if col_has_dup (df_index df)
  then raise (ValueError "cannot reindex on an axis with duplicate labels")
  else
    let pos := label_positions labels (df_index df) in
    inr (mkDataFrame (ColObj (map Some labels)) (df_index_name df)
           (map (fun nc => (fst nc, col_take pos (snd nc))) (df_columns df))).

(** [df.reset_index()] *)
Definition reset_index (df : DataFrame) : exn + DataFrame :=
  let name :=
    match df_index_name df with
    | Some n => n
    | None => if is_some (get_col "index" (df_columns df)) then "level_0" else "index"
    end in
  match get_col name (df_columns df) with
  | Some _ => raise (already_exists name)
  | None =>
      inr (mkDataFrame (range_index (col_length (df_index df))) None
             ((name, df_index df) :: df_columns df))
  end.

(* ------------------------------------------------------------------ *)
(** *** pct_change *)

Fixpoint ratios (prev : float) (l : list float) : list float :=
  match l with
  | [] => []
  | x :: rest => PrimFloat.sub (PrimFloat.div x prev) 1%float :: ratios x rest
  end.

(** [s.pct_change()] on an int64 column (the only dtype it meets here):
    NaN first, then [x_i / x_(i-1) - 1] in float64. *)
Definition pct_change (s : Series) : exn + Series :=
  match s_values s with
  | ColInt l =>
      let v := match map float_of_Z l with
               | [] => []
               | x :: rest => PrimFloat.nan :: ratios x rest
               end in
      inr (mkSeries (s_index s) (s_index_name s) (ColFloat v) (s_name s))
  | _ => raise (TypeError "unsupported operand type(s) for /")
  end.

(** [s * 100] on a float64 series. *)
Definition times100 (s : Series) : Series :=
  match s_values s with
  | ColFloat l =>
      mkSeries (s_index s) (s_index_name s)
        (ColFloat (map (fun x => PrimFloat.mul x 100%float) l)) (s_name s)
  | _ => s
  end.

(* ================================================================== *)
(** ** The external libraries *)
(* ================================================================== *)

(** [statsmodels] results. *)
Record DecomposeResult := mkDecomposeResult {
  observed : Series;
  seasonal : Series;
  trend : Series;
  resid : Series
}.

(** The tuple returned by [adfuller], position by position. *)
Record AdfResult := mkAdfResult {
  adfstat : float;                       (* [0] *)
  pvalue : float;                        (* [1] *)
  usedlag : Z;                           (* [2] *)
  nobs : Z;                              (* [3] *)
  critvalues : list (string * float);    (* [4] *)
  icbest : float                         (* [5] *)
}.

(** What the script delegates to pandas' parser, pandas' summary
    statistics and resampler, and statsmodels.  Each routine either
    returns or raises. *)
Record Library := mkLibrary {
  (* [pd.to_datetime(..., format=fmt)] on one non-missing entry, under the
     default [errors='raise']: a timestamp, NaT (the parser's answer to the
     empty string and to the spellings of NaT and nan), or an error *)
  strptime : string -> cell -> exn + option Timestamp;
  (* [df.describe()] *)
  describe : DataFrame -> DataFrame;
  (* [df.resample(rule, on=col).sum()] *)
  resample_sum : string -> string -> DataFrame -> exn + DataFrame;
  (* [sm.tsa.STL(endog, period=p, seasonal=k).fit()]: [p] is the seasonal
     period ([None]: inferred from the index), [k] the length of the seasonal
     smoother *)
  STL_fit : Series -> option Z -> Z -> exn + DecomposeResult;
  (* [adfuller(x)] *)
  adfuller : Series -> exn + AdfResult;
  (* [plot_acf(x, ax=...)], [plot_pacf(x, ax=...)] *)
  plot_acf : Series -> exn + unit;
  plot_pacf : Series -> exn + unit
}.

Fixpoint mapM {A B : Type} (f : A -> exn + B) (l : list A) : exn + list B :=
  match l with
  | [] => inr []
  | x :: rest =>
      match f x with
      | inl e => inl e
      | inr y =>
          match mapM f rest with
          | inl e => inl e
          | inr ys => inr (y :: ys)
          end
      end
  end.

(** [pd.to_datetime(s, format=fmt)] with the default [errors='raise']: a
    datetime64 column is returned as it is; otherwise every non-missing entry
    goes through the parser, which gives a timestamp or NaT, missing entries
    become NaT, and the first entry on which the parser raises makes the
    call raise. *)
Definition to_datetime (lib : Library) (fmt : string) (s : Series) : exn + Series :=
  let conv (l : list (option cell)) :=
    mapM (fun o => match o with
                   | None => inr None
                   | Some c => strptime lib fmt c
                   end) l in
  let cells :=
    match s_values s with
    | ColDatetime l => None
    | ColObj l => Some (map (option_map CStr) l)
    | ColInt l => Some (map (fun z => Some (CInt z)) l)
    | ColFloat l =>
        Some (map (fun f => if PrimFloat.is_nan f then None else Some (CFloat f)) l)
    end in
  match cells with
  | None => inr s
  | Some l =>
      match conv l with
      | inl e => inl e
      | inr ts => inr (mkSeries (s_index s) (s_index_name s) (ColDatetime ts) (s_name s))
      end
  end.

(** [pd.Series(adf_result[0:4], index=[...])]: four numbers, stored as
    float64. *)
Definition adf_summary_of (r : AdfResult) : Series :=
  mkSeries
    (ColObj [Some "Test Statistic"; Some "p-value"; Some "#Lags Used";
             Some "Number of Observations Used"])
    None
    (ColFloat [adfstat r; pvalue r; float_of_Z (usedlag r); float_of_Z (nobs r)])
    None.

(* ================================================================== *)
(** ** Worlds and the call monad *)
(* ================================================================== *)

Inductive event :=
| Print (lo hi : cell)                                      (* the date-range line *)
| Plt (call : string) (args : list cell) (data : list column).  (* a matplotlib call *)

Record world := mkWorld {
  heap : gmap nat DataFrame;
  console : list event
}.

Definition M (A : Type) : Type := world -> (exn + A) * world.

Definition ret {A : Type} (x : A) : M A := fun w => (inr x, w).

Definition bind {A B : Type} (m : M A) (k : A -> M B) : M B :=
  fun w => match m w with
           | (inl e, w') => (inl e, w')
           | (inr x, w') => k x w'
           end.

Notation "x <- m ;; k" := (bind m (fun x => k))
  (at level 100, m at next level, right associativity).
Notation "m ;;; k" := (bind m (fun _ => k))
  (at level 100, right associativity).

Definition lift {A : Type} (r : exn + A) : M A := fun w => (r, w).

Definition add_event (e : event) (w : world) : world :=
  mkWorld (heap w) (console w ++ [e]).

Definition set_frame (r : nat) (df : DataFrame) (w : world) : world :=
  mkWorld (<[r := df]> (heap w)) (console w).

Definition emit (e : event) : M unit := fun w => (inr tt, add_event e w).

Definition plt (call : string) : M unit := emit (Plt call [] []).

(** Reading the dataframe a reference points to. *)
Definition deref (r : nat) : M DataFrame :=
  fun w => match heap w !! r with
           | Some df => (inr df, w)
           | None => (inl (SystemError "dangling reference"), w)
           end.

(** In-place update of the dataframe a reference points to. *)
Definition assign (r : nat) (df : DataFrame) : M unit :=
  fun w => (inr tt, set_frame r df w).

(* ================================================================== *)
(** ** The seven functions of [airbndacquire.py] *)
(* ================================================================== *)

Definition default_value_column : string := "number_of_reviews".
Definition default_seasonal_period : Z := 13.

Section Functions.
Variable lib : Library.

(** lines 8-33.  [data] is the caller's reference to the raw frame. *)
Definition timeseries_data (data : nat) (date_column : string) : M DataFrame :=
  df <- deref data ;;
  (* 20 *)
  data_clean <- lift (dropna date_column df) ;;
  (* 23 *)
  s <- lift (getitem data_clean date_column) ;;
  d <- lift (to_datetime lib "%Y-%m-%d" s) ;;
  let data_clean := setitem data_clean date_column d in
  (* 26 *)
  s <- lift (getitem data_clean date_column) ;;
  y <- lift (dt_year s) ;;
  let data_clean := setitem data_clean "year" y in
  (* 27 *)
  s <- lift (getitem data_clean date_column) ;;
  m <- lift (dt_month s) ;;
  let data_clean := setitem data_clean "month" m in
  (* 28 *)
  s <- lift (getitem data_clean date_column) ;;
  d <- lift (dt_day s) ;;
  let data_clean := setitem data_clean "day" d in
  (* 31 *)
  s <- lift (getitem data_clean date_column) ;;
  let lo := series_min s in
  s <- lift (getitem data_clean date_column) ;;
  let hi := series_max s in
  emit (Print lo hi) ;;;
  (* 33 *)
  ret data_clean.

(** lines 37-65 *)
Definition plot_timeseries_data (data : nat) (date_column value_column : string)
  : M (DataFrame * (DataFrame * DataFrame)) :=
  df <- deref data ;;
  (* 51 *)
  g <- lift (groupby_size date_column df) ;;
  time_series_data <- lift (series_reset_index value_column g) ;;
  (* 54-55 *)
  plt "figure" ;;;
  x <- lift (getitem time_series_data date_column) ;;
  y <- lift (getitem time_series_data value_column) ;;
  emit (Plt "plot" [] [s_values x; s_values y]) ;;;
  (* 56 *)
  s <- lift (getitem time_series_data date_column) ;;
  lo <- lift (attr_year (series_min s)) ;;
  s <- lift (getitem time_series_data date_column) ;;
  hi <- lift (attr_year (series_max s)) ;;
  emit (Plt "title" [lo; hi] []) ;;;
  (* 57-62 *)
  plt "xlabel" ;;; plt "ylabel" ;;; plt "grid" ;;; plt "legend" ;;;
  plt "tight_layout" ;;; plt "show" ;;;
  (* 65 *)
  ret (time_series_data, (describe lib time_series_data, head time_series_data)).

(** lines 71-117 *)
Definition decompose_and_plot_timeseries
    (data : nat) (date_column value_column : string) (seasonal_period : Z)
  : M DecomposeResult :=
  df <- deref data ;;
  (* 85 *)
  monthly_reviews <- lift (resample_sum lib "M" date_column df) ;;
  (* 88-91 *)
  endog <- lift (getitem monthly_reviews value_column) ;;
  decomposition <- lift (STL_fit lib endog None seasonal_period) ;;
  let trend_ := trend decomposition in
  let seasonal_ := seasonal decomposition in
  let residual := resid decomposition in
  (* 94-98 *)
  plt "figure" ;;; plt "subplot" ;;;
  o <- lift (getitem monthly_reviews value_column) ;;
  emit (Plt "plot" [] [s_values o]) ;;;
  plt "legend" ;;; plt "title" ;;;
  (* 100-103 *)
  plt "subplot" ;;; emit (Plt "plot" [] [s_values trend_]) ;;;
  plt "legend" ;;; plt "ylabel" ;;;
  (* 105-107 *)
  plt "subplot" ;;; emit (Plt "plot" [] [s_values seasonal_]) ;;;
  plt "legend" ;;;
  (* 109-112 *)
  plt "subplot" ;;; emit (Plt "plot" [] [s_values residual]) ;;;
  plt "legend" ;;; plt "xlabel" ;;;
  (* 114-115 *)
  plt "tight_layout" ;;; plt "show" ;;;
  (* 117 *)
  ret decomposition.

(** lines 120-146 *)
Definition stationarity_and_acf_pacf_plots (data : nat) (value_column : string)
  : M (Series * bool) :=
  df <- deref data ;;
  (* 133-134 *)
  x <- lift (getitem df value_column) ;;
  adf_result <- lift (adfuller lib x) ;;
  let adf_summary := adf_summary_of adf_result in
  (* 137 *)
  plt "subplots" ;;;
  (* 139-140 *)
  x <- lift (getitem df value_column) ;;
  lift (plot_acf lib x) ;;;
  emit (Plt "plot_acf" [] [s_values x]) ;;;
  x <- lift (getitem df value_column) ;;
  lift (plot_pacf lib x) ;;;
  emit (Plt "plot_pacf" [] [s_values x]) ;;;
  (* 142-143 *)
  plt "tight_layout" ;;; plt "show" ;;;
  (* 146 *)
  ret (adf_summary, PrimFloat.leb (pvalue adf_result) 0.05%float).

(** lines 151-196 *)
Definition plot_annual_reviews_and_growth
    (data : nat) (date_column value_column_name : string) : M DataFrame :=
  (* 164: assignment into the caller's frame *)
  df <- deref data ;;
  s <- lift (getitem df date_column) ;;
  y <- lift (dt_year s) ;;
  assign data (setitem df "year" y) ;;;
  (* 167 *)
  df <- deref data ;;
  g <- lift (groupby_size "year" df) ;;
  annual_reviews <- lift (series_reset_index value_column_name g) ;;
  (* 170 *)
  c <- lift (getitem annual_reviews value_column_name) ;;
  p <- lift (pct_change c) ;;
  let annual_reviews := setitem annual_reviews "growth_rate" (times100 p) in
  (* 173 *)
  plt "subplots" ;;;
  (* 176 *)
  df <- deref data ;;
  s <- lift (getitem df date_column) ;;
  y <- lift (dt_year s) ;;
  let lo := series_min y in
  df <- deref data ;;
  s <- lift (getitem df date_column) ;;
  y <- lift (dt_year s) ;;
  let hi := series_max y in
  emit (Plt "set_title" [lo; hi] []) ;;;
  (* 177-180 *)
  plt "set_xlabel" ;;; plt "set_ylabel" ;;;
  x <- lift (getitem annual_reviews "year") ;;
  v <- lift (getitem annual_reviews value_column_name) ;;
  emit (Plt "plot" [] [s_values x; s_values v]) ;;;
  x <- lift (getitem annual_reviews "year") ;;
  (* the group keys are distinct already: [unique()] leaves them as they are *)
  emit (Plt "xticks" [] [s_values x]) ;;;
  (* 183-185 *)
  plt "twinx" ;;; plt "set_ylabel" ;;;
  x <- lift (getitem annual_reviews "year") ;;
  r <- lift (getitem annual_reviews "growth_rate") ;;
  emit (Plt "plot" [] [s_values x; s_values r]) ;;;
  (* 188-193 *)
  plt "legend" ;;; plt "legend" ;;; plt "add_artist" ;;;
  plt "grid" ;;; plt "tight_layout" ;;; plt "show" ;;;
  (* 196 *)
  ret annual_reviews.

(** lines 201-231 *)
Definition plot_general_monthly_reviews
    (data : nat) (date_column value_column_name : string) : M DataFrame :=
  (* 214: assignment into the caller's frame *)
  df <- deref data ;;
  s <- lift (getitem df date_column) ;;
  m <- lift (dt_month s) ;;
  assign data (setitem df "month" m) ;;;
  (* 217 *)
  df <- deref data ;;
  g <- lift (groupby_size "month" df) ;;
  monthly_reviews_general <- lift (series_reset_index value_column_name g) ;;
  (* 220-221 *)
  plt "figure" ;;;
  x <- lift (getitem monthly_reviews_general "month") ;;
  v <- lift (getitem monthly_reviews_general value_column_name) ;;
  emit (Plt "bar" [] [s_values x; s_values v]) ;;;
  (* 222-228 *)
  plt "title" ;;; plt "xlabel" ;;; plt "ylabel" ;;; plt "xticks" ;;;
  plt "grid" ;;; plt "tight_layout" ;;; plt "show" ;;;
  (* 231 *)
  ret monthly_reviews_general.

(** lines 236-268 *)
Definition plot_weekday_reviews
    (data : nat) (date_column value_column_name : string) : M DataFrame :=
  (* 249: assignment into the caller's frame *)
  df <- deref data ;;
  s <- lift (getitem df date_column) ;;
  n <- lift (dt_day_name s) ;;
  assign data (setitem df "weekday" n) ;;;
  (* 250 *)
  df <- deref data ;;
  g <- lift (groupby_size "weekday" df) ;;
  weekday_reviews <- lift (series_reset_index value_column_name g) ;;
  (* 253-254 *)
  indexed <- lift (set_index "weekday" weekday_reviews) ;;
  ordered <- lift (reindex weekday_order indexed) ;;
  weekday_reviews <- lift (reset_index ordered) ;;
  (* 257-258 *)
  plt "figure" ;;;
  x <- lift (getitem weekday_reviews "weekday") ;;
  v <- lift (getitem weekday_reviews value_column_name) ;;
  emit (Plt "bar" [] [s_values x; s_values v]) ;;;
  (* 259-265 *)
  plt "title" ;;; plt "xlabel" ;;; plt "ylabel" ;;; plt "xticks" ;;;
  plt "grid" ;;; plt "tight_layout" ;;; plt "show" ;;;
  (* 268 *)
  ret weekday_reviews.

End Functions.

(* ================================================================== *)
(** ** A small library instance and sample data, for evaluation *)
(* ================================================================== *)

Definition digit_of (a : ascii) : option Z :=
  let n := Z.of_nat (nat_of_ascii a) in
  if (48 <=? n) && (n <=? 57) then Some (n - 48) else None.

Fixpoint digits_value (s : string) (acc : Z) : option Z :=
  match s with
  | EmptyString => Some acc
  | String a rest =>
      match digit_of a with
      | Some d => digits_value rest (10 * acc + d)
      | None => None
      end
  end.

Fixpoint split_on (sep : ascii) (s : string) : list string :=
  match s with
  | EmptyString => [EmptyString]
  | String a rest =>
      if Ascii.eqb a sep then EmptyString :: split_on sep rest
      else match split_on sep rest with
           | [] => [String a EmptyString]
           | h :: t => String a h :: t
           end
  end.

Definition days_in_month (y m : Z) : Z :=
  if m =? 2
  then if ((y mod 4 =? 0) && negb (y mod 100 =? 0)) || (y mod 400 =? 0) then 29 else 28
  else if (m =? 4) || (m =? 6) || (m =? 9) || (m =? 11) then 30 else 31.

(** The strings the parser reads as NaT. *)
Definition nat_strings : list string :=
  [""; "NaT"; "nat"; "NAT"; "nan"; "NaN"; "NAN"].

(** The year, month and day written in a string of the format
    ['%Y-%m-%d']: four digits, a month from 1 to 12 and a day from 1 to 31,
    each of these two in one or two digits. *)
Definition ymd_fields (s : string) : option (Z * Z * Z) :=
  match split_on "-"%char s with
  | [ys; ms; ds] =>
      if Nat.eqb (String.length ys) 4
         && (Nat.leb 1 (String.length ms) && Nat.leb (String.length ms) 2)
         && (Nat.leb 1 (String.length ds) && Nat.leb (String.length ds) 2)
      then
        match digits_value ys 0, digits_value ms 0, digits_value ds 0 with
        | Some y, Some m, Some d =>
            if (1 <=? m) && (m <=? 12) && (1 <=? d) && (d <=? 31)
            then Some (y, m, d) else None
        | _, _, _ => None
        end
      else None
  | _ => None
  end.

Definition in_format_ymd (s : string) : bool :=
  match ymd_fields s with Some _ => true | None => false end.

(** A reader of ['%Y-%m-%d'] in the way of pandas: the strings of
    [nat_strings] give NaT; a string of the format gives its date when that
    is a date of the calendar within the range of nanosecond timestamps;
    anything else is an error.  The messages are shortened. *)
Definition read_ymd (c : cell) : exn + option Timestamp :=
  let bad := raise (ValueError "time data doesn't match format '%Y-%m-%d'") in
  match c with
  | CStr s =>
      if existsb (String.eqb s) nat_strings then inr None
      else
        match ymd_fields s with
        | Some (y, m, d) =>
            if d <=? days_in_month y m
            then if (days_from_civil 1677 9 22 <=? days_from_civil y m d)
                    && (days_from_civil y m d <=? days_from_civil 2262 4 11)
                 then inr (Some (mkTimestamp y m d 0))
                 else raise (ValueError "Out of bounds nanosecond timestamp")
            else raise (ValueError "day is out of range for month")
        | None => bad
        end
  | CTime t => inr (Some t)
  | CNaT => inr None
  | CInt _ | CFloat _ => bad
  end.

(** The sample library.  Its parser is [read_ymd]; its resampler checks
    the column it is given and hands the frame on as it is, and its fits and
    tests return fixed numbers: they stand for the library routines as far
    as errors and the flow of data are concerned.  The STL fit wants an odd
    smoother length of at least 3 and a period of at least 2, the
    Dickey-Fuller test at least four observations. *)
Definition sample_library : Library :=
  mkLibrary
    (fun fmt c =>
       if String.eqb fmt "%Y-%m-%d" then read_ymd c
       else raise (ValueError "format outside the sample parser"))
    (fun df => df)
    (fun _ on df =>
       match get_col on (df_columns df) with
       | Some (ColDatetime _) => inr df
       | Some _ =>
           raise (TypeError "Only valid with DatetimeIndex, TimedeltaIndex or PeriodIndex")
       | None =>
           raise (KeyError
                    (KeyStr (String.append "The grouper name "
                               (String.append on " is not found"))))
       end)
    (fun s period k =>
       if match period with Some p => p <? 2 | None => false end
       then raise (ValueError "period must be a positive integer >= 2")
       else if (k <? 3) || Z.even k
       then raise (ValueError "seasonal must be an odd positive integer >= 3")
       else if Nat.ltb (col_length (s_values s)) 2
       then raise (ValueError "too few observations")
       else inr (mkDecomposeResult s s s s))
    (fun s =>
       if Nat.ltb (col_length (s_values s)) 4
       then raise (ValueError "sample size is too short to use selected regression component")
       else inr (mkAdfResult (-3.5)%float 0.01%float 0
                   (Z.of_nat (col_length (s_values s)) - 1) [] 0%float))
    (fun _ => inr tt)
    (fun _ => inr tt).

(** Three reviews, one listing without a review date. *)
Definition raw_reviews : DataFrame :=
  mkDataFrame (range_index 4) None
    [("id", ColInt [101; 102; 103; 104]);
     ("last_review", ColObj [Some "2019-05-21"; None; Some "2019-05-21"; Some "2018-11-03"])].

Definition world0 : world := mkWorld {[ 0%nat := raw_reviews ]} [].

(* ================================================================== *)
(** ** Notions used in the statements, and sample frames *)
(* ================================================================== *)

Definition Timestamp_eq_dec (a b : Timestamp) : {a = b} + {a <> b}.
Proof. decide equality; apply Z.eq_dec. Defined.

Definition date_eq_dec (a b : option Timestamp) : {a = b} + {a <> b}.
Proof. decide equality; apply Timestamp_eq_dec. Defined.

Definition label_eq_dec (a b : option string) : {a = b} + {a <> b}.
Proof. decide equality; apply String.string_dec. Defined.

(** Three cleaned reviews on two dates. *)
Definition clean_reviews : DataFrame :=
  mkDataFrame (ColInt [0; 2; 3]) None
    [("id", ColInt [101; 103; 104]);
     ("last_review",
      ColDatetime [Some (mkTimestamp 2019 5 21 0); Some (mkTimestamp 2019 5 21 0);
                   Some (mkTimestamp 2018 11 3 0)])].

Definition world1 : world := mkWorld {[ 1%nat := clean_reviews ]} [].

(** The non-missing entries of a column, as scalars. *)
Definition present_cells (c : column) : list cell :=
  match c with
  | ColObj l => map CStr (somes l)
  | ColDatetime l => map CTime (somes l)
  | ColInt l => map CInt l
  | ColFloat l => map CFloat (not_nan l)
  end.

(** What [pd.to_datetime] does with one non-missing entry: a timestamp is
    kept, anything else goes through the parser. *)
Definition convert (lib : Library) (c : cell) : exn + option Timestamp :=
  match c with
  | CTime t => inr (Some t)
  | _ => strptime lib "%Y-%m-%d" c
  end.

(** The frame [timeseries_data] builds from the kept rows and the
    converted dates [ts], some of which may be NaT: the year, month and day
    of every date, as [.dt] gives them. *)
Definition cleaned (df : DataFrame) (date_column : string) (col : column)
    (ts : list (option Timestamp)) : DataFrame :=
  let m := col_notnull col in
  mkDataFrame (col_mask m (df_index df)) (df_index_name df)
    (set_col "day" (field_values ts_day ts)
       (set_col "month" (field_values ts_month ts)
          (set_col "year" (field_values ts_year ts)
             (set_col date_column (ColDatetime ts)
                (map (fun nc => (fst nc, col_mask m (snd nc))) (df_columns df)))))).

Definition date_range (df : DataFrame) (col : column) (ts : list (option Timestamp))
  : event :=
  let s := mkSeries (col_mask (col_notnull col) (df_index df)) (df_index_name df)
             (ColDatetime ts) in
  Print (series_min (s None)) (series_max (s None)).

(** A frame whose date column is called [day]. *)
Definition day_reviews : DataFrame :=
  mkDataFrame (range_index 2) None
    [("id", ColInt [101; 102]); ("day", ColObj [Some "2019-05-21"; None])].

Definition world_day : world := mkWorld {[ 0%nat := day_reviews ]} [].

(** A frame with a date written day first. *)
Definition bad_reviews : DataFrame :=
  mkDataFrame (range_index 3) None
    [("last_review", ColObj [Some "2019-05-21"; None; Some "21/05/2019"])].

(** A frame with dates the parser reads as NaT: the empty string and the
    text NaT are not missing values, so [dropna] keeps their rows. *)
Definition blank_reviews : DataFrame :=
  mkDataFrame (range_index 4) None
    [("id", ColInt [101; 102; 103; 104]);
     ("last_review", ColObj [Some "2019-05-21"; Some ""; None; Some "NaT"])].

Definition world_blank : world := mkWorld {[ 0%nat := blank_reviews ]} [].

(** Five cleaned reviews, one in each of five months. *)
Definition monthly_reviews : DataFrame :=
  mkDataFrame (range_index 5) None
    [("id", ColInt [101; 102; 103; 104; 105]);
     ("last_review",
      ColDatetime [Some (mkTimestamp 2019 1 31 0); Some (mkTimestamp 2019 2 28 0);
                   Some (mkTimestamp 2019 3 31 0); Some (mkTimestamp 2019 4 30 0);
                   Some (mkTimestamp 2019 5 31 0)])].

Definition world_monthly : world := mkWorld {[ 1%nat := monthly_reviews ]} [].

(** Line 249: the day name of every date. *)
Definition weekday_names (dates : list (option Timestamp)) : list (option string) :=
  map (option_map ts_day_name) dates.

Definition with_column (df : DataFrame) (name : string) (v : column) : DataFrame :=
  mkDataFrame (df_index df) (df_index_name df) (set_col name v (df_columns df)).

Definition reindexed_counts (dates : list (option Timestamp)) : column :=
  let g := group_sizes String.compare (somes (weekday_names dates)) in
  col_take (map (fun lbl => find_label lbl (map (fun p => Some (fst p)) g)) weekday_order)
    (ColInt (map snd g)).


(** A single review: too short a series for the sample STL fit and the
    sample Dickey-Fuller test. *)
Definition short_reviews : DataFrame :=
  mkDataFrame (range_index 1) None
    [("last_review", ColDatetime [Some (mkTimestamp 2019 5 21 0)]);
     ("number_of_reviews", ColInt [1])].

(** The kinds of Python values the seven functions return. *)
Inductive shape :=
| SFrame                      (* a DataFrame *)
| SSeries                     (* a Series *)
| SBool
| SDecompose                  (* a statsmodels DecomposeResult *)
| STuple (items : list shape).

Inductive pyvalue :=
| VFrame (df : DataFrame)
| VSeries (s : Series)
| VBool (b : bool)
| VDecompose (d : DecomposeResult)
| VTuple (items : list pyvalue).

Fixpoint shape_of (v : pyvalue) : shape :=
  match v with
  | VFrame _ => SFrame
  | VSeries _ => SSeries
  | VBool _ => SBool
  | VDecompose _ => SDecompose
  | VTuple items => STuple (map shape_of items)
  end.

Inductive function_name :=
| Timeseries_data
| Plot_timeseries_data
| Decompose_and_plot_timeseries
| Stationarity_and_acf_pacf_plots
| Plot_annual_reviews_and_growth
| Plot_general_monthly_reviews
| Plot_weekday_reviews.

(** One entry point for the seven functions, the result injected into
    [pyvalue]. *)
Definition call (lib : Library) (f : function_name) (data : nat)
    (date_column value_column : string) (seasonal_period : Z) : M pyvalue :=
  match f with
  | Timeseries_data =>
      x <- timeseries_data lib data date_column ;; ret (VFrame x)
  | Plot_timeseries_data =>
      x <- plot_timeseries_data lib data date_column value_column ;;
      ret (VTuple [VFrame (fst x);
                   VTuple [VFrame (fst (snd x)); VFrame (snd (snd x))]])
  | Decompose_and_plot_timeseries =>
      x <- decompose_and_plot_timeseries lib data date_column value_column
             seasonal_period ;;
      ret (VDecompose x)
  | Stationarity_and_acf_pacf_plots =>
      x <- stationarity_and_acf_pacf_plots lib data value_column ;;
      ret (VTuple [VSeries (fst x); VBool (snd x)])
  | Plot_annual_reviews_and_growth =>
      x <- plot_annual_reviews_and_growth data date_column value_column ;;
      ret (VFrame x)
  | Plot_general_monthly_reviews =>
      x <- plot_general_monthly_reviews data date_column value_column ;;
      ret (VFrame x)
  | Plot_weekday_reviews =>
      x <- plot_weekday_reviews data date_column value_column ;; ret (VFrame x)
  end.

(** The events a call added to the world. *)
Definition new_events (w w' : world) : list event :=
  skipn (length (console w)) (console w').

(** A chart is rendered when [plt.show()] is called. *)
Definition shows_chart (evs : list event) : bool :=
  existsb (fun e => match e with
                    | Plt name _ _ => String.eqb name "show"
                    | Print _ _ => false
                    end) evs.

Definition expected_shape (f : function_name) : shape :=
  match f with
  | Plot_timeseries_data => STuple [SFrame; STuple [SFrame; SFrame]]
  | Decompose_and_plot_timeseries => SDecompose
  | Stationarity_and_acf_pacf_plots => STuple [SSeries; SBool]
  | _ => SFrame
  end.

Definition renders_chart (f : function_name) : bool :=
  match f with
  | Timeseries_data => false
  | _ => true
  end.

(** Sum of a count column. *)
Definition total_count (counts : list Z) : Z := fold_right Z.add 0 counts.

(** Chronological order on timestamps. *)
Definition ts_lt (a b : Timestamp) : Prop := ts_compare a b = Lt.

(** A rectangular frame: every column is as long as the index. *)
Definition well_formed (df : DataFrame) : Prop :=
  Forall (fun nc => col_length (snd nc) = col_length (df_index df)) (df_columns df).

(** Number of rows a boolean mask keeps. *)
Definition kept (m : list bool) : nat := length (List.filter (fun b => b) m).

(** Line 170 for one pair of consecutive counts: growth in percent. *)
Definition growth (prev cur : Z) : float :=
  PrimFloat.mul
    (PrimFloat.sub (PrimFloat.div (float_of_Z cur) (float_of_Z prev)) 1%float)
    100%float.

(** The frame [plot_annual_reviews_and_growth] builds from the years of
    the dates. *)
Definition annual_frame (value_column_name : string) (years : list Z) : DataFrame :=
  let g := group_sizes Z.compare years in
  mkDataFrame (range_index (length g)) None
    [("year", ColInt (map fst g));
     (value_column_name, ColInt (map snd g));
     ("growth_rate",
      ColFloat (map (fun x => PrimFloat.mul x 100%float)
                  match map float_of_Z (map snd g) with
                  | [] => []
                  | x :: rest => PrimFloat.nan :: ratios x rest
                  end))].

(** The frame [plot_general_monthly_reviews] builds from the months of
    the dates. *)
Definition monthly_frame (value_column_name : string) (months : list Z) : DataFrame :=
  let g := group_sizes Z.compare months in
  mkDataFrame (range_index (length g)) None
    [("month", ColInt (map fst g)); (value_column_name, ColInt (map snd g))].

(** The caller's dates, before and after. *)
Definition year_reviews : DataFrame :=
  mkDataFrame (range_index 2) None
    [("year", ColDatetime [Some (mkTimestamp 2019 5 21 0); Some (mkTimestamp 2018 11 3 0)])].

(** Two listings, neither with a review date. *)
Definition unreviewed : DataFrame :=
  mkDataFrame (range_index 2) None
    [("id", ColInt [7; 8]); ("last_review", ColObj [None; None])].

(** The cleaned reviews with other listing columns. *)
Definition clean_reviews_priced : DataFrame :=
  mkDataFrame (ColInt [0; 2; 3]) None
    [("price", ColFloat [80%float; 120%float; 95%float]);
     ("host", ColObj [Some "Ann"; None; Some "Bo"]);
     ("last_review",
      ColDatetime [Some (mkTimestamp 2019 5 21 0); Some (mkTimestamp 2019 5 21 0);
                   Some (mkTimestamp 2018 11 3 0)])].

(** The sample library, with a partial autocorrelation plot that refuses
    series of fewer than six observations. *)
Definition short_pacf_library : Library :=
  mkLibrary
    (strptime sample_library) (describe sample_library) (resample_sum sample_library)
    (STL_fit sample_library) (adfuller sample_library) (plot_acf sample_library)
    (fun s =>
       if Nat.ltb (col_length (s_values s)) 6
       then raise (ValueError "Can only compute partial correlations for lags up to 50% of the sample size")
       else inr tt).

(* ================================================================== *)
(** ** Facts about worlds *)
(* ================================================================== *)

Lemma heap_add_event (e : event) (w : world) : heap (add_event e w) = heap w.
Proof. reflexivity. Qed.

Lemma console_add_event (e : event) (w : world) :
  console (add_event e w) = console w ++ [e].
Proof. reflexivity. Qed.

Lemma heap_set_frame (r : nat) (df : DataFrame) (w : world) :
  heap (set_frame r df w) = <[r := df]> (heap w).
Proof. reflexivity. Qed.

Lemma console_set_frame (r : nat) (df : DataFrame) (w : world) :
  console (set_frame r df w) = console w.
Proof. reflexivity. Qed.

Ltac world_simpl :=
  repeat (rewrite ?heap_add_event, ?heap_set_frame, ?console_add_event,
            ?console_set_frame, ?lookup_insert_eq; cbn [fst snd]).

Ltac run_monad :=
  unfold bind, lift, plt, emit, ret, deref, assign; cbn [fst snd].

Ltac crunch :=
  repeat (world_simpl;
          match goal with
          | |- context [match ?x with _ => _ end] =>
              lazymatch x with
              | context [match _ with _ => _ end] => fail
              | _ => destruct x eqn:?
              end
          end);
  world_simpl.

(* ================================================================== *)
(** ** Facts about the pandas model *)
(* ================================================================== *)

Lemma ts_compare_eq (a b : Timestamp) : ts_compare a b = Eq <-> a = b.
Proof.
  unfold ts_compare. destruct a as [y m d n], b as [y' m' d' n']; simpl.
  split.
  - destruct (y ?= y') eqn:Hy; try discriminate.
    destruct (m ?= m') eqn:Hm; try discriminate.
    destruct (d ?= d') eqn:Hd; try discriminate.
    intros Hn.
    apply Z.compare_eq_iff in Hy, Hm, Hd, Hn. congruence.
  - intros H. injection H as -> -> -> ->. now rewrite !Z.compare_refl.
Qed.

Lemma string_compare_eq (a b : string) : String.compare a b = Eq <-> a = b.
Proof.
  split.
  - apply String.compare_eq_iff.
  - intros ->. revert b. induction b as [|c b IH]; simpl; [reflexivity|].
    assert (Ascii.compare c c = Eq) as ->; [|exact IH].
    unfold Ascii.compare. apply N.compare_refl.
Qed.

Section TallyFacts.
Context {K : Type} (cmp : K -> K -> comparison).
Hypothesis cmp_eq : forall a b, cmp a b = Eq <-> a = b.
Variable K_dec : forall a b : K, {a = b} + {a <> b}.

Lemma bump_keys (k k0 : K) (acc : list (K * Z)) :
  List.In k0 (map fst (bump cmp k acc)) <-> k0 = k \/ List.In k0 (map fst acc).
Proof.
  induction acc as [|[k' n] rest IH]; simpl.
  - intuition.
  - destruct (cmp k k') eqn:E; simpl.
    + apply cmp_eq in E. subst k'. intuition.
    + rewrite IH. intuition.
    + rewrite IH. intuition.
Qed.

Lemma bump_NoDup (k : K) (acc : list (K * Z)) :
  List.NoDup (map fst acc) -> List.NoDup (map fst (bump cmp k acc)).
Proof.
  induction acc as [|[k' n] rest IH]; simpl; intros H.
  - constructor; [intros [] | constructor].
  - apply List.NoDup_cons_iff in H as [Hn Hr].
    destruct (cmp k k') eqn:E; simpl.
    + constructor; assumption.
    + constructor; [|auto]. rewrite bump_keys. intros [->|Hin]; [|tauto].
      assert (cmp k k = Eq) by now apply cmp_eq. congruence.
    + constructor; [|auto]. rewrite bump_keys. intros [->|Hin]; [|tauto].
      assert (cmp k k = Eq) by now apply cmp_eq. congruence.
Qed.

Lemma bump_assoc_same (k : K) (acc : list (K * Z)) :
  assoc K_dec k (bump cmp k acc) =
  Some (match assoc K_dec k acc with Some n => n + 1 | None => 1 end).
Proof.
  induction acc as [|[k' n] rest IH]; simpl.
  - destruct (K_dec k k); congruence.
  - destruct (cmp k k') eqn:E.
    + apply cmp_eq in E. subst k'. simpl. destruct (K_dec k k); congruence.
    + simpl. destruct (K_dec k k') as [->|]; [|exact IH].
      assert (cmp k' k' = Eq) by now apply cmp_eq. congruence.
    + simpl. destruct (K_dec k k') as [->|]; [|exact IH].
      assert (cmp k' k' = Eq) by now apply cmp_eq. congruence.
Qed.

Lemma bump_assoc_other (k k0 : K) (acc : list (K * Z)) :
  k0 <> k -> assoc K_dec k0 (bump cmp k acc) = assoc K_dec k0 acc.
Proof.
  intros Hne. induction acc as [|[k' n] rest IH]; simpl.
  - destruct (K_dec k0 k); congruence.
  - destruct (cmp k k') eqn:E; simpl.
    + apply cmp_eq in E. subst k'. destruct (K_dec k0 k); congruence.
    + destruct (K_dec k0 k'); [reflexivity | exact IH].
    + destruct (K_dec k0 k'); [reflexivity | exact IH].
Qed.

(** The tally after reading [l] on top of [acc]. *)
Lemma fold_bump (l : list K) : forall acc,
  List.NoDup (map fst acc) ->
  List.NoDup (map fst (fold_left (fun a k => bump cmp k a) l acc)) /\
  forall k,
    assoc K_dec k (fold_left (fun a k => bump cmp k a) l acc) =
    match count_occ K_dec l k, assoc K_dec k acc with
    | O, r => r
    | S c, Some n => Some (n + Z.of_nat (S c))
    | S c, None => Some (Z.of_nat (S c))
    end.
Proof.
  induction l as [|x l IH]; intros acc Hnd.
  - simpl. split; [assumption | reflexivity].
  - cbn [fold_left]. destruct (IH (bump cmp x acc) (bump_NoDup x acc Hnd)) as [H1 H2].
    split; [exact H1|]. intros k. rewrite H2. cbn [count_occ].
    destruct (K_dec x k) as [->|Hne].
    + rewrite bump_assoc_same.
      destruct (count_occ K_dec l k), (assoc K_dec k acc); f_equal; lia.
    + rewrite bump_assoc_other by congruence. reflexivity.
Qed.

Lemma assoc_In (acc : list (K * Z)) (k : K) (n : Z) :
  List.NoDup (map fst acc) -> (List.In (k, n) acc <-> assoc K_dec k acc = Some n).
Proof.
  induction acc as [|[k' m] rest IH]; simpl; intros Hnd.
  - split; [intros [] | discriminate].
  - apply List.NoDup_cons_iff in Hnd as [Hn Hr]. specialize (IH Hr).
    destruct (K_dec k k') as [->|Hne].
    + split.
      * intros [E|Hin]; [congruence|].
        exfalso. apply Hn. apply (in_map fst) in Hin. exact Hin.
      * intros E. left. congruence.
    + rewrite <- IH. split; [intros [E|Hin]; [congruence | assumption] | tauto].
Qed.

Lemma insert_by_key_perm (e : K * Z) (l : list (K * Z)) :
  Permutation (insert_by_key cmp e l) (e :: l).
Proof.
  induction l as [|e' rest IH]; simpl; [reflexivity|].
  destruct (cmp (fst e) (fst e')); try reflexivity.
  rewrite IH. apply perm_swap.
Qed.

Lemma sort_by_key_perm (l : list (K * Z)) : Permutation (sort_by_key cmp l) l.
Proof.
  induction l as [|e rest IH]; simpl; [reflexivity|].
  rewrite insert_by_key_perm. now constructor.
Qed.

(** The groups are the distinct keys, each with its number of
    occurrences. *)
Lemma group_sizes_spec (l : list K) :
  List.NoDup (map fst (group_sizes cmp l)) /\
  forall k n,
    List.In (k, n) (group_sizes cmp l) <->
    List.In k l /\ n = Z.of_nat (count_occ K_dec l k).
Proof.
  unfold group_sizes, tally.
  destruct (fold_bump l [] (List.NoDup_nil K)) as [Hnd Hassoc].
  set (t := fold_left (fun a k => bump cmp k a) l []) in *.
  pose proof (sort_by_key_perm t) as Hp.
  split.
  - eapply Permutation_NoDup; [|exact Hnd].
    apply Permutation_map. symmetry. exact Hp.
  - intros k n. transitivity (List.In (k, n) t).
    + split; apply Permutation_in; [exact Hp | symmetry; exact Hp].
    + rewrite (assoc_In t k n Hnd), Hassoc. simpl.
      destruct (count_occ K_dec l k) eqn:Hc.
      * split; [discriminate|]. intros [Hin _].
        apply (count_occ_In K_dec) in Hin. lia.
      * split.
        -- intros E. injection E as <-. split; [|reflexivity].
           apply (count_occ_In K_dec). lia.
        -- intros [_ ->]. reflexivity.
Qed.
End TallyFacts.

Lemma In_somes {A : Type} (l : list (option A)) (x : A) :
  List.In x (somes l) <-> List.In (Some x) l.
Proof.
  unfold somes. induction l as [|[y|] l IH]; simpl.
  - tauto.
  - rewrite IH. split; intros [E|H]; auto; left; congruence.
  - rewrite IH. split; [auto | intros [E|H]; [discriminate | assumption]].
Qed.

Lemma count_occ_somes {A : Type}
    (dec : forall a b : A, {a = b} + {a <> b})
    (odec : forall a b : option A, {a = b} + {a <> b})
    (l : list (option A)) (t : A) :
  count_occ dec (somes l) t = count_occ odec l (Some t).
Proof.
  unfold somes. induction l as [|[y|] l IH]; cbn [flat_map app count_occ].
  - reflexivity.
  - destruct (dec y t), (odec (Some y) (Some t)); congruence.
  - destruct (odec None (Some t)); [discriminate | exact IH].
Qed.

Lemma get_col_hd (c : string) (v : column) (rest : list (string * column)) :
  get_col c ((c, v) :: rest) = Some v.
Proof. simpl. now rewrite String.eqb_refl. Qed.

Lemma get_col_tl (c c' : string) (v : column) (rest : list (string * column)) :
  c' <> c -> get_col c ((c', v) :: rest) = get_col c rest.
Proof. intros H. simpl. apply String.eqb_neq in H. now rewrite H. Qed.

Lemma attr_year_datetime (o : option Timestamp) :
  exists c, attr_year (cell_of CTime CNaT o) = inr c.
Proof. destruct o; simpl; eauto. Qed.

Lemma attr_year_other {A : Type} (inj : A -> cell) (o : option A) :
  (forall x, exists e, attr_year (inj x) = inl e) ->
  exists e, attr_year (cell_of inj (CFloat PrimFloat.nan) o) = inl e.
Proof. intros H. destruct o; simpl; [apply H | eexists; reflexivity]. Qed.

(** The rows of a groupby-size frame, read position by position. *)
Lemma group_rows {K : Type} (g : list (K * Z)) (i : nat) (k : K) :
  nth_error (map fst g) i = Some k ->
  exists n, nth_error (map snd g) i = Some n /\ List.In (k, n) g.
Proof.
  revert i. induction g as [|[k' n] g IH]; intros [|i]; simpl; try discriminate.
  - intros E. injection E as ->. eauto.
  - intros E. destruct (IH i E) as (m & Hm & Hin). eauto.
Qed.

(* ================================================================== *)
(** ** plot_timeseries_data *)
(* ================================================================== *)

(** The call returns only on a datetime64 date column, and only when the
    count column is given another name than the date column. *)
Lemma plot_timeseries_data_returns_only_if
    (lib : Library) (data : nat) (date_column value_column : string)
    (w w' : world) (df : DataFrame) r :
  heap w !! data = Some df ->
  plot_timeseries_data lib data date_column value_column w = (inr r, w') ->
  date_column <> value_column /\
  exists dates, get_col date_column (df_columns df) = Some (ColDatetime dates).
Proof.
  intros Hh. unfold plot_timeseries_data, bind, deref. rewrite Hh.
  unfold lift at 1, groupby_size.
  destruct (get_col date_column (df_columns df)) as [c|] eqn:Hc; [|discriminate].
  cbn [fst snd]. unfold lift at 1, series_reset_index. cbn [s_index_name].
  destruct (String.eqb date_column value_column) eqn:E; [discriminate|].
  apply String.eqb_neq in E. intros H. split; [exact E|].
  unfold plt, emit, lift, getitem in H; cbn [df_columns] in H.
  rewrite get_col_hd in H. rewrite get_col_tl, get_col_hd in H by exact E.
  cbn [s_values s_index s_index_name] in H.
  destruct c as [l|l|l|l]; [exfalso|eauto|exfalso|exfalso];
    unfold series_min in H; cbn [s_values fst] in H.
  - destruct (attr_year_other CStr
                (opt_min String.ltb (somes (map (fun p => Some (fst p))
                   (group_sizes String.compare (somes l))))))
      as [e He]; [intros; eexists; reflexivity|].
    rewrite He in H. discriminate.
  - destruct (attr_year_other CInt
                (opt_min Z.ltb (map fst (group_sizes Z.compare l))))
      as [e He]; [intros; eexists; reflexivity|].
    rewrite He in H. discriminate.
  - destruct (attr_year_other CFloat
                (opt_min PrimFloat.ltb
                   (not_nan (map fst (group_sizes float_compare (not_nan l))))))
      as [e He]; [intros; eexists; reflexivity|].
    rewrite He in H. discriminate.
Qed.

(** C1.  On a dataframe whose date column is a datetime column, and with a
    count column named differently, [plot_timeseries_data] returns a frame
    of two columns, the date column and the count column, holding one row
    per distinct date of the input (no date twice, every date of the input
    present, no other date), and the count of a row is the number of input
    rows whose date column equals the row's date.  Rows whose date is
    missing (NaT) belong to no group. *)
Theorem plot_timeseries_data_counts
    (lib : Library) (data : nat) (date_column value_column : string)
    (w : world) (df : DataFrame) (dates : list (option Timestamp)) :
  heap w !! data = Some df ->
  get_col date_column (df_columns df) = Some (ColDatetime dates) ->
  date_column <> value_column ->
  exists out stats w' keys counts,
    plot_timeseries_data lib data date_column value_column w
      = (inr (out, stats), w') /\
    heap w' = heap w /\
    df_columns out =
      [(date_column, ColDatetime (map Some keys)); (value_column, ColInt counts)] /\
    df_index out = range_index (length keys) /\
    List.NoDup keys /\
    length counts = length keys /\
    (forall t, List.In t keys <-> List.In (Some t) dates) /\
    (forall i t,
        nth_error keys i = Some t ->
        nth_error counts i =
          Some (Z.of_nat (count_occ date_eq_dec dates (Some t)))).
Proof.
  intros Hh Hc Hne.
  pose proof (group_sizes_spec ts_compare ts_compare_eq Timestamp_eq_dec (somes dates))
    as [Hnd Hspec].
  set (g := group_sizes ts_compare (somes dates)) in *.
  unfold plot_timeseries_data, bind, deref. rewrite Hh.
  unfold lift at 1, groupby_size. rewrite Hc. cbn [fst snd]. fold g.
  unfold lift at 1, series_reset_index. cbn [s_index_name].
  apply String.eqb_neq in Hne as Hneb. rewrite Hneb.
  unfold plt, emit, lift, getitem, ret; cbn [df_columns].
  rewrite get_col_hd. rewrite get_col_tl, get_col_hd by exact Hne.
  cbn [s_values s_index s_index_name]. unfold series_min, series_max; cbn [s_values].
  destruct (attr_year_datetime
              (opt_min ts_ltb (somes (map (fun p => Some (fst p)) g)))) as [lo ->].
  destruct (attr_year_datetime
              (opt_min (fun a b => ts_ltb b a)
                 (somes (map (fun p => Some (fst p)) g)))) as [hi ->].
  eexists _, _, _, (map fst g), (map snd g).
  split; [reflexivity|]. cbn [df_columns df_index].
  split; [now rewrite !heap_add_event|].
  split; [now rewrite map_map|].
  split; [unfold col_length; now rewrite !length_map|].
  split; [exact Hnd|].
  split; [now rewrite !length_map|].
  split.
  - intros t. rewrite <- In_somes. split.
    + intros Hin. apply in_map_iff in Hin as [[k n] [E Hin]]. simpl in E. subst k.
      apply Hspec in Hin. tauto.
    + intros Hin. apply in_map_iff.
      exists (t, Z.of_nat (count_occ Timestamp_eq_dec (somes dates) t)).
      split; [reflexivity|]. apply Hspec. tauto.
  - intros i t Hi. destruct (group_rows g i t Hi) as (n & Hn & Hin).
    apply Hspec in Hin as [_ ->]. rewrite Hn.
    now rewrite (count_occ_somes Timestamp_eq_dec date_eq_dec).
Qed.

Lemma plot_timeseries_data_counts_witness :
  exists out stats w' keys counts,
    plot_timeseries_data sample_library 1 "last_review" "number_of_reviews" world1
      = (inr (out, stats), w') /\
    heap w' = heap world1 /\
    df_columns out =
      [("last_review", ColDatetime (map Some keys));
       ("number_of_reviews", ColInt counts)] /\
    df_index out = range_index (length keys) /\
    List.NoDup keys /\
    length counts = length keys /\
    (forall t, List.In t keys <->
               List.In (Some t)
                 [Some (mkTimestamp 2019 5 21 0); Some (mkTimestamp 2019 5 21 0);
                  Some (mkTimestamp 2018 11 3 0)]) /\
    (forall i t,
        nth_error keys i = Some t ->
        nth_error counts i =
          Some (Z.of_nat (count_occ date_eq_dec
                 [Some (mkTimestamp 2019 5 21 0); Some (mkTimestamp 2019 5 21 0);
                  Some (mkTimestamp 2018 11 3 0)] (Some t)))).
Proof.
  apply (plot_timeseries_data_counts sample_library 1 "last_review"
           "number_of_reviews" world1 clean_reviews).
  - reflexivity.
  - reflexivity.
  - discriminate.
Defined.

Example plot_timeseries_data_sample :
  fst (plot_timeseries_data sample_library 1 "last_review" "number_of_reviews" world1)
  = inr (let out :=
           mkDataFrame (ColInt [0; 1]) None
             [("last_review",
               ColDatetime [Some (mkTimestamp 2018 11 3 0); Some (mkTimestamp 2019 5 21 0)]);
              ("number_of_reviews", ColInt [1; 2])] in
         (out, (out, out))).
Proof. vm_compute. reflexivity. Qed.

(* ================================================================== *)
(** ** timeseries_data *)
(* ================================================================== *)

Lemma get_set_same (c : string) (v : column) (cols : list (string * column)) :
  get_col c (set_col c v cols) = Some v.
Proof.
  induction cols as [|[n x] rest IH]; simpl.
  - now rewrite String.eqb_refl.
  - destruct (String.eqb n c) eqn:E; simpl; rewrite E; [reflexivity | exact IH].
Qed.

Lemma get_set_other (c c' : string) (v : column) (cols : list (string * column)) :
  c <> c' -> get_col c (set_col c' v cols) = get_col c cols.
Proof.
  intros Hne. induction cols as [|[n x] rest IH]; simpl.
  - assert (String.eqb c' c = false) as -> by (apply String.eqb_neq; congruence).
    reflexivity.
  - destruct (String.eqb n c') eqn:E; simpl.
    + apply String.eqb_eq in E. subst n.
      assert (String.eqb c' c = false) as -> by (apply String.eqb_neq; congruence).
      reflexivity.
    + destruct (String.eqb n c); [reflexivity | exact IH].
Qed.

Lemma get_col_map (f : column -> column) (c : string) (cols : list (string * column)) :
  get_col c (map (fun nc => (fst nc, f (snd nc))) cols) = option_map f (get_col c cols).
Proof.
  induction cols as [|[n x] rest IH]; simpl; [reflexivity|].
  destruct (String.eqb n c); [reflexivity | exact IH].
Qed.

Lemma mask_somes {A : Type} (l : list (option A)) :
  mask_filter (map is_some l) l = map Some (somes l).
Proof.
  unfold somes. induction l as [|[x|] l IH]; simpl; [reflexivity | now f_equal | exact IH].
Qed.

Lemma mask_all {A : Type} (l : list A) : mask_filter (map (fun _ => true) l) l = l.
Proof. induction l as [|x l IH]; simpl; [reflexivity | now f_equal]. Qed.

Lemma mask_not_nan (l : list float) :
  mask_filter (map (fun f => negb (PrimFloat.is_nan f)) l) l = not_nan l.
Proof.
  unfold not_nan. induction l as [|x l IH]; cbn [map mask_filter List.filter];
    [reflexivity|].
  destruct (negb (PrimFloat.is_nan x)); [now f_equal | exact IH].
Qed.

Lemma mapM_map {A B C : Type} (g : A -> B) (f : B -> exn + C) (l : list A) :
  mapM f (map g l) = mapM (fun x => f (g x)) l.
Proof.
  induction l as [|x l IH]; simpl; [reflexivity|]. now rewrite IH.
Qed.

Lemma mapM_ext {A B : Type} (f g : A -> exn + B) (l : list A) :
  (forall x, List.In x l -> f x = g x) -> mapM f l = mapM g l.
Proof.
  induction l as [|x l IH]; simpl; intros H; [reflexivity|].
  rewrite (H x) by auto. rewrite IH by auto. reflexivity.
Qed.

Lemma mapM_pure {A B : Type} (g : A -> B) (l : list A) :
  mapM (fun x => inr (g x) : exn + B) l = inr (map g l).
Proof. induction l as [|x l IH]; simpl; [reflexivity | now rewrite IH]. Qed.

(** Line 23 on the frame left by line 20: the conversion sees exactly the
    non-missing entries, in row order, each of them read in the format
    '%Y-%m-%d', and raises what the parser raises on the first entry it
    raises on. *)
Lemma to_datetime_after_dropna
    (lib : Library) (col idx : column) (iname nm : option string) :
  to_datetime lib "%Y-%m-%d" (mkSeries idx iname (col_mask (col_notnull col) col) nm) =
  match mapM (convert lib) (present_cells col) with
  | inl e => inl e
  | inr ts => inr (mkSeries idx iname (ColDatetime ts) nm)
  end.
Proof.
  destruct col as [l|l|l|l]; unfold to_datetime, present_cells;
    cbn [col_notnull col_mask s_values s_index s_index_name s_name].
  - rewrite mask_somes, !mapM_map. reflexivity.
  - rewrite mask_somes, mapM_map. cbn [convert].
    now rewrite (mapM_pure (@Some Timestamp)).
  - rewrite mask_all, !mapM_map. reflexivity.
  - rewrite mask_not_nan.
    assert (map (fun f => if PrimFloat.is_nan f then None else Some (CFloat f)) (not_nan l)
            = map Some (map CFloat (not_nan l))) as ->.
    { rewrite map_map. apply map_ext_in. intros f Hf.
      apply filter_In in Hf as [_ Hf]. now destruct (PrimFloat.is_nan f). }
    rewrite !mapM_map. reflexivity.
Qed.

Lemma field_values_full (f : Timestamp -> Z) (ts : list Timestamp) :
  field_values f (map Some ts) = ColInt (map f ts).
Proof.
  unfold field_values.
  assert (forallb is_some (map Some ts) = true) as ->.
  { induction ts; simpl; auto. }
  now rewrite map_map.
Qed.

Lemma dt_field_datetime (f : Timestamp -> Z) (idx : column) (iname nm : option string)
    (ts : list (option Timestamp)) :
  dt_field f (mkSeries idx iname (ColDatetime ts) nm)
  = inr (mkSeries idx iname (field_values f ts) nm).
Proof. reflexivity. Qed.

Lemma dt_field_full (f : Timestamp -> Z) (idx : column) (iname nm : option string)
    (ts : list Timestamp) :
  dt_field f (mkSeries idx iname (ColDatetime (map Some ts)) nm)
  = inr (mkSeries idx iname (ColInt (map f ts)) nm).
Proof.
  unfold dt_field. cbn [s_values s_index s_index_name s_name].
  now rewrite field_values_full.
Qed.

Lemma getitem_setitem_same (df : DataFrame) (c : string) (s : Series) :
  getitem (setitem df c s) c
  = inr (mkSeries (df_index df) (df_index_name df) (s_values s) (Some c)).
Proof. unfold getitem, setitem. cbn [df_columns df_index df_index_name]. now rewrite get_set_same. Qed.

Lemma getitem_setitem_other (df : DataFrame) (c c' : string) (s : Series) :
  c <> c' -> getitem (setitem df c' s) c = getitem df c.
Proof.
  intros H. unfold getitem, setitem. cbn [df_columns df_index df_index_name].
  now rewrite get_set_other.
Qed.

Lemma timeseries_data_returns
    (lib : Library) (data : nat) (date_column : string) (w : world)
    (df : DataFrame) (col : column) (ts : list (option Timestamp)) :
  heap w !! data = Some df ->
  get_col date_column (df_columns df) = Some col ->
  mapM (convert lib) (present_cells col) = inr ts ->
  date_column <> "year" -> date_column <> "month" -> date_column <> "day" ->
  timeseries_data lib data date_column w
  = (inr (cleaned df date_column col ts), add_event (date_range df col ts) w).
Proof.
  intros Hh Hc Hts Hy Hm Hd.
  unfold timeseries_data, bind, deref. rewrite Hh.
  unfold lift at 1, dropna. rewrite Hc. cbv zeta.
  set (dc := mkDataFrame _ _ _).
  assert (getitem dc date_column
          = inr (mkSeries (df_index dc) (df_index_name dc)
                   (col_mask (col_notnull col) col) (Some date_column))) as Hg.
  { unfold getitem, dc. cbn [df_columns]. now rewrite get_col_map, Hc. }
  unfold lift at 1. rewrite Hg.
  unfold lift at 1. rewrite to_datetime_after_dropna, Hts.
  set (D := mkSeries _ _ (ColDatetime _) _).
  unfold lift at 1. rewrite getitem_setitem_same.
  unfold lift at 1, dt_year, dt_field at 1. subst D.
  cbn [s_values s_index s_index_name s_name].
  unfold lift at 1. rewrite getitem_setitem_other, getitem_setitem_same by assumption.
  cbn [s_values].
  unfold lift at 1, dt_month, dt_field at 1.
  cbn [s_values s_index s_index_name s_name].
  unfold lift at 1.
  rewrite !getitem_setitem_other, getitem_setitem_same by assumption.
  unfold lift at 1, dt_day, dt_field at 1.
  cbn [s_values s_index s_index_name s_name].
  unfold lift at 1.
  rewrite !getitem_setitem_other, getitem_setitem_same by assumption.
  unfold emit, ret. reflexivity.
Qed.

(** Line 20 on a frame without the date column: [dropna] raises a KeyError
    whose argument is the list of the missing labels. *)
Lemma timeseries_data_missing_column
    (lib : Library) (data : nat) (date_column : string) (w : world) (df : DataFrame) :
  heap w !! data = Some df ->
  get_col date_column (df_columns df) = None ->
  timeseries_data lib data date_column w
  = (inl (KeyError (KeyList [date_column])), w).
Proof.
  intros Hh Hc. unfold timeseries_data, bind, deref. rewrite Hh.
  unfold lift at 1, dropna. now rewrite Hc.
Qed.

Lemma timeseries_data_raises
    (lib : Library) (data : nat) (date_column : string) (w : world)
    (df : DataFrame) (col : column) (e : exn) :
  heap w !! data = Some df ->
  get_col date_column (df_columns df) = Some col ->
  mapM (convert lib) (present_cells col) = inl e ->
  timeseries_data lib data date_column w = (inl e, w).
Proof.
  intros Hh Hc He. unfold timeseries_data, bind, deref. rewrite Hh.
  unfold lift at 1, dropna. rewrite Hc. cbv zeta.
  set (dc := mkDataFrame _ _ _).
  assert (getitem dc date_column
          = inr (mkSeries (df_index dc) (df_index_name dc)
                   (col_mask (col_notnull col) col) (Some date_column))) as Hg.
  { unfold getitem, dc. cbn [df_columns]. now rewrite get_col_map, Hc. }
  unfold lift at 1. rewrite Hg.
  unfold lift at 1. now rewrite to_datetime_after_dropna, He.
Qed.

Lemma mapM_first_error {A B : Type} (f : A -> exn + B) (l : list A) (x : A) (e0 : exn) :
  List.In x l -> f x = inl e0 ->
  exists e x', mapM f l = inl e /\ List.In x' l /\ f x' = inl e.
Proof.
  induction l as [|y l IH]; simpl; [intros []|].
  intros Hin Hx. destruct (f y) as [e|b] eqn:Hy.
  - exists e, y. auto.
  - destruct Hin as [->|Hin]; [congruence|].
    destruct (IH Hin Hx) as (e & x' & Hm & Hin' & Hf).
    exists e, x'. rewrite Hm. auto.
Qed.

Lemma mapM_all_return {A B : Type} (f : A -> exn + B) (l : list A) :
  (forall x, List.In x l -> exists y, f x = inr y) ->
  exists ys, mapM f l = inr ys /\ Forall2 (fun x y => f x = inr y) l ys.
Proof.
  induction l as [|x l IH]; intros H.
  - exists []. split; [reflexivity | constructor].
  - destruct (H x (or_introl eq_refl)) as [y Hy].
    destruct IH as (ys & Hm & Hf); [intros z Hz; apply H; now right|].
    exists (y :: ys). simpl. rewrite Hy, Hm. split; [reflexivity | now constructor].
Qed.

(** X17.  When the date column is not itself named year, month or day and
    the parser raises on none of its non-missing entries,
    [timeseries_data] returns a frame made of exactly the input rows whose
    date is not missing (same index labels, same order), where the date
    column holds the converted dates (NaT where the parser gave NaT), the
    columns year, month and day hold what [.dt.year], [.dt.month] and
    [.dt.day] give for these dates, and every other column holds the input's
    entries of the kept rows; the caller's frame is left as it was. *)
Theorem timeseries_data_cleans
    (lib : Library) (data : nat) (date_column : string) (w : world)
    (df : DataFrame) (col : column) (ts : list (option Timestamp)) :
  heap w !! data = Some df ->
  get_col date_column (df_columns df) = Some col ->
  mapM (convert lib) (present_cells col) = inr ts ->
  date_column <> "year" -> date_column <> "month" -> date_column <> "day" ->
  exists out w',
    timeseries_data lib data date_column w = (inr out, w') /\
    heap w' = heap w /\
    df_index out = col_mask (col_notnull col) (df_index df) /\
    get_col date_column (df_columns out) = Some (ColDatetime ts) /\
    get_col "year" (df_columns out) = Some (field_values ts_year ts) /\
    get_col "month" (df_columns out) = Some (field_values ts_month ts) /\
    get_col "day" (df_columns out) = Some (field_values ts_day ts) /\
    (forall c,
        c <> date_column -> c <> "year" -> c <> "month" -> c <> "day" ->
        get_col c (df_columns out)
        = option_map (col_mask (col_notnull col)) (get_col c (df_columns df))).
Proof.
  intros Hh Hc Hts Hy Hm Hd.
  exists (cleaned df date_column col ts), (add_event (date_range df col ts) w).
  split; [now apply timeseries_data_returns|].
  unfold cleaned. cbn [heap df_index df_columns].
  split; [reflexivity|]. split; [reflexivity|].
  split.
  { rewrite !get_set_other by assumption. apply get_set_same. }
  split.
  { rewrite !get_set_other by discriminate. apply get_set_same. }
  split.
  { rewrite get_set_other by discriminate. apply get_set_same. }
  split; [apply get_set_same|].
  intros c H1 H2 H3 H4. rewrite !get_set_other by assumption. apply get_col_map.
Qed.

Lemma timeseries_data_cleans_witness :
  exists out w',
    timeseries_data sample_library 0 "last_review" world0 = (inr out, w') /\
    heap w' = heap world0 /\
    df_index out = col_mask [true; false; true; true] (df_index raw_reviews) /\
    get_col "last_review" (df_columns out)
    = Some (ColDatetime [Some (mkTimestamp 2019 5 21 0); Some (mkTimestamp 2019 5 21 0);
                         Some (mkTimestamp 2018 11 3 0)]) /\
    get_col "year" (df_columns out)
    = Some (field_values ts_year
              [Some (mkTimestamp 2019 5 21 0); Some (mkTimestamp 2019 5 21 0);
               Some (mkTimestamp 2018 11 3 0)]) /\
    get_col "month" (df_columns out)
    = Some (field_values ts_month
              [Some (mkTimestamp 2019 5 21 0); Some (mkTimestamp 2019 5 21 0);
               Some (mkTimestamp 2018 11 3 0)]) /\
    get_col "day" (df_columns out)
    = Some (field_values ts_day
              [Some (mkTimestamp 2019 5 21 0); Some (mkTimestamp 2019 5 21 0);
               Some (mkTimestamp 2018 11 3 0)]) /\
    (forall c,
        c <> "last_review" -> c <> "year" -> c <> "month" -> c <> "day" ->
        get_col c (df_columns out)
        = option_map (col_mask [true; false; true; true])
            (get_col c (df_columns raw_reviews))).
Proof.
  apply (timeseries_data_cleans sample_library 0 "last_review" world0 raw_reviews
           (ColObj [Some "2019-05-21"; None; Some "2019-05-21"; Some "2018-11-03"])
           [Some (mkTimestamp 2019 5 21 0); Some (mkTimestamp 2019 5 21 0);
            Some (mkTimestamp 2018 11 3 0)]).
  - reflexivity.
  - reflexivity.
  - reflexivity.
  - discriminate.
  - discriminate.
  - discriminate.
Defined.

(** The cleaned sample: years, months and days as integers. *)
Example timeseries_data_sample :
  timeseries_data sample_library 0 "last_review" world0
  = (inr (mkDataFrame (ColInt [0; 2; 3]) None
            [("id", ColInt [101; 103; 104]);
             ("last_review",
              ColDatetime [Some (mkTimestamp 2019 5 21 0); Some (mkTimestamp 2019 5 21 0);
                           Some (mkTimestamp 2018 11 3 0)]);
             ("year", ColInt [2019; 2019; 2018]);
             ("month", ColInt [5; 5; 11]);
             ("day", ColInt [21; 21; 3])]),
     add_event (Print (CTime (mkTimestamp 2018 11 3 0)) (CTime (mkTimestamp 2019 5 21 0)))
       world0).
Proof. vm_compute. reflexivity. Qed.

(** C5 (code bug).  With the date column named [day], line 28 overwrites
    the converted dates with their day numbers: the returned date column
    holds the integer 21 and not the date 2019-05-21, and line 31 prints
    the range 21 to 21, against the comments of lines 22 and 30. *)
Theorem timeseries_data_day_column :
  timeseries_data sample_library 0 "day" world_day
  = (inr (mkDataFrame (ColInt [0]) None
            [("id", ColInt [101]); ("day", ColInt [21]);
             ("year", ColInt [2019]); ("month", ColInt [5])]),
     add_event (Print (CInt 21) (CInt 21)) world_day).
Proof. vm_compute. reflexivity. Qed.

(** C7 (amended).  Every non-missing entry of the date column is handed
    to the parser with the format '%Y-%m-%d'.  If the parser raises on one
    of them, the call raises instead of returning a dataframe: what it
    raises is the parser's own error on an entry of the column, and nothing
    else has happened.  If the parser raises on none (and the date column
    is not named year, month or day), the call returns, and the date column
    of the result holds what the parser gave for each entry: a date, or
    NaT. *)
Theorem timeseries_data_requires_parseable
    (lib : Library) (data : nat) (date_column : string) (w : world)
    (df : DataFrame) (col : column) :
  heap w !! data = Some df ->
  get_col date_column (df_columns df) = Some col ->
  (forall c e0,
      List.In c (present_cells col) ->
      convert lib c = inl e0 ->
      exists e c',
        timeseries_data lib data date_column w = (inl e, w) /\
        List.In c' (present_cells col) /\ strptime lib "%Y-%m-%d" c' = inl e) /\
  ((forall c, List.In c (present_cells col) -> exists t, convert lib c = inr t) ->
   date_column <> "year" -> date_column <> "month" -> date_column <> "day" ->
   exists ts out w',
     timeseries_data lib data date_column w = (inr out, w') /\
     Forall2 (fun c t => convert lib c = inr t) (present_cells col) ts /\
     get_col date_column (df_columns out) = Some (ColDatetime ts)).
Proof.
  intros Hh Hc. split.
  - intros c e0 Hin He.
    destruct (mapM_first_error (convert lib) _ c e0 Hin He) as (e & c' & Hm & Hin' & Hf).
    exists e, c'.
    split; [now apply (timeseries_data_raises lib data date_column w df col)|].
    split; [exact Hin'|]. destruct c'; try exact Hf. discriminate.
  - intros Hall Hy Hm Hd.
    destruct (mapM_all_return (convert lib) (present_cells col) Hall) as (ts & Hts & Hf).
    exists ts, (cleaned df date_column col ts), (add_event (date_range df col ts) w).
    split; [now apply timeseries_data_returns|]. split; [exact Hf|].
    unfold cleaned. cbn [df_columns].
    rewrite !get_set_other by assumption. apply get_set_same.
Qed.

Lemma timeseries_data_requires_parseable_witness :
  (exists e c',
      timeseries_data sample_library 0 "last_review"
        (mkWorld {[ 0%nat := bad_reviews ]} [])
      = (inl e, mkWorld {[ 0%nat := bad_reviews ]} []) /\
      List.In c' (present_cells (ColObj [Some "2019-05-21"; None; Some "21/05/2019"])) /\
      strptime sample_library "%Y-%m-%d" c' = inl e) /\
  (exists ts out w',
      timeseries_data sample_library 0 "last_review" world0 = (inr out, w') /\
      Forall2 (fun c t => convert sample_library c = inr t)
        (present_cells
           (ColObj [Some "2019-05-21"; None; Some "2019-05-21"; Some "2018-11-03"])) ts /\
      get_col "last_review" (df_columns out) = Some (ColDatetime ts)).
Proof.
  split.
  - destruct (timeseries_data_requires_parseable sample_library 0 "last_review"
                (mkWorld {[ 0%nat := bad_reviews ]} []) bad_reviews
                (ColObj [Some "2019-05-21"; None; Some "21/05/2019"]))
      as [raises _]; [reflexivity | reflexivity |].
    apply (raises (CStr "21/05/2019")
             (ValueError "time data doesn't match format '%Y-%m-%d'")).
    + simpl. auto.
    + reflexivity.
  - destruct (timeseries_data_requires_parseable sample_library 0 "last_review"
                world0 raw_reviews
                (ColObj [Some "2019-05-21"; None; Some "2019-05-21"; Some "2018-11-03"]))
      as [_ returns]; [reflexivity | reflexivity |].
    apply returns.
    + intros c Hin. simpl in Hin.
      destruct Hin as [<-|[<-|[<-|[]]]]; eexists; reflexivity.
    + discriminate.
    + discriminate.
    + discriminate.
Defined.

(** The sample parser on some strings. *)
Example sample_parser_reads :
  strptime sample_library "%Y-%m-%d" (CStr "2019-5-21")
    = inr (Some (mkTimestamp 2019 5 21 0)) /\
  strptime sample_library "%Y-%m-%d" (CStr "2019-02-30")
    = inl (ValueError "day is out of range for month") /\
  strptime sample_library "%Y-%m-%d" (CStr "21/05/2019")
    = inl (ValueError "time data doesn't match format '%Y-%m-%d'") /\
  strptime sample_library "%Y-%m-%d" (CStr "1677-09-21")
    = inl (ValueError "Out of bounds nanosecond timestamp") /\
  strptime sample_library "%Y-%m-%d" (CStr "nan") = inr None.
Proof. repeat split; vm_compute; reflexivity. Qed.

(** C7 as stated fails on the empty string and on the text NaT: neither
    is missing, neither is in the format '%Y-%m-%d', and yet the call
    returns a dataframe, in which their dates are NaT and their years,
    months and days NaN. *)
Lemma timeseries_data_reads_blank_as_NaT :
  col_notnull (ColObj [Some "2019-05-21"; Some ""; None; Some "NaT"])
    = [true; true; false; true] /\
  in_format_ymd "" = false /\ in_format_ymd "NaT" = false /\
  fst (timeseries_data sample_library 0 "last_review" world_blank)
  = inr (mkDataFrame (ColInt [0; 1; 3]) None
           [("id", ColInt [101; 102; 104]);
            ("last_review", ColDatetime [Some (mkTimestamp 2019 5 21 0); None; None]);
            ("year", ColFloat [2019%float; PrimFloat.nan; PrimFloat.nan]);
            ("month", ColFloat [5%float; PrimFloat.nan; PrimFloat.nan]);
            ("day", ColFloat [21%float; PrimFloat.nan; PrimFloat.nan])]).
Proof. repeat split; vm_compute; reflexivity. Qed.

(* ================================================================== *)
(** ** decompose_and_plot_timeseries *)
(* ================================================================== *)

(** X18.  What line 88 asks of the library: the STL fit of the value
    column of the monthly sums with no period given and [seasonal_period]
    as the length of the seasonal smoother.  The call returns (or raises)
    what that fit returns (or raises), and the caller's frames are
    untouched. *)
Theorem decompose_calls_stl
    (lib : Library) (data : nat) (date_column value_column : string)
    (seasonal_period : Z) (w : world) (df monthly : DataFrame) (endog : Series) :
  heap w !! data = Some df ->
  resample_sum lib "M" date_column df = inr monthly ->
  getitem monthly value_column = inr endog ->
  fst (decompose_and_plot_timeseries lib data date_column value_column
         seasonal_period w)
  = STL_fit lib endog None seasonal_period /\
  heap (snd (decompose_and_plot_timeseries lib data date_column value_column
               seasonal_period w)) = heap w.
Proof.
  intros Hh Hm Hg. unfold decompose_and_plot_timeseries.
  run_monad. rewrite Hh, Hm, Hg.
  destruct (STL_fit lib endog None seasonal_period) as [e|d]; world_simpl; now split.
Qed.

Lemma decompose_calls_stl_witness :
  fst (decompose_and_plot_timeseries sample_library 1 "last_review" "id" 13 world_monthly)
  = STL_fit sample_library
      (mkSeries (range_index 5) None (ColInt [101; 102; 103; 104; 105]) (Some "id"))
      None 13 /\
  heap (snd (decompose_and_plot_timeseries sample_library 1 "last_review" "id" 13
               world_monthly)) = heap world_monthly.
Proof.
  apply (decompose_calls_stl sample_library 1 "last_review" "id" 13 world_monthly
           monthly_reviews monthly_reviews).
  - reflexivity.
  - reflexivity.
  - reflexivity.
Defined.

(** C4 (code bug).  The number documented as the seasonal period (line 79)
    is passed at line 88 as [seasonal=], the length of the seasonal
    smoother, and no [period=] is passed.  On five monthly sums, a seasonal
    period of 12 makes the call raise the library's error for an even
    smoother length, where the fit with period 12 and an odd smoother
    length returns; what the call returns for the default 13 is the fit
    with smoother length 13 and the period left to the library. *)
Theorem decompose_period_passed_as_smoother_length :
  let endog := mkSeries (df_index monthly_reviews) (df_index_name monthly_reviews)
                 (ColInt [101; 102; 103; 104; 105]) (Some "id") in
  resample_sum sample_library "M" "last_review" monthly_reviews = inr monthly_reviews /\
  getitem monthly_reviews "id" = inr endog /\
  fst (decompose_and_plot_timeseries sample_library 1 "last_review" "id" 12 world_monthly)
  = inl (ValueError "seasonal must be an odd positive integer >= 3") /\
  STL_fit sample_library endog (Some 12) 7
  = inr (mkDecomposeResult endog endog endog endog) /\
  fst (decompose_and_plot_timeseries sample_library 1 "last_review" "id" 13 world_monthly)
  = STL_fit sample_library endog None 13.
Proof. cbv zeta. repeat split; vm_compute; reflexivity. Qed.

(* ================================================================== *)
(** ** stationarity_and_acf_pacf_plots *)
(* ================================================================== *)

(** C10.  When the Dickey-Fuller test and the two correlation plots go
    through, the call returns a pair whose second component is true
    exactly when the test's p-value is at most 0.05, and whose first
    component is the series of four entries, labelled Test Statistic,
    p-value, #Lags Used and Number of Observations Used, holding the
    statistic, the p-value, the number of lags and the number of
    observations of that same test result (as float64 numbers). *)
Theorem stationarity_reports_adf
    (lib : Library) (data : nat) (value_column : string) (w : world)
    (df : DataFrame) (x : Series) (r : AdfResult) :
  heap w !! data = Some df ->
  getitem df value_column = inr x ->
  adfuller lib x = inr r ->
  plot_acf lib x = inr tt ->
  plot_pacf lib x = inr tt ->
  exists summary flag w',
    stationarity_and_acf_pacf_plots lib data value_column w
      = (inr (summary, flag), w') /\
    (flag = true <-> PrimFloat.leb (pvalue r) 0.05%float = true) /\
    s_index summary
      = ColObj [Some "Test Statistic"; Some "p-value"; Some "#Lags Used";
                Some "Number of Observations Used"] /\
    s_values summary
      = ColFloat [adfstat r; pvalue r; float_of_Z (usedlag r); float_of_Z (nobs r)] /\
    heap w' = heap w.
Proof.
  intros Hh Hx Hr Ha Hp. unfold stationarity_and_acf_pacf_plots.
  run_monad. rewrite Hh, Hx, Hr, Ha, Hp.
  eexists _, _, _. split; [reflexivity|]. world_simpl. unfold adf_summary_of.
  cbn [s_index s_values]. repeat split; auto.
Qed.

Lemma stationarity_reports_adf_witness :
  exists summary flag w',
    stationarity_and_acf_pacf_plots sample_library 1 "id" world_monthly
      = (inr (summary, flag), w') /\
    (flag = true <-> PrimFloat.leb 0.01%float 0.05%float = true) /\
    s_index summary
      = ColObj [Some "Test Statistic"; Some "p-value"; Some "#Lags Used";
                Some "Number of Observations Used"] /\
    s_values summary
      = ColFloat [(-3.5)%float; 0.01%float; float_of_Z 0; float_of_Z 4] /\
    heap w' = heap world_monthly.
Proof.
  apply (stationarity_reports_adf sample_library 1 "id" world_monthly monthly_reviews
           (mkSeries (range_index 5) None (ColInt [101; 102; 103; 104; 105]) (Some "id"))
           (mkAdfResult (-3.5)%float 0.01%float 0 4 [] 0%float)).
  - reflexivity.
  - reflexivity.
  - reflexivity.
  - reflexivity.
  - reflexivity.
Defined.

(* ================================================================== *)
(** ** plot_weekday_reviews *)
(* ================================================================== *)

Lemma has_dup_NoDup {K : Type} (cmp : K -> K -> comparison) (l : list K) :
  (forall a b, cmp a b = Eq <-> a = b) ->
  List.NoDup l -> has_dup cmp l = false.
Proof.
  intros cmp_eq. induction 1 as [|x l Hx Hnd IH]; simpl; [reflexivity|].
  rewrite IH, orb_false_r.
  destruct (existsb _ l) eqn:E; [|reflexivity].
  apply existsb_exists in E as (y & Hy & Hc).
  destruct (cmp x y) eqn:Hxy; try discriminate.
  apply cmp_eq in Hxy. subst y. contradiction.
Qed.

Lemma somes_map_Some {A B : Type} (f : A -> B) (l : list A) :
  somes (map (fun p => Some (f p)) l) = map f l.
Proof. unfold somes. induction l as [|x l IH]; simpl; [reflexivity | now f_equal]. Qed.

Lemma find_label_None (lbl : string) (l : list (option string)) :
  ~ List.In (Some lbl) l -> find_label lbl l = None.
Proof.
  induction l as [|[s|] l IH]; simpl; intros H; [reflexivity| |].
  - destruct (String.eqb s lbl) eqn:E.
    + apply String.eqb_eq in E. subst s. exfalso. auto.
    + rewrite IH by tauto. reflexivity.
  - rewrite IH by tauto. reflexivity.
Qed.

Lemma find_label_Some (lbl : string) (l : list (option string)) (j : nat) :
  find_label lbl l = Some j -> nth_error l j = Some (Some lbl).
Proof.
  revert j. induction l as [|[s|] l IH]; simpl; intros j; [discriminate| |].
  - destruct (String.eqb s lbl) eqn:E.
    + apply String.eqb_eq in E. subst s. intros H. injection H as <-. reflexivity.
    + destruct (find_label lbl l); [|discriminate].
      intros H. injection H as <-. simpl. now apply IH.
  - destruct (find_label lbl l); [|discriminate].
    intros H. injection H as <-. simpl. now apply IH.
Qed.

Lemma find_label_found (lbl : string) (l : list (option string)) :
  List.In (Some lbl) l -> exists j, find_label lbl l = Some j.
Proof.
  induction l as [|[s|] l IH]; simpl; [intros []| |].
  - destruct (String.eqb s lbl) eqn:E; [eauto|].
    intros [Hin|Hin].
    + injection Hin as ->. now rewrite String.eqb_refl in E.
    + destruct (IH Hin) as [j ->]. simpl. eauto.
  - intros [Hin|Hin]; [discriminate|].
    destruct (IH Hin) as [j ->]. simpl. eauto.
Qed.

(** What [reindex] leaves in a count column at a requested position. *)
Lemma col_take_counts (pos : list (option nat)) (counts : list Z) (i : nat)
    (p : option nat) :
  nth_error pos i = Some p ->
  match p with
  | None =>
      exists fl, col_take pos (ColInt counts) = ColFloat fl /\
                 nth_error fl i = Some PrimFloat.nan
  | Some j =>
      (exists zl, col_take pos (ColInt counts) = ColInt zl /\
                  nth_error zl i = Some (nth j counts 0)) \/
      (exists fl, col_take pos (ColInt counts) = ColFloat fl /\
                  nth_error fl i = Some (float_of_Z (nth j counts 0)))
  end.
Proof.
  intros Hp. unfold col_take. destruct (forallb is_some pos) eqn:E.
  - destruct p as [j|].
    + left. eexists. split; [reflexivity|].
      now rewrite nth_error_map, Hp.
    + exfalso. apply nth_error_In in Hp.
      rewrite forallb_forall in E. now specialize (E None Hp).
  - destruct p as [j|].
    + right. eexists. split; [reflexivity|]. now rewrite nth_error_map, Hp.
    + eexists. split; [reflexivity|]. now rewrite nth_error_map, Hp.
Qed.

Lemma eqb_false_sym (a b : string) : a <> b -> String.eqb b a = false.
Proof. intros H. apply String.eqb_neq. congruence. Qed.

Lemma plot_weekday_reviews_returns
    (data : nat) (date_column value_column_name : string) (w : world)
    (df : DataFrame) (dates : list (option Timestamp)) :
  heap w !! data = Some df ->
  get_col date_column (df_columns df) = Some (ColDatetime dates) ->
  value_column_name <> "weekday" ->
  exists w',
    plot_weekday_reviews data date_column value_column_name w
    = (inr (mkDataFrame (range_index 7) None
              [("weekday", ColObj (map Some weekday_order));
               (value_column_name, reindexed_counts dates)]), w').
Proof.
  intros Hh Hc Hv.
  pose proof (group_sizes_spec String.compare string_compare_eq String.string_dec
                (somes (weekday_names dates))) as [Hnd _].
  unfold plot_weekday_reviews. run_monad. rewrite Hh.
  unfold getitem at 1. rewrite Hc. unfold dt_day_name. cbn [s_values s_index s_index_name s_name].
  world_simpl.
  unfold groupby_size, setitem. cbn [df_columns s_values]. rewrite get_set_same.
  fold (weekday_names dates). cbn [fst snd].
  set (g := group_sizes String.compare (somes (weekday_names dates))) in *.
  unfold series_reset_index. cbn [s_index_name s_values s_index].
  rewrite (eqb_false_sym _ _ Hv).
  unfold set_index. cbn [df_columns]. rewrite get_col_hd.
  cbn [del_col]. rewrite String.eqb_refl.
  assert (String.eqb value_column_name "weekday" = false) as Hvb
      by now apply String.eqb_neq.
  rewrite Hvb.
  unfold reindex. cbn [df_index df_columns df_index_name col_has_dup].
  rewrite somes_map_Some, (has_dup_NoDup String.compare _ string_compare_eq Hnd).
  unfold reset_index. cbn [df_index_name df_columns df_index get_col map fst snd].
  rewrite Hvb. unfold getitem. cbn [df_columns df_index df_index_name].
  rewrite get_col_hd. rewrite get_col_tl, get_col_hd by congruence.
  cbn [label_positions]. fold g.
  eexists. unfold reindexed_counts. fold g. reflexivity.
Qed.

(** C9.  On a datetime date column, and with a count column not named
    weekday, [plot_weekday_reviews] returns a frame of exactly seven rows
    whose weekday column reads Monday, Tuesday, Wednesday, Thursday, Friday,
    Saturday, Sunday in this order; the count entry of a weekday that occurs
    in no input row is NaN (the row is there all the same), and the count
    entry of a weekday that does occur is the number of input rows falling
    on it (held as an integer, or as a float when some other weekday is
    missing). *)
Theorem plot_weekday_reviews_seven_rows
    (data : nat) (date_column value_column_name : string) (w : world)
    (df : DataFrame) (dates : list (option Timestamp)) :
  heap w !! data = Some df ->
  get_col date_column (df_columns df) = Some (ColDatetime dates) ->
  value_column_name <> "weekday" ->
  exists out w' counts,
    plot_weekday_reviews data date_column value_column_name w = (inr out, w') /\
    df_index out = range_index 7 /\
    df_columns out
      = [("weekday",
          ColObj [Some "Monday"; Some "Tuesday"; Some "Wednesday"; Some "Thursday";
                  Some "Friday"; Some "Saturday"; Some "Sunday"]);
         (value_column_name, counts)] /\
    col_length counts = 7%nat /\
    forall i name,
      nth_error weekday_order i = Some name ->
      let c := count_occ label_eq_dec (weekday_names dates) (Some name) in
      (c = 0%nat ->
       exists fl, counts = ColFloat fl /\ nth_error fl i = Some PrimFloat.nan) /\
      (c <> 0%nat ->
       (exists zl, counts = ColInt zl /\ nth_error zl i = Some (Z.of_nat c)) \/
       (exists fl, counts = ColFloat fl /\
                   nth_error fl i = Some (float_of_Z (Z.of_nat c)))).
Proof.
  intros Hh Hc Hv.
  destruct (plot_weekday_reviews_returns data date_column value_column_name w df dates
              Hh Hc Hv) as [w' Hrun].
  eexists _, _, (reindexed_counts dates). split; [exact Hrun|].
  cbn [df_index df_columns]. split; [reflexivity|]. split; [reflexivity|].
  pose proof (group_sizes_spec String.compare string_compare_eq String.string_dec
                (somes (weekday_names dates))) as [Hnd Hspec].
  unfold reindexed_counts.
  set (g := group_sizes String.compare (somes (weekday_names dates))) in *.
  set (keys := map (fun p => Some (fst p)) g).
  set (pos := map (fun lbl => find_label lbl keys) weekday_order).
  split.
  { unfold col_take. destruct (forallb is_some pos); cbn [col_length];
      unfold pos; now rewrite !length_map. }
  intros i name Hi.
  set (c := count_occ label_eq_dec (weekday_names dates) (Some name)).
  assert (nth_error pos i = Some (find_label name keys)) as Hp.
  { unfold pos. now rewrite nth_error_map, Hi. }
  pose proof (col_take_counts pos (map snd g) i _ Hp) as Hentry.
  assert (Hkeys : forall k, List.In (Some k) keys <-> List.In k (somes (weekday_names dates))).
  { intros k. unfold keys. rewrite <- (map_map fst Some). rewrite in_map_iff. split.
    - intros (k' & E & Hin). injection E as ->.
      apply in_map_iff in Hin as ([k'' n] & E & Hin). simpl in E. subst k''.
      apply Hspec in Hin. tauto.
    - intros Hin. exists k. split; [reflexivity|]. apply in_map_iff.
      exists (k, Z.of_nat (count_occ String.string_dec (somes (weekday_names dates)) k)).
      split; [reflexivity|]. apply Hspec. tauto. }
  assert (Hcount : c = count_occ String.string_dec (somes (weekday_names dates)) name).
  { unfold c. symmetry. apply count_occ_somes. }
  split.
  - intros Hzero. rewrite find_label_None in Hentry; [exact Hentry|].
    rewrite Hkeys. intros Hin. apply (count_occ_In String.string_dec) in Hin. lia.
  - intros Hpos. destruct (find_label name keys) as [j|] eqn:Hf.
    + apply find_label_Some in Hf. unfold keys in Hf.
      rewrite <- (map_map fst Some), nth_error_map in Hf.
      destruct (nth_error (map fst g) j) as [k|] eqn:Hj; [|discriminate].
      simpl in Hf. injection Hf as ->.
      destruct (group_rows g j name Hj) as (n & Hn & Hin).
      apply Hspec in Hin as [_ ->].
      assert (nth j (map snd g) 0 = Z.of_nat c) as Hnth.
      { rewrite Hcount. now apply nth_error_nth. }
      rewrite Hnth in Hentry. exact Hentry.
    + exfalso. assert (List.In (Some name) keys) as Hin.
      { apply Hkeys. apply (count_occ_In String.string_dec). lia. }
      destruct (find_label_found name keys Hin) as [j Hj]. congruence.
Qed.

Lemma plot_weekday_reviews_seven_rows_witness :
  exists out w' counts,
    plot_weekday_reviews 1 "last_review" "number_of_reviews" world1 = (inr out, w') /\
    df_index out = range_index 7 /\
    df_columns out
      = [("weekday",
          ColObj [Some "Monday"; Some "Tuesday"; Some "Wednesday"; Some "Thursday";
                  Some "Friday"; Some "Saturday"; Some "Sunday"]);
         ("number_of_reviews", counts)] /\
    col_length counts = 7%nat /\
    forall i name,
      nth_error weekday_order i = Some name ->
      let c := count_occ label_eq_dec
                 (weekday_names [Some (mkTimestamp 2019 5 21 0);
                                 Some (mkTimestamp 2019 5 21 0);
                                 Some (mkTimestamp 2018 11 3 0)]) (Some name) in
      (c = 0%nat ->
       exists fl, counts = ColFloat fl /\ nth_error fl i = Some PrimFloat.nan) /\
      (c <> 0%nat ->
       (exists zl, counts = ColInt zl /\ nth_error zl i = Some (Z.of_nat c)) \/
       (exists fl, counts = ColFloat fl /\
                   nth_error fl i = Some (float_of_Z (Z.of_nat c)))).
Proof.
  apply (plot_weekday_reviews_seven_rows 1 "last_review" "number_of_reviews" world1
           clean_reviews).
  - reflexivity.
  - reflexivity.
  - discriminate.
Defined.

(** Two reviews on a Tuesday, one on a Saturday, none on the other days. *)
Example plot_weekday_reviews_sample :
  fst (plot_weekday_reviews 1 "last_review" "number_of_reviews" world1)
  = inr (mkDataFrame (ColInt [0; 1; 2; 3; 4; 5; 6]) None
           [("weekday",
             ColObj [Some "Monday"; Some "Tuesday"; Some "Wednesday"; Some "Thursday";
                     Some "Friday"; Some "Saturday"; Some "Sunday"]);
            ("number_of_reviews",
             ColFloat [PrimFloat.nan; 2%float; PrimFloat.nan; PrimFloat.nan;
                       PrimFloat.nan; 1%float; PrimFloat.nan])]).
Proof. vm_compute. reflexivity. Qed.

(* ================================================================== *)
(** ** In-place mutation of the caller's frame *)
(* ================================================================== *)

Lemma set_col_id_iff (name : string) (v : column) (cols : list (string * column)) :
  set_col name v cols = cols <-> get_col name cols = Some v.
Proof.
  split.
  - intros E. rewrite <- E. apply get_set_same.
  - induction cols as [|[n c] rest IH]; simpl; [discriminate|].
    destruct (String.eqb n name); intros E.
    + injection E as ->. reflexivity.
    + now rewrite IH.
Qed.

Lemma with_column_id_iff (df : DataFrame) (name : string) (v : column) :
  with_column df name v = df <-> get_col name (df_columns df) = Some v.
Proof.
  rewrite <- set_col_id_iff. destruct df as [i n cols]. unfold with_column; simpl.
  split; intros E; [injection E as E; exact E | now rewrite E].
Qed.

(** After the call the caller's frame has the new column. *)
Example plot_annual_mutates_sample :
  heap (snd (plot_annual_reviews_and_growth 1 "last_review" "number_of_reviews" world1))
    !! 1%nat
  = Some (mkDataFrame (ColInt [0; 2; 3]) None
            [("id", ColInt [101; 103; 104]);
             ("last_review",
              ColDatetime [Some (mkTimestamp 2019 5 21 0); Some (mkTimestamp 2019 5 21 0);
                           Some (mkTimestamp 2018 11 3 0)]);
             ("year", ColInt [2019; 2019; 2018])]).
Proof. vm_compute. reflexivity. Qed.

(** The mutation stays when the call raises afterwards: with the count
    column named year, line 167 raises, and the caller's frame already has
    its year column. *)
Example plot_annual_mutates_then_raises :
  fst (plot_annual_reviews_and_growth 1 "last_review" "year" world1)
    = inl (ValueError "cannot insert year, already exists") /\
  heap (snd (plot_annual_reviews_and_growth 1 "last_review" "year" world1)) !! 1%nat
    = Some (with_column clean_reviews "year" (ColInt [2019; 2019; 2018])).
Proof. split; vm_compute; reflexivity. Qed.

(** When line 164, 214 or 249 itself raises (no such column, or not a
    datetime column), nothing has been touched. *)
Lemma plot_functions_first_line_raises
    (data : nat) (date_column value_column_name : string) (w : world) (df : DataFrame) :
  heap w !! data = Some df ->
  (forall dates, get_col date_column (df_columns df) <> Some (ColDatetime dates)) ->
  (exists e, plot_annual_reviews_and_growth data date_column value_column_name w
             = (inl e, w)) /\
  (exists e, plot_general_monthly_reviews data date_column value_column_name w
             = (inl e, w)) /\
  (exists e, plot_weekday_reviews data date_column value_column_name w = (inl e, w)).
Proof.
  intros Hh Hc.
  unfold plot_annual_reviews_and_growth, plot_general_monthly_reviews,
    plot_weekday_reviews.
  run_monad. rewrite Hh. unfold getitem.
  destruct (get_col date_column (df_columns df)) as [[l|l|l|l]|] eqn:E;
    try (now (repeat split; eexists; reflexivity)).
  exfalso. now apply (Hc l).
Qed.

(** So the three calls return only on a datetime date column. *)
Lemma plot_functions_return_only_on_dates
    (data : nat) (date_column value_column_name : string) (w w' : world)
    (df out : DataFrame) :
  heap w !! data = Some df ->
  plot_annual_reviews_and_growth data date_column value_column_name w = (inr out, w') \/
  plot_general_monthly_reviews data date_column value_column_name w = (inr out, w') \/
  plot_weekday_reviews data date_column value_column_name w = (inr out, w') ->
  exists dates, get_col date_column (df_columns df) = Some (ColDatetime dates).
Proof.
  intros Hh H.
  destruct (get_col date_column (df_columns df)) as [[l|l|l|l]|] eqn:E; eauto;
    exfalso;
    (destruct (plot_functions_first_line_raises data date_column value_column_name
                 w df Hh) as ([e1 H1] & [e2 H2] & [e3 H3]);
     [intros dates; congruence|]);
    destruct H as [H|[H|H]]; congruence.
Qed.

(** C6 (amended).  On a datetime date column,
    [plot_annual_reviews_and_growth], [plot_general_monthly_reviews] and
    [plot_weekday_reviews] each leave, in the heap slot of the caller's
    frame, that frame with the column year, month or weekday set from the
    dates (replaced where it stood, or appended), whether the rest of the
    call then returns or raises; no other frame of the caller is touched;
    and the frame so obtained equals the frame before the call exactly when
    it already had that column with the same values.  On any other frame
    (no such column, or a column that is not datetime) each of the three
    calls raises at its first line and the caller's frame is what it was. *)
Theorem plot_functions_mutate_input
    (data : nat) (date_column value_column_name : string) (w : world)
    (df : DataFrame) :
  heap w !! data = Some df ->
  (forall dates,
      get_col date_column (df_columns df) = Some (ColDatetime dates) ->
      heap (snd (plot_annual_reviews_and_growth data date_column value_column_name w))
        = <[data := with_column df "year" (field_values ts_year dates)]> (heap w) /\
      heap (snd (plot_general_monthly_reviews data date_column value_column_name w))
        = <[data := with_column df "month" (field_values ts_month dates)]> (heap w) /\
      heap (snd (plot_weekday_reviews data date_column value_column_name w))
        = <[data := with_column df "weekday" (ColObj (weekday_names dates))]> (heap w)) /\
  (forall name v,
      with_column df name v = df <-> get_col name (df_columns df) = Some v) /\
  ((forall dates, get_col date_column (df_columns df) <> Some (ColDatetime dates)) ->
   (exists e, plot_annual_reviews_and_growth data date_column value_column_name w
              = (inl e, w)) /\
   (exists e, plot_general_monthly_reviews data date_column value_column_name w
              = (inl e, w)) /\
   (exists e, plot_weekday_reviews data date_column value_column_name w = (inl e, w))).
Proof.
  intros Hh. split; [|split].
  - intros dates Hc. repeat split.
    + unfold plot_annual_reviews_and_growth. run_monad. rewrite Hh.
      unfold getitem at 1. rewrite Hc. unfold dt_year at 1, dt_field at 1.
      cbn [s_values s_index s_index_name s_name]. unfold setitem at 1. cbn [s_values].
      fold (with_column df "year" (field_values ts_year dates)).
      crunch; reflexivity.
    + unfold plot_general_monthly_reviews. run_monad. rewrite Hh.
      unfold getitem at 1. rewrite Hc. unfold dt_month at 1, dt_field at 1.
      cbn [s_values s_index s_index_name s_name]. unfold setitem at 1. cbn [s_values].
      fold (with_column df "month" (field_values ts_month dates)).
      crunch; reflexivity.
    + unfold plot_weekday_reviews. run_monad. rewrite Hh.
      unfold getitem at 1. rewrite Hc. unfold dt_day_name at 1.
      cbn [s_values s_index s_index_name s_name]. unfold setitem at 1. cbn [s_values].
      fold (weekday_names dates).
      fold (with_column df "weekday" (ColObj (weekday_names dates))).
      crunch; reflexivity.
  - intros name v. apply with_column_id_iff.
  - intros Hc.
    now apply (plot_functions_first_line_raises data date_column value_column_name w df).
Qed.

Lemma plot_functions_mutate_input_witness :
  (heap (snd (plot_annual_reviews_and_growth 1 "last_review" "number_of_reviews" world1))
     = <[1%nat := with_column clean_reviews "year"
                    (field_values ts_year
                       [Some (mkTimestamp 2019 5 21 0); Some (mkTimestamp 2019 5 21 0);
                        Some (mkTimestamp 2018 11 3 0)])]> (heap world1) /\
   heap (snd (plot_general_monthly_reviews 1 "last_review" "number_of_reviews" world1))
     = <[1%nat := with_column clean_reviews "month"
                    (field_values ts_month
                       [Some (mkTimestamp 2019 5 21 0); Some (mkTimestamp 2019 5 21 0);
                        Some (mkTimestamp 2018 11 3 0)])]> (heap world1) /\
   heap (snd (plot_weekday_reviews 1 "last_review" "number_of_reviews" world1))
     = <[1%nat := with_column clean_reviews "weekday"
                    (ColObj (weekday_names
                       [Some (mkTimestamp 2019 5 21 0); Some (mkTimestamp 2019 5 21 0);
                        Some (mkTimestamp 2018 11 3 0)]))]> (heap world1)) /\
  (forall name v,
      with_column clean_reviews name v = clean_reviews
      <-> get_col name (df_columns clean_reviews) = Some v) /\
  ((exists e, plot_annual_reviews_and_growth 0 "last_review" "number_of_reviews" world0
              = (inl e, world0)) /\
   (exists e, plot_general_monthly_reviews 0 "last_review" "number_of_reviews" world0
              = (inl e, world0)) /\
   (exists e, plot_weekday_reviews 0 "last_review" "number_of_reviews" world0
              = (inl e, world0))).
Proof.
  destruct (plot_functions_mutate_input 1 "last_review" "number_of_reviews" world1
              clean_reviews) as (mutated & same & _); [reflexivity|].
  destruct (plot_functions_mutate_input 0 "last_review" "number_of_reviews" world0
              raw_reviews) as (_ & _ & raises); [reflexivity|].
  split; [apply mutated; reflexivity|]. split; [exact same|].
  apply raises. intros dates. discriminate.
Defined.

(** C6 as stated fails on a frame whose dates are still strings, which
    has none of the columns year, month and weekday: each of the three
    calls raises at its first line, and the caller's frame is the frame it
    was before the call. *)
Lemma plot_functions_leave_string_dates :
  get_col "year" (df_columns raw_reviews) = None /\
  get_col "month" (df_columns raw_reviews) = None /\
  get_col "weekday" (df_columns raw_reviews) = None /\
  plot_annual_reviews_and_growth 0 "last_review" "number_of_reviews" world0
    = (inl dt_error, world0) /\
  plot_general_monthly_reviews 0 "last_review" "number_of_reviews" world0
    = (inl dt_error, world0) /\
  plot_weekday_reviews 0 "last_review" "number_of_reviews" world0
    = (inl dt_error, world0) /\
  heap world0 !! 0%nat = Some raw_reviews.
Proof. repeat split; vm_compute; reflexivity. Qed.

(* ================================================================== *)
(** ** Returned values depend on the arguments only *)
(* ================================================================== *)



(* ================================================================== *)
(** ** Failures *)
(* ================================================================== *)

(** C3.  Failures come out as the library raised them.  A missing column
    raises the KeyError of the pandas call that looks it up: the one of
    [dropna], whose argument is the list of the missing labels, in
    [timeseries_data], the one of the lookup by label elsewhere (or whatever
    the resampler raises for it); a date on which the parser raises makes
    the call raise the parser's error; a series the STL fit or the
    Dickey-Fuller test rejects raises the error of that routine.  In each
    case the call raises (it does not return a value), the exception is the
    library's own, and nothing has been printed, plotted or modified. *)
Theorem library_errors_propagate
    (lib : Library) (data : nat) (date_column value_column : string)
    (seasonal_period : Z) (w : world) (df : DataFrame) :
  heap w !! data = Some df ->
  (get_col date_column (df_columns df) = None ->
   timeseries_data lib data date_column w
     = (inl (KeyError (KeyList [date_column])), w) /\
   plot_timeseries_data lib data date_column value_column w
     = (inl (KeyError (KeyStr date_column)), w) /\
   plot_annual_reviews_and_growth data date_column value_column w
     = (inl (KeyError (KeyStr date_column)), w) /\
   plot_general_monthly_reviews data date_column value_column w
     = (inl (KeyError (KeyStr date_column)), w) /\
   plot_weekday_reviews data date_column value_column w
     = (inl (KeyError (KeyStr date_column)), w)) /\
  (get_col value_column (df_columns df) = None ->
   stationarity_and_acf_pacf_plots lib data value_column w
     = (inl (KeyError (KeyStr value_column)), w)) /\
  (forall e,
      resample_sum lib "M" date_column df = inl e ->
      decompose_and_plot_timeseries lib data date_column value_column seasonal_period w
        = (inl e, w)) /\
  (forall col e,
      get_col date_column (df_columns df) = Some col ->
      mapM (convert lib) (present_cells col) = inl e ->
      timeseries_data lib data date_column w = (inl e, w)) /\
  (forall monthly endog e,
      resample_sum lib "M" date_column df = inr monthly ->
      getitem monthly value_column = inr endog ->
      STL_fit lib endog None seasonal_period = inl e ->
      decompose_and_plot_timeseries lib data date_column value_column seasonal_period w
        = (inl e, w)) /\
  (forall x e,
      getitem df value_column = inr x ->
      adfuller lib x = inl e ->
      stationarity_and_acf_pacf_plots lib data value_column w = (inl e, w)).
Proof.
  intros Hh. repeat split.
  - now apply timeseries_data_missing_column with (df := df).
  - unfold plot_timeseries_data. run_monad. rewrite Hh. unfold groupby_size.
    now rewrite H.
  - unfold plot_annual_reviews_and_growth. run_monad. rewrite Hh. unfold getitem.
    now rewrite H.
  - unfold plot_general_monthly_reviews. run_monad. rewrite Hh. unfold getitem.
    now rewrite H.
  - unfold plot_weekday_reviews. run_monad. rewrite Hh. unfold getitem.
    now rewrite H.
  - intros H. unfold stationarity_and_acf_pacf_plots. run_monad. rewrite Hh.
    unfold getitem. now rewrite H.
  - intros e H. unfold decompose_and_plot_timeseries. run_monad. now rewrite Hh, H.
  - intros col e Hc He. now apply timeseries_data_raises with (df := df) (col := col).
  - intros monthly endog e Hm Hg He. unfold decompose_and_plot_timeseries.
    run_monad. now rewrite Hh, Hm, Hg, He.
  - intros x e Hx He. unfold stationarity_and_acf_pacf_plots. run_monad.
    now rewrite Hh, Hx, He.
Qed.

Lemma library_errors_propagate_witness :
  (timeseries_data sample_library 1 "reviewed" world1
     = (inl (KeyError (KeyList ["reviewed"])), world1) /\
   plot_timeseries_data sample_library 1 "reviewed" "count" world1
     = (inl (KeyError (KeyStr "reviewed")), world1) /\
   plot_annual_reviews_and_growth 1 "reviewed" "count" world1
     = (inl (KeyError (KeyStr "reviewed")), world1) /\
   plot_general_monthly_reviews 1 "reviewed" "count" world1
     = (inl (KeyError (KeyStr "reviewed")), world1) /\
   plot_weekday_reviews 1 "reviewed" "count" world1
     = (inl (KeyError (KeyStr "reviewed")), world1)) /\
  stationarity_and_acf_pacf_plots sample_library 1 "count" world1
    = (inl (KeyError (KeyStr "count")), world1) /\
  decompose_and_plot_timeseries sample_library 1 "reviewed" "count" 13 world1
    = (inl (KeyError (KeyStr "The grouper name reviewed is not found")), world1) /\
  timeseries_data sample_library 0 "last_review" (mkWorld {[ 0%nat := bad_reviews ]} [])
    = (inl (ValueError "time data doesn't match format '%Y-%m-%d'"),
       mkWorld {[ 0%nat := bad_reviews ]} []) /\
  decompose_and_plot_timeseries sample_library 0 "last_review" "number_of_reviews" 13
    (mkWorld {[ 0%nat := short_reviews ]} [])
    = (inl (ValueError "too few observations"),
       mkWorld {[ 0%nat := short_reviews ]} []) /\
  stationarity_and_acf_pacf_plots sample_library 0 "number_of_reviews"
    (mkWorld {[ 0%nat := short_reviews ]} [])
    = (inl (ValueError "sample size is too short to use selected regression component"),
       mkWorld {[ 0%nat := short_reviews ]} []).
Proof.
  destruct (library_errors_propagate sample_library 1 "reviewed" "count" 13 world1
              clean_reviews) as (no_date & no_value & no_resample & _);
    [reflexivity|].
  destruct (library_errors_propagate sample_library 0 "last_review" "number_of_reviews"
              13 (mkWorld {[ 0%nat := bad_reviews ]} []) bad_reviews)
    as (_ & _ & _ & bad_date & _); [reflexivity|].
  destruct (library_errors_propagate sample_library 0 "last_review" "number_of_reviews"
              13 (mkWorld {[ 0%nat := short_reviews ]} []) short_reviews)
    as (_ & _ & _ & _ & short_stl & short_adf); [reflexivity|].
  split; [apply no_date; reflexivity|].
  split; [apply no_value; reflexivity|].
  split; [apply no_resample; reflexivity|].
  split.
  { apply (bad_date (ColObj [Some "2019-05-21"; None; Some "21/05/2019"]));
      reflexivity. }
  split.
  { apply (short_stl short_reviews
             (mkSeries (range_index 1) None (ColInt [1]) (Some "number_of_reviews")));
      reflexivity. }
  apply (short_adf
           (mkSeries (range_index 1) None (ColInt [1]) (Some "number_of_reviews")));
    reflexivity.
Defined.

(* ================================================================== *)
(** ** What each function returns and whether it shows a chart *)
(* ================================================================== *)

Lemma skipn_length_app {A : Type} (l r : list A) : skipn (length l) (l ++ r) = r.
Proof. induction l as [|x l IH]; simpl; [reflexivity | exact IH]. Qed.

Lemma call_outcome
    (lib : Library) (f : function_name) (data : nat)
    (date_column value_column : string) (seasonal_period : Z) (w : world) :
  match fst (call lib f data date_column value_column seasonal_period w) with
  | inr v =>
      shape_of v = expected_shape f /\
      shows_chart
        (new_events w
           (snd (call lib f data date_column value_column seasonal_period w)))
      = renders_chart f
  | inl _ => True
  end.
Proof.
  unfold new_events.
  destruct f; unfold call;
    [ unfold timeseries_data
    | unfold plot_timeseries_data
    | unfold decompose_and_plot_timeseries
    | unfold stationarity_and_acf_pacf_plots
    | unfold plot_annual_reviews_and_growth
    | unfold plot_general_monthly_reviews
    | unfold plot_weekday_reviews ];
    run_monad; crunch; try exact I;
    (split; [reflexivity|]);
    rewrite <- ?app_assoc; rewrite skipn_length_app; reflexivity.
Qed.

(** C2 (amended).  Whenever one of the seven functions returns, the value
    is of the kind its docstring announces: a dataframe for
    [timeseries_data] and the three review plots, the dataframe paired with
    a (describe, head) pair of dataframes for [plot_timeseries_data], the
    library's decomposition result for [decompose_and_plot_timeseries], a
    (series, boolean) pair for [stationarity_and_acf_pacf_plots]; and a chart
    has been shown by every function except [timeseries_data], which only
    prints the date range. *)
Theorem returned_kinds_and_charts
    (lib : Library) (f : function_name) (data : nat)
    (date_column value_column : string) (seasonal_period : Z)
    (w w' : world) (v : pyvalue) :
  call lib f data date_column value_column seasonal_period w = (inr v, w') ->
  shape_of v = expected_shape f /\
  shows_chart (new_events w w') = renders_chart f.
Proof.
  intros H.
  pose proof (call_outcome lib f data date_column value_column seasonal_period w) as P.
  rewrite H in P. exact P.
Qed.

Lemma returned_kinds_and_charts_witness :
  shape_of (VDecompose
              (let s := mkSeries (ColInt [0; 2; 3]) None (ColInt [101; 103; 104])
                          (Some "id") in
               mkDecomposeResult s s s s))
    = expected_shape Decompose_and_plot_timeseries /\
  shows_chart
    (new_events world1
       (snd (call sample_library Decompose_and_plot_timeseries 1 "last_review" "id" 13
               world1)))
    = renders_chart Decompose_and_plot_timeseries.
Proof.
  apply (returned_kinds_and_charts sample_library Decompose_and_plot_timeseries 1
           "last_review" "id" 13 world1).
  vm_compute. reflexivity.
Defined.

(** C2 as stated fails: [timeseries_data] returns without showing any
    chart, [decompose_and_plot_timeseries] returns a decomposition result
    and [stationarity_and_acf_pacf_plots] a (series, boolean) pair, neither
    of which is a dataframe. *)
Lemma not_all_return_frames_and_charts :
  (exists v w',
      call sample_library Timeseries_data 0 "last_review" "number_of_reviews" 13 world0
        = (inr v, w') /\
      shows_chart (new_events world0 w') = false /\
      new_events world0 w'
        = [Print (CTime (mkTimestamp 2018 11 3 0)) (CTime (mkTimestamp 2019 5 21 0))]) /\
  (exists v w',
      call sample_library Decompose_and_plot_timeseries 1 "last_review" "id" 13 world1
        = (inr v, w') /\
      shape_of v = SDecompose) /\
  (exists v w',
      call sample_library Stationarity_and_acf_pacf_plots 1 "last_review" "id" 13
        world_monthly
        = (inr v, w') /\
      shape_of v = STuple [SSeries; SBool]).
Proof.
  repeat split; eexists _, _; (split; [vm_compute; reflexivity|]);
    repeat split; vm_compute; reflexivity.
Qed.

(* ================================================================== *)
(** ** More on group sizes: totals and order *)
(* ================================================================== *)

Section TallyTotals.
Context {K : Type} (cmp : K -> K -> comparison).

Lemma bump_total (k : K) (acc : list (K * Z)) :
  total_count (map snd (bump cmp k acc)) = total_count (map snd acc) + 1.
Proof.
  induction acc as [|[k' n] rest IH]; simpl; [lia|].
  destruct (cmp k k'); simpl; lia.
Qed.

Lemma fold_bump_total (l : list K) : forall acc,
  total_count (map snd (fold_left (fun a k => bump cmp k a) l acc))
  = total_count (map snd acc) + Z.of_nat (length l).
Proof.
  induction l as [|x l IH]; intros acc; cbn [fold_left length].
  - lia.
  - rewrite IH, bump_total. lia.
Qed.

Lemma total_count_perm (l l' : list Z) :
  Permutation l l' -> total_count l = total_count l'.
Proof. induction 1; simpl; lia. Qed.

(** Every element is counted once. *)
Lemma group_sizes_total (l : list K) :
  total_count (map snd (group_sizes cmp l)) = Z.of_nat (length l).
Proof.
  unfold group_sizes, tally.
  rewrite (total_count_perm _ (map snd (fold_left (fun a k => bump cmp k a) l []))).
  - rewrite fold_bump_total. simpl. lia.
  - apply Permutation_map.
    clear. induction (fold_left (fun a k => bump cmp k a) l []) as [|e t IH]; simpl;
      [reflexivity|].
    transitivity (e :: sort_by_key cmp t); [|now constructor].
    clear IH. induction (sort_by_key cmp t) as [|e' r IH]; simpl; [reflexivity|].
    destruct (cmp (fst e) (fst e')); try reflexivity.
    rewrite IH. apply perm_swap.
Qed.
End TallyTotals.

Section TallyOrder.
Context {K : Type} (cmp : K -> K -> comparison).
Hypothesis cmp_eq : forall a b, cmp a b = Eq <-> a = b.
Hypothesis cmp_anti : forall a b, cmp a b = Gt -> cmp b a = Lt.

Lemma insert_by_key_hd (e x : K * Z) (l : list (K * Z)) :
  cmp (fst x) (fst e) = Lt ->
  HdRel (fun a b => cmp (fst a) (fst b) = Lt) x l ->
  HdRel (fun a b => cmp (fst a) (fst b) = Lt) x (insert_by_key cmp e l).
Proof.
  intros Hx Hl. destruct l as [|e' rest]; simpl; [now constructor|].
  destruct (cmp (fst e) (fst e')); constructor; auto.
  all: now inversion Hl.
Qed.

Lemma insert_by_key_sorted (e : K * Z) (l : list (K * Z)) :
  ~ List.In (fst e) (map fst l) ->
  Sorted (fun a b => cmp (fst a) (fst b) = Lt) l ->
  Sorted (fun a b => cmp (fst a) (fst b) = Lt) (insert_by_key cmp e l).
Proof.
  induction l as [|e' rest IH]; simpl; intros Hn Hs.
  - repeat constructor.
  - apply Sorted_inv in Hs as [Hs Hh].
    destruct (cmp (fst e) (fst e')) eqn:E.
    + apply cmp_eq in E. exfalso. apply Hn. left. congruence.
    + constructor; [constructor; assumption | constructor; assumption].
    + constructor; [apply IH; tauto|].
      apply insert_by_key_hd; [now apply cmp_anti | assumption].
Qed.

Lemma sort_by_key_sorted (l : list (K * Z)) :
  List.NoDup (map fst l) ->
  Sorted (fun a b => cmp (fst a) (fst b) = Lt) (sort_by_key cmp l).
Proof.
  induction l as [|e rest IH]; simpl; intros Hnd; [constructor|].
  apply List.NoDup_cons_iff in Hnd as [Hn Hr].
  apply insert_by_key_sorted; [|auto].
  intros Hin. apply Hn.
  eapply Permutation_in; [|exact Hin].
  apply Permutation_map, sort_by_key_perm.
Qed.

(** Neighbouring groups are in strictly increasing key order. *)
Lemma group_sizes_sorted (K_dec : forall a b : K, {a = b} + {a <> b}) (l : list K) :
  Sorted (fun a b => cmp a b = Lt) (map fst (group_sizes cmp l)).
Proof.
  unfold group_sizes, tally.
  destruct (fold_bump cmp cmp_eq K_dec l [] (List.NoDup_nil K)) as [Hnd _].
  pose proof (sort_by_key_sorted _ Hnd) as Hs.
  induction Hs as [|a r Hs IH Hh]; simpl; constructor; [exact IH|].
  destruct Hh; simpl; constructor. assumption.
Qed.
End TallyOrder.

Lemma Z_compare_anti (a b : Z) : (a ?= b) = Gt -> (b ?= a) = Lt.
Proof. intros H. rewrite Z.compare_antisym, H. reflexivity. Qed.

Lemma ts_compare_lt_iff (a b : Timestamp) :
  ts_compare a b = Lt <->
  ts_year a < ts_year b \/
  (ts_year a = ts_year b /\
   (ts_month a < ts_month b \/
    (ts_month a = ts_month b /\
     (ts_day a < ts_day b \/ (ts_day a = ts_day b /\ ts_nanos a < ts_nanos b))))).
Proof.
  unfold ts_compare.
  destruct (Z.compare_spec (ts_year a) (ts_year b));
    destruct (Z.compare_spec (ts_month a) (ts_month b));
    destruct (Z.compare_spec (ts_day a) (ts_day b));
    destruct (Z.compare_spec (ts_nanos a) (ts_nanos b));
    split; intros; try discriminate; try reflexivity; lia.
Qed.

Lemma ts_compare_gt_iff (a b : Timestamp) :
  ts_compare a b = Gt <-> ts_compare b a = Lt.
Proof.
  rewrite ts_compare_lt_iff. unfold ts_compare.
  destruct (Z.compare_spec (ts_year a) (ts_year b));
    destruct (Z.compare_spec (ts_month a) (ts_month b));
    destruct (Z.compare_spec (ts_day a) (ts_day b));
    destruct (Z.compare_spec (ts_nanos a) (ts_nanos b));
    split; intros; try discriminate; try reflexivity; lia.
Qed.

Lemma ts_lt_trans (a b c : Timestamp) : ts_lt a b -> ts_lt b c -> ts_lt a c.
Proof. unfold ts_lt. rewrite !ts_compare_lt_iff. lia. Qed.

(* ================================================================== *)
(** ** plot_timeseries_data: order and totals *)
(* ================================================================== *)

Lemma plot_timeseries_data_returns
    (lib : Library) (data : nat) (date_column value_column : string)
    (w : world) (df : DataFrame) (dates : list (option Timestamp)) :
  heap w !! data = Some df ->
  get_col date_column (df_columns df) = Some (ColDatetime dates) ->
  date_column <> value_column ->
  exists stats w',
    plot_timeseries_data lib data date_column value_column w
    = (inr (mkDataFrame
              (range_index (length (group_sizes ts_compare (somes dates)))) None
              [(date_column,
                ColDatetime (map Some (map fst (group_sizes ts_compare (somes dates)))));
               (value_column, ColInt (map snd (group_sizes ts_compare (somes dates))))],
            stats), w').
Proof.
  intros Hh Hc Hne.
  set (g := group_sizes ts_compare (somes dates)).
  unfold plot_timeseries_data, bind, deref. rewrite Hh.
  unfold lift at 1, groupby_size. rewrite Hc. cbn [fst snd]. fold g.
  unfold lift at 1, series_reset_index. cbn [s_index_name].
  apply String.eqb_neq in Hne as Hneb. rewrite Hneb.
  unfold plt, emit, lift, getitem, ret; cbn [df_columns].
  rewrite get_col_hd. rewrite get_col_tl, get_col_hd by exact Hne.
  cbn [s_values s_index s_index_name]. unfold series_min, series_max; cbn [s_values].
  destruct (attr_year_datetime
              (opt_min ts_ltb (somes (map (fun p => Some (fst p)) g)))) as [lo ->].
  destruct (attr_year_datetime
              (opt_min (fun a b => ts_ltb b a)
                 (somes (map (fun p => Some (fst p)) g)))) as [hi ->].
  eexists _, _. rewrite <- (map_map fst Some).
  unfold col_length. rewrite length_map. reflexivity.
Qed.

(** X1.  The rows of the frame [plot_timeseries_data] returns are in
    chronological order: every row's date is strictly earlier than the date
    of every row below it. *)
Theorem plot_timeseries_data_chronological
    (lib : Library) (data : nat) (date_column value_column : string)
    (w : world) (df : DataFrame) (dates : list (option Timestamp)) :
  heap w !! data = Some df ->
  get_col date_column (df_columns df) = Some (ColDatetime dates) ->
  date_column <> value_column ->
  exists out stats w' keys,
    plot_timeseries_data lib data date_column value_column w
      = (inr (out, stats), w') /\
    get_col date_column (df_columns out) = Some (ColDatetime (map Some keys)) /\
    StronglySorted ts_lt keys.
Proof.
  intros Hh Hc Hne.
  destruct (plot_timeseries_data_returns lib data date_column value_column w df dates
              Hh Hc Hne) as (stats & w' & Hrun).
  eexists _, _, _, _. split; [exact Hrun|]. cbn [df_columns].
  split; [apply get_col_hd|].
  apply Sorted_StronglySorted; [intros a b c; apply ts_lt_trans|].
  apply (group_sizes_sorted ts_compare ts_compare_eq); [|exact Timestamp_eq_dec].
  intros a b. apply ts_compare_gt_iff.
Qed.

Lemma plot_timeseries_data_chronological_witness :
  exists out stats w' keys,
    plot_timeseries_data sample_library 1 "last_review" "number_of_reviews" world1
      = (inr (out, stats), w') /\
    get_col "last_review" (df_columns out) = Some (ColDatetime (map Some keys)) /\
    StronglySorted ts_lt keys.
Proof.
  apply (plot_timeseries_data_chronological sample_library 1 "last_review"
           "number_of_reviews" world1 clean_reviews
           [Some (mkTimestamp 2019 5 21 0); Some (mkTimestamp 2019 5 21 0);
            Some (mkTimestamp 2018 11 3 0)]).
  - reflexivity.
  - reflexivity.
  - discriminate.
Defined.

(** X2.  No review is lost or counted twice by [plot_timeseries_data]:
    the counts of the returned frame add up to the number of input rows
    whose date is not missing, and every count is at least 1. *)
Theorem plot_timeseries_data_conserves_rows
    (lib : Library) (data : nat) (date_column value_column : string)
    (w : world) (df : DataFrame) (dates : list (option Timestamp)) :
  heap w !! data = Some df ->
  get_col date_column (df_columns df) = Some (ColDatetime dates) ->
  date_column <> value_column ->
  exists out stats w' counts,
    plot_timeseries_data lib data date_column value_column w
      = (inr (out, stats), w') /\
    get_col value_column (df_columns out) = Some (ColInt counts) /\
    total_count counts = Z.of_nat (length (somes dates)) /\
    Forall (fun n => 1 <= n) counts.
Proof.
  intros Hh Hc Hne.
  destruct (plot_timeseries_data_returns lib data date_column value_column w df dates
              Hh Hc Hne) as (stats & w' & Hrun).
  eexists _, _, _, _. split; [exact Hrun|]. cbn [df_columns].
  split; [rewrite get_col_tl by exact Hne; apply get_col_hd|].
  split; [apply group_sizes_total|].
  pose proof (group_sizes_spec ts_compare ts_compare_eq Timestamp_eq_dec (somes dates))
    as [_ Hspec].
  apply List.Forall_forall. intros n Hn.
  apply in_map_iff in Hn as ([k n'] & E & Hin). simpl in E. subst n'.
  apply Hspec in Hin as [Hin ->].
  apply (count_occ_In Timestamp_eq_dec) in Hin. lia.
Qed.

Lemma plot_timeseries_data_conserves_rows_witness :
  exists out stats w' counts,
    plot_timeseries_data sample_library 1 "last_review" "number_of_reviews" world1
      = (inr (out, stats), w') /\
    get_col "number_of_reviews" (df_columns out) = Some (ColInt counts) /\
    total_count counts
    = Z.of_nat (length (somes [Some (mkTimestamp 2019 5 21 0);
                               Some (mkTimestamp 2019 5 21 0);
                               Some (mkTimestamp 2018 11 3 0)])) /\
    Forall (fun n => 1 <= n) counts.
Proof.
  apply (plot_timeseries_data_conserves_rows sample_library 1 "last_review"
           "number_of_reviews" world1 clean_reviews).
  - reflexivity.
  - reflexivity.
  - discriminate.
Defined.

(* ================================================================== *)
(** ** plot_annual_reviews_and_growth and plot_general_monthly_reviews *)
(* ================================================================== *)

Lemma set_col_growth (v : string) (y c r : column) :
  v <> "growth_rate" ->
  set_col "growth_rate" r [("year", y); (v, c)]
  = [("year", y); (v, c); ("growth_rate", r)].
Proof. intros H. apply String.eqb_neq in H. simpl. now rewrite H. Qed.

Lemma plot_annual_returns
    (data : nat) (date_column value_column_name : string) (w : world)
    (df : DataFrame) (ts : list Timestamp) :
  heap w !! data = Some df ->
  get_col date_column (df_columns df) = Some (ColDatetime (map Some ts)) ->
  value_column_name <> "year" ->
  value_column_name <> "growth_rate" ->
  date_column <> "year" ->
  exists w',
    plot_annual_reviews_and_growth data date_column value_column_name w
    = (inr (annual_frame value_column_name (map ts_year ts)), w').
Proof.
  intros Hh Hc Hv Hg Hd.
  unfold plot_annual_reviews_and_growth. run_monad. rewrite Hh.
  unfold getitem at 1. rewrite Hc. unfold dt_year at 1, dt_field at 1.
  cbn [s_values s_index s_index_name s_name]. rewrite field_values_full.
  world_simpl.
  unfold groupby_size, setitem. cbn [df_columns s_values df_index df_index_name].
  rewrite get_set_same. cbn [fst snd].
  set (g := group_sizes Z.compare (map ts_year ts)).
  unfold series_reset_index. cbn [s_index_name s_values s_index].
  rewrite (eqb_false_sym _ _ Hv).
  unfold getitem at 1. cbn [df_columns df_index df_index_name].
  rewrite get_col_tl, get_col_hd by congruence.
  unfold pct_change, times100. cbn [s_values s_index s_index_name s_name].
  rewrite set_col_growth by exact Hg.
  world_simpl.
  unfold getitem. cbn [df_columns df_index df_index_name].
  rewrite !get_set_other, !Hc by exact Hd.
  unfold dt_year, dt_field. cbn [s_values].
  rewrite !get_col_hd.
  rewrite !(get_col_tl value_column_name "year") by congruence.
  rewrite !get_col_hd.
  rewrite (get_col_tl "growth_rate" "year") by discriminate.
  rewrite (get_col_tl "growth_rate" value_column_name) by exact Hg.
  rewrite get_col_hd.
  eexists. unfold annual_frame. fold g.
  unfold col_length. rewrite length_map. reflexivity.
Qed.

Lemma ratios_nth (l : list float) : forall (prev : float) (i : nat) (a b : float),
  nth_error (prev :: l) i = Some a ->
  nth_error (prev :: l) (S i) = Some b ->
  nth_error (ratios prev l) i = Some (PrimFloat.sub (PrimFloat.div b a) 1%float).
Proof.
  induction l as [|x l IH]; intros prev i a b Ha Hb.
  - destruct i as [|[|i]]; discriminate.
  - destruct i as [|i]; cbn [nth_error ratios] in *.
    + congruence.
    + apply IH; assumption.
Qed.

Lemma int_groups (l : list Z) :
  StronglySorted Z.lt (map fst (group_sizes Z.compare l)) /\
  (forall y, List.In y (map fst (group_sizes Z.compare l)) <-> List.In y l) /\
  (forall i y,
      nth_error (map fst (group_sizes Z.compare l)) i = Some y ->
      nth_error (map snd (group_sizes Z.compare l)) i
      = Some (Z.of_nat (count_occ Z.eq_dec l y))).
Proof.
  pose proof (group_sizes_spec Z.compare Z.compare_eq_iff Z.eq_dec l) as [Hnd Hspec].
  split; [|split].
  - apply Sorted_StronglySorted; [intros a b c; apply Z.lt_trans|].
    apply (group_sizes_sorted Z.compare Z.compare_eq_iff Z_compare_anti Z.eq_dec).
  - intros y. rewrite in_map_iff. split.
    + intros ([k n] & E & Hin). simpl in E. subst k. apply Hspec in Hin. tauto.
    + intros Hin. exists (y, Z.of_nat (count_occ Z.eq_dec l y)).
      split; [reflexivity|]. apply Hspec. tauto.
  - intros i y Hi. destruct (group_rows _ i y Hi) as (n & Hn & Hin).
    apply Hspec in Hin as [_ ->]. exact Hn.
Qed.

(** Line 170 on a count column. *)
Lemma growth_rates_spec (counts : list Z) :
  let rates :=
    map (fun x => PrimFloat.mul x 100%float)
      match map float_of_Z counts with
      | [] => []
      | x :: rest => PrimFloat.nan :: ratios x rest
      end in
  length rates = length counts /\
  (forall c, nth_error counts 0 = Some c -> nth_error rates 0 = Some PrimFloat.nan) /\
  (forall i c0 c1,
      nth_error counts i = Some c0 ->
      nth_error counts (S i) = Some c1 ->
      nth_error rates (S i) = Some (growth c0 c1)).
Proof.
  destruct counts as [|c cs]; cbn [map].
  - split; [reflexivity|]. split; intros; [discriminate | destruct i; discriminate].
  - split.
    { cbn [length]. rewrite length_map. f_equal.
      generalize (float_of_Z c). induction cs as [|x cs IH]; intros p;
        simpl; [reflexivity|]. now rewrite IH. }
    split; [intros _ _; reflexivity|].
    intros i c0 c1 H0 H1. cbn [nth_error]. rewrite nth_error_map.
    rewrite (ratios_nth (map float_of_Z cs) (float_of_Z c) i
               (float_of_Z c0) (float_of_Z c1)).
    + reflexivity.
    + change (float_of_Z c :: map float_of_Z cs) with (map float_of_Z (c :: cs)).
      now rewrite nth_error_map, H0.
    + change (float_of_Z c :: map float_of_Z cs) with (map float_of_Z (c :: cs)).
      now rewrite nth_error_map, H1.
Qed.

(** X3.  On a date column without missing dates, and with names that do
    not collide, [plot_annual_reviews_and_growth] returns a frame of three
    columns: the years present in the input in increasing order, the number
    of input rows of each year, and the growth rate, which is NaN in the
    first row and, in every later row, the float64 value
    (count / previous count - 1) * 100 computed from the counts of that row
    and of the row above. *)
Theorem plot_annual_counts_and_growth
    (data : nat) (date_column value_column_name : string) (w : world)
    (df : DataFrame) (ts : list Timestamp) :
  heap w !! data = Some df ->
  get_col date_column (df_columns df) = Some (ColDatetime (map Some ts)) ->
  value_column_name <> "year" ->
  value_column_name <> "growth_rate" ->
  date_column <> "year" ->
  exists out w' years counts rates,
    plot_annual_reviews_and_growth data date_column value_column_name w
      = (inr out, w') /\
    df_columns out
      = [("year", ColInt years); (value_column_name, ColInt counts);
         ("growth_rate", ColFloat rates)] /\
    StronglySorted Z.lt years /\
    (forall y, List.In y years <-> exists t, List.In t ts /\ ts_year t = y) /\
    (forall i y,
        nth_error years i = Some y ->
        nth_error counts i
        = Some (Z.of_nat (count_occ Z.eq_dec (map ts_year ts) y))) /\
    length rates = length counts /\
    (forall c, nth_error counts 0 = Some c -> nth_error rates 0 = Some PrimFloat.nan) /\
    (forall i c0 c1,
        nth_error counts i = Some c0 ->
        nth_error counts (S i) = Some c1 ->
        nth_error rates (S i) = Some (growth c0 c1)).
Proof.
  intros Hh Hc Hv Hg Hd.
  destruct (plot_annual_returns data date_column value_column_name w df ts
              Hh Hc Hv Hg Hd) as [w' Hrun].
  destruct (int_groups (map ts_year ts)) as (Hs & Hk & Hr).
  eexists _, _, _, _, _. split; [exact Hrun|].
  unfold annual_frame. cbn [df_columns].
  split; [reflexivity|]. split; [exact Hs|].
  split.
  { intros y. rewrite Hk, in_map_iff. split; intros (t & A & B); eauto. }
  split; [exact Hr|].
  apply growth_rates_spec.
Qed.

Lemma plot_annual_counts_and_growth_witness :
  exists out w' years counts rates,
    plot_annual_reviews_and_growth 1 "last_review" "number_of_reviews" world1
      = (inr out, w') /\
    df_columns out
      = [("year", ColInt years); ("number_of_reviews", ColInt counts);
         ("growth_rate", ColFloat rates)] /\
    StronglySorted Z.lt years /\
    (forall y, List.In y years <->
               exists t, List.In t [mkTimestamp 2019 5 21 0; mkTimestamp 2019 5 21 0;
                                    mkTimestamp 2018 11 3 0] /\ ts_year t = y) /\
    (forall i y,
        nth_error years i = Some y ->
        nth_error counts i
        = Some (Z.of_nat (count_occ Z.eq_dec
                   (map ts_year [mkTimestamp 2019 5 21 0; mkTimestamp 2019 5 21 0;
                                 mkTimestamp 2018 11 3 0]) y))) /\
    length rates = length counts /\
    (forall c, nth_error counts 0 = Some c -> nth_error rates 0 = Some PrimFloat.nan) /\
    (forall i c0 c1,
        nth_error counts i = Some c0 ->
        nth_error counts (S i) = Some c1 ->
        nth_error rates (S i) = Some (growth c0 c1)).
Proof.
  apply (plot_annual_counts_and_growth 1 "last_review" "number_of_reviews" world1
           clean_reviews).
  - reflexivity.
  - reflexivity.
  - discriminate.
  - discriminate.
  - discriminate.
Defined.

(** One review in 2018, two in 2019: a growth of 100 percent. *)
Example plot_annual_sample :
  fst (plot_annual_reviews_and_growth 1 "last_review" "number_of_reviews" world1)
  = inr (mkDataFrame (ColInt [0; 1]) None
           [("year", ColInt [2018; 2019]);
            ("number_of_reviews", ColInt [1; 2]);
            ("growth_rate", ColFloat [PrimFloat.nan; 100%float])]).
Proof. vm_compute. reflexivity. Qed.

Lemma plot_general_monthly_returns
    (data : nat) (date_column value_column_name : string) (w : world)
    (df : DataFrame) (ts : list Timestamp) :
  heap w !! data = Some df ->
  get_col date_column (df_columns df) = Some (ColDatetime (map Some ts)) ->
  value_column_name <> "month" ->
  exists w',
    plot_general_monthly_reviews data date_column value_column_name w
    = (inr (monthly_frame value_column_name (map ts_month ts)), w').
Proof.
  intros Hh Hc Hv.
  unfold plot_general_monthly_reviews. run_monad. rewrite Hh.
  unfold getitem at 1. rewrite Hc. unfold dt_month at 1, dt_field at 1.
  cbn [s_values s_index s_index_name s_name]. rewrite field_values_full.
  world_simpl.
  unfold groupby_size, setitem. cbn [df_columns s_values df_index df_index_name].
  rewrite get_set_same. cbn [fst snd].
  set (g := group_sizes Z.compare (map ts_month ts)).
  unfold series_reset_index. cbn [s_index_name s_values s_index].
  rewrite (eqb_false_sym _ _ Hv).
  unfold getitem. cbn [df_columns df_index df_index_name].
  rewrite get_col_hd. rewrite get_col_tl, get_col_hd by congruence.
  eexists. unfold monthly_frame. fold g.
  unfold col_length. rewrite length_map. reflexivity.
Qed.

(** X4.  On a date column without missing dates, and with a count column
    not named month, [plot_general_monthly_reviews] returns a frame with one
    row per calendar month that occurs in the input, whatever the year, in
    increasing month order, each with the number of input rows falling in
    that month; the counts add up to the number of input rows. *)
Theorem plot_general_monthly_counts
    (data : nat) (date_column value_column_name : string) (w : world)
    (df : DataFrame) (ts : list Timestamp) :
  heap w !! data = Some df ->
  get_col date_column (df_columns df) = Some (ColDatetime (map Some ts)) ->
  value_column_name <> "month" ->
  exists out w' months counts,
    plot_general_monthly_reviews data date_column value_column_name w
      = (inr out, w') /\
    df_columns out = [("month", ColInt months); (value_column_name, ColInt counts)] /\
    StronglySorted Z.lt months /\
    (forall m, List.In m months <-> exists t, List.In t ts /\ ts_month t = m) /\
    (forall i m,
        nth_error months i = Some m ->
        nth_error counts i
        = Some (Z.of_nat (count_occ Z.eq_dec (map ts_month ts) m))) /\
    total_count counts = Z.of_nat (length ts).
Proof.
  intros Hh Hc Hv.
  destruct (plot_general_monthly_returns data date_column value_column_name w df ts
              Hh Hc Hv) as [w' Hrun].
  destruct (int_groups (map ts_month ts)) as (Hs & Hk & Hr).
  eexists _, _, _, _. split; [exact Hrun|].
  unfold monthly_frame. cbn [df_columns].
  split; [reflexivity|]. split; [exact Hs|].
  split.
  { intros y. rewrite Hk, in_map_iff. split; intros (t & A & B); eauto. }
  split; [exact Hr|].
  rewrite group_sizes_total. now rewrite length_map.
Qed.

Lemma plot_general_monthly_counts_witness :
  exists out w' months counts,
    plot_general_monthly_reviews 1 "last_review" "number_of_reviews" world1
      = (inr out, w') /\
    df_columns out = [("month", ColInt months); ("number_of_reviews", ColInt counts)] /\
    StronglySorted Z.lt months /\
    (forall m, List.In m months <->
               exists t, List.In t [mkTimestamp 2019 5 21 0; mkTimestamp 2019 5 21 0;
                                    mkTimestamp 2018 11 3 0] /\ ts_month t = m) /\
    (forall i m,
        nth_error months i = Some m ->
        nth_error counts i
        = Some (Z.of_nat (count_occ Z.eq_dec
                   (map ts_month [mkTimestamp 2019 5 21 0; mkTimestamp 2019 5 21 0;
                                  mkTimestamp 2018 11 3 0]) m))) /\
    total_count counts = Z.of_nat (length [mkTimestamp 2019 5 21 0;
                                           mkTimestamp 2019 5 21 0;
                                           mkTimestamp 2018 11 3 0]).
Proof.
  apply (plot_general_monthly_counts 1 "last_review" "number_of_reviews" world1
           clean_reviews).
  - reflexivity.
  - reflexivity.
  - discriminate.
Defined.

(* ================================================================== *)
(** ** Name collisions *)
(* ================================================================== *)

Lemma groupby_size_shape (name : string) (df : DataFrame) (c : column) :
  get_col name (df_columns df) = Some c ->
  exists keys counts,
    groupby_size name df = inr (mkSeries keys (Some name) (ColInt counts) None).
Proof. intros H. unfold groupby_size. rewrite H. eauto. Qed.

(** X5.  Naming the count column like the grouping column makes line 51,
    167, 217 or 250 raise ValueError "cannot insert ..., already exists":
    [plot_timeseries_data] then has done nothing, while the three review
    plots have already written the year, month or weekday column into the
    caller's frame; none of them has drawn anything. *)
Theorem count_column_name_collision
    (lib : Library) (data : nat) (date_column : string) (w : world)
    (df : DataFrame) (dates : list (option Timestamp)) :
  heap w !! data = Some df ->
  get_col date_column (df_columns df) = Some (ColDatetime dates) ->
  plot_timeseries_data lib data date_column date_column w
    = (inl (already_exists date_column), w) /\
  plot_annual_reviews_and_growth data date_column "year" w
    = (inl (already_exists "year"),
       set_frame data (with_column df "year" (field_values ts_year dates)) w) /\
  plot_general_monthly_reviews data date_column "month" w
    = (inl (already_exists "month"),
       set_frame data (with_column df "month" (field_values ts_month dates)) w) /\
  plot_weekday_reviews data date_column "weekday" w
    = (inl (already_exists "weekday"),
       set_frame data (with_column df "weekday" (ColObj (weekday_names dates))) w).
Proof.
  intros Hh Hc. repeat split.
  - unfold plot_timeseries_data. run_monad. rewrite Hh.
    unfold groupby_size. rewrite Hc. cbn [fst snd].
    unfold series_reset_index. cbn [s_index_name]. now rewrite String.eqb_refl.
  - unfold plot_annual_reviews_and_growth. run_monad. rewrite Hh.
    unfold getitem at 1. rewrite Hc. unfold dt_year at 1, dt_field at 1.
    cbn [s_values s_index s_index_name s_name]. world_simpl.
    destruct (groupby_size_shape "year"
                (setitem df "year"
                   (mkSeries (df_index df) (df_index_name df)
                      (field_values ts_year dates) (Some date_column)))
                (field_values ts_year dates)) as (k & c & ->).
    { unfold setitem. cbn [df_columns s_values]. apply get_set_same. }
    reflexivity.
  - unfold plot_general_monthly_reviews. run_monad. rewrite Hh.
    unfold getitem at 1. rewrite Hc. unfold dt_month at 1, dt_field at 1.
    cbn [s_values s_index s_index_name s_name]. world_simpl.
    destruct (groupby_size_shape "month"
                (setitem df "month"
                   (mkSeries (df_index df) (df_index_name df)
                      (field_values ts_month dates) (Some date_column)))
                (field_values ts_month dates)) as (k & c & ->).
    { unfold setitem. cbn [df_columns s_values]. apply get_set_same. }
    reflexivity.
  - unfold plot_weekday_reviews. run_monad. rewrite Hh.
    unfold getitem at 1. rewrite Hc. unfold dt_day_name at 1.
    cbn [s_values s_index s_index_name s_name]. world_simpl.
    destruct (groupby_size_shape "weekday"
                (setitem df "weekday"
                   (mkSeries (df_index df) (df_index_name df)
                      (ColObj (map (option_map ts_day_name) dates)) (Some date_column)))
                (ColObj (map (option_map ts_day_name) dates))) as (k & c & ->).
    { unfold setitem. cbn [df_columns s_values]. apply get_set_same. }
    reflexivity.
Qed.

Lemma count_column_name_collision_witness :
  plot_timeseries_data sample_library 1 "last_review" "last_review" world1
    = (inl (already_exists "last_review"), world1) /\
  plot_annual_reviews_and_growth 1 "last_review" "year" world1
    = (inl (already_exists "year"),
       set_frame 1 (with_column clean_reviews "year"
                      (field_values ts_year
                         [Some (mkTimestamp 2019 5 21 0); Some (mkTimestamp 2019 5 21 0);
                          Some (mkTimestamp 2018 11 3 0)])) world1) /\
  plot_general_monthly_reviews 1 "last_review" "month" world1
    = (inl (already_exists "month"),
       set_frame 1 (with_column clean_reviews "month"
                      (field_values ts_month
                         [Some (mkTimestamp 2019 5 21 0); Some (mkTimestamp 2019 5 21 0);
                          Some (mkTimestamp 2018 11 3 0)])) world1) /\
  plot_weekday_reviews 1 "last_review" "weekday" world1
    = (inl (already_exists "weekday"),
       set_frame 1 (with_column clean_reviews "weekday"
                      (ColObj (weekday_names
                         [Some (mkTimestamp 2019 5 21 0); Some (mkTimestamp 2019 5 21 0);
                          Some (mkTimestamp 2018 11 3 0)]))) world1).
Proof.
  apply (count_column_name_collision sample_library 1 "last_review" world1
           clean_reviews).
  - reflexivity.
  - reflexivity.
Defined.

Lemma dt_field_on_field_values (f g : Timestamp -> Z) (i : column)
    (n nm : option string) (dates : list (option Timestamp)) :
  dt_field f (mkSeries i n (field_values g dates) nm) = raise dt_error.
Proof. unfold dt_field, field_values. cbn [s_values]. now destruct (forallb is_some dates). Qed.

(** X6.  A date column that is itself called year or month cannot be
    cleaned: even when every date converts, [timeseries_data] raises the
    AttributeError of the [.dt] accessor at line 27 or 28, because line 26 or
    27 has replaced the converted dates by integers; the caller's frame and
    the console are as before.  A date column called day goes through, and
    comes back holding the day numbers instead of the dates. *)
Theorem timeseries_data_date_column_named_like_a_part
    (lib : Library) (data : nat) (date_column : string) (w : world)
    (df : DataFrame) (col : column) (ts : list (option Timestamp)) :
  heap w !! data = Some df ->
  get_col date_column (df_columns df) = Some col ->
  mapM (convert lib) (present_cells col) = inr ts ->
  (date_column = "year" \/ date_column = "month" ->
   timeseries_data lib data date_column w = (inl dt_error, w)) /\
  (date_column = "day" ->
   exists out w',
     timeseries_data lib data date_column w = (inr out, w') /\
     get_col "day" (df_columns out) = Some (field_values ts_day ts) /\
     get_col "year" (df_columns out) = Some (field_values ts_year ts) /\
     get_col "month" (df_columns out) = Some (field_values ts_month ts)).
Proof.
  intros Hh Hc Hts.
  assert (Hg : getitem
                 (mkDataFrame (col_mask (col_notnull col) (df_index df))
                    (df_index_name df)
                    (map (fun nc => (fst nc, col_mask (col_notnull col) (snd nc)))
                       (df_columns df))) date_column
               = inr (mkSeries (col_mask (col_notnull col) (df_index df))
                        (df_index_name df)
                        (col_mask (col_notnull col) col) (Some date_column))).
  { unfold getitem. cbn [df_columns df_index df_index_name].
    now rewrite get_col_map, Hc. }
  split.
  - intros Hname. unfold timeseries_data, bind, deref. rewrite Hh.
    unfold lift at 1, dropna. rewrite Hc. cbv zeta.
    unfold lift at 1. rewrite Hg.
    unfold lift at 1. rewrite to_datetime_after_dropna, Hts.
    unfold lift at 1. rewrite getitem_setitem_same.
    unfold lift at 1, dt_year. cbn [s_values]. rewrite dt_field_datetime.
    destruct Hname as [-> | ->].
    + unfold lift at 1. rewrite getitem_setitem_same.
      unfold lift at 1, dt_month. cbn [s_values].
      rewrite dt_field_on_field_values. reflexivity.
    + unfold lift at 1.
      rewrite getitem_setitem_other, getitem_setitem_same by discriminate.
      unfold lift at 1, dt_month. cbn [s_values]. rewrite dt_field_datetime.
      unfold lift at 1. rewrite getitem_setitem_same.
      unfold lift at 1, dt_day. cbn [s_values].
      rewrite dt_field_on_field_values. reflexivity.
  - intros ->. unfold timeseries_data, bind, deref. rewrite Hh.
    unfold lift at 1, dropna. rewrite Hc. cbv zeta.
    unfold lift at 1. rewrite Hg.
    unfold lift at 1. rewrite to_datetime_after_dropna, Hts.
    unfold lift at 1. rewrite getitem_setitem_same.
    unfold lift at 1, dt_year. cbn [s_values]. rewrite dt_field_datetime.
    unfold lift at 1.
    rewrite getitem_setitem_other, getitem_setitem_same by discriminate.
    unfold lift at 1, dt_month. cbn [s_values]. rewrite dt_field_datetime.
    unfold lift at 1.
    rewrite !getitem_setitem_other, getitem_setitem_same by discriminate.
    unfold lift at 1, dt_day. cbn [s_values]. rewrite dt_field_datetime.
    unfold lift at 1. rewrite !getitem_setitem_same.
    unfold emit, ret.
    eexists _, _. split; [reflexivity|].
    unfold setitem. cbn [df_columns s_values].
    split; [apply get_set_same|].
    split.
    + rewrite !get_set_other by discriminate. apply get_set_same.
    + rewrite get_set_other by discriminate. apply get_set_same.
Qed.

Lemma timeseries_data_date_column_named_like_a_part_witness :
  ("day" = "year" \/ "day" = "month" ->
   timeseries_data sample_library 0 "day" world_day = (inl dt_error, world_day)) /\
  ("day" = "day" ->
   exists out w',
     timeseries_data sample_library 0 "day" world_day = (inr out, w') /\
     get_col "day" (df_columns out)
     = Some (field_values ts_day [Some (mkTimestamp 2019 5 21 0)]) /\
     get_col "year" (df_columns out)
     = Some (field_values ts_year [Some (mkTimestamp 2019 5 21 0)]) /\
     get_col "month" (df_columns out)
     = Some (field_values ts_month [Some (mkTimestamp 2019 5 21 0)])).
Proof.
  apply (timeseries_data_date_column_named_like_a_part sample_library 0 "day"
           world_day day_reviews (ColObj [Some "2019-05-21"; None])
           [Some (mkTimestamp 2019 5 21 0)]).
  - reflexivity.
  - reflexivity.
  - reflexivity.
Defined.

(** A date column called year: cleaning raises at line 27. *)
Example timeseries_data_year_column_raises :
  timeseries_data sample_library 0 "year"
    (mkWorld {[ 0%nat := mkDataFrame (range_index 1) None
                           [("year", ColObj [Some "2019-05-21"])] ]} [])
  = (inl dt_error,
     mkWorld {[ 0%nat := mkDataFrame (range_index 1) None
                           [("year", ColObj [Some "2019-05-21"])] ]} []).
Proof. vm_compute. reflexivity. Qed.

(** X7.  When the date column handed to [plot_annual_reviews_and_growth]
    is itself called year, line 164 overwrites the dates in the caller's
    frame with their year numbers, and line 176, which needs the dates again,
    raises the AttributeError of the [.dt] accessor: the call fails after
    having destroyed the caller's date column, with an empty figure opened
    and nothing shown. *)
Theorem plot_annual_overwrites_year_dates
    (data : nat) (value_column_name : string) (w : world)
    (df : DataFrame) (dates : list (option Timestamp)) :
  heap w !! data = Some df ->
  get_col "year" (df_columns df) = Some (ColDatetime dates) ->
  value_column_name <> "year" ->
  plot_annual_reviews_and_growth data "year" value_column_name w
  = (inl dt_error,
     add_event (Plt "subplots" [] [])
       (set_frame data (with_column df "year" (field_values ts_year dates)) w)) /\
  get_col "year" (df_columns (with_column df "year" (field_values ts_year dates)))
  = Some (field_values ts_year dates).
Proof.
  intros Hh Hc Hv. split; [|unfold with_column; cbn [df_columns]; apply get_set_same].
  unfold plot_annual_reviews_and_growth. run_monad. rewrite Hh.
  unfold getitem at 1. rewrite Hc. unfold dt_year at 1, dt_field at 1.
  cbn [s_values s_index s_index_name s_name]. world_simpl.
  destruct (groupby_size_shape "year"
              (setitem df "year"
                 (mkSeries (df_index df) (df_index_name df)
                    (field_values ts_year dates) (Some "year")))
              (field_values ts_year dates)) as (k & c & ->).
  { unfold setitem. cbn [df_columns s_values]. apply get_set_same. }
  unfold series_reset_index. cbn [s_index_name s_values s_index].
  rewrite (eqb_false_sym _ _ Hv).
  unfold getitem at 1. cbn [df_columns df_index df_index_name].
  rewrite get_col_tl, get_col_hd by congruence.
  unfold pct_change. cbn [s_values s_index s_index_name s_name].
  world_simpl.
  rewrite getitem_setitem_same. cbn [s_values]. unfold dt_year.
  rewrite dt_field_on_field_values. reflexivity.
Qed.

Lemma plot_annual_overwrites_year_dates_witness :
  plot_annual_reviews_and_growth 0 "year" "number_of_reviews"
    (mkWorld {[ 0%nat := year_reviews ]} [])
  = (inl dt_error,
     add_event (Plt "subplots" [] [])
       (set_frame 0
          (with_column year_reviews "year"
             (field_values ts_year
                [Some (mkTimestamp 2019 5 21 0); Some (mkTimestamp 2018 11 3 0)]))
          (mkWorld {[ 0%nat := year_reviews ]} []))) /\
  get_col "year"
    (df_columns
       (with_column year_reviews "year"
          (field_values ts_year
             [Some (mkTimestamp 2019 5 21 0); Some (mkTimestamp 2018 11 3 0)])))
  = Some (field_values ts_year
            [Some (mkTimestamp 2019 5 21 0); Some (mkTimestamp 2018 11 3 0)]).
Proof.
  apply (plot_annual_overwrites_year_dates 0 "number_of_reviews"
           (mkWorld {[ 0%nat := year_reviews ]} []) year_reviews).
  - reflexivity.
  - reflexivity.
  - discriminate.
Defined.

(* ================================================================== *)
(** ** Which frames a call can change *)
(* ================================================================== *)

(** X8.  Whatever the input and whether the call returns or raises,
    [timeseries_data], [plot_timeseries_data],
    [decompose_and_plot_timeseries] and [stationarity_and_acf_pacf_plots]
    leave every frame of the caller as it was, and the three review plots
    change no frame other than the one passed to them. *)
Theorem only_the_passed_frame_can_change
    (lib : Library) (data : nat) (date_column value_column : string)
    (seasonal_period : Z) (w : world) :
  heap (snd (timeseries_data lib data date_column w)) = heap w /\
  heap (snd (plot_timeseries_data lib data date_column value_column w)) = heap w /\
  heap (snd (decompose_and_plot_timeseries lib data date_column value_column
               seasonal_period w)) = heap w /\
  heap (snd (stationarity_and_acf_pacf_plots lib data value_column w)) = heap w /\
  forall r : nat,
    r <> data ->
    heap (snd (plot_annual_reviews_and_growth data date_column value_column w)) !! r
      = heap w !! r /\
    heap (snd (plot_general_monthly_reviews data date_column value_column w)) !! r
      = heap w !! r /\
    heap (snd (plot_weekday_reviews data date_column value_column w)) !! r
      = heap w !! r.
Proof.
  repeat split.
  - unfold timeseries_data. run_monad. crunch; reflexivity.
  - unfold plot_timeseries_data. run_monad. crunch; reflexivity.
  - unfold decompose_and_plot_timeseries. run_monad. crunch; reflexivity.
  - unfold stationarity_and_acf_pacf_plots. run_monad. crunch; reflexivity.
  - unfold plot_annual_reviews_and_growth. run_monad. crunch;
      rewrite ?lookup_insert_ne by congruence; reflexivity.
  - unfold plot_general_monthly_reviews. run_monad. crunch;
      rewrite ?lookup_insert_ne by congruence; reflexivity.
  - unfold plot_weekday_reviews. run_monad. crunch;
      rewrite ?lookup_insert_ne by congruence; reflexivity.
Qed.

(* ================================================================== *)
(** ** Date columns that are not datetime columns *)
(* ================================================================== *)

Lemma attr_year_needs_timestamp {A : Type} (inj : A -> cell) (o : option A) :
  (forall x, exists msg, attr_year (inj x) = inl (AttributeError msg)) ->
  exists msg, attr_year (cell_of inj (CFloat PrimFloat.nan) o) = inl (AttributeError msg).
Proof. intros H. destruct o; simpl; [apply H | eexists; reflexivity]. Qed.

(** X9.  The plotting functions need the dates as a datetime column.  On
    any other date column (the raw strings, integers, floats) each of the
    four raises an AttributeError: the three review plots at their first
    line, before touching the caller's frame, and [plot_timeseries_data] at
    the title line 56, after it has opened a figure and drawn the line but
    before anything is shown. *)
Theorem plots_need_datetime_column
    (lib : Library) (data : nat) (date_column value_column : string) (w : world)
    (df : DataFrame) (c : column) :
  heap w !! data = Some df ->
  get_col date_column (df_columns df) = Some c ->
  (forall dates, c <> ColDatetime dates) ->
  date_column <> value_column ->
  (exists msg w',
      plot_timeseries_data lib data date_column value_column w
        = (inl (AttributeError msg), w') /\
      heap w' = heap w /\
      shows_chart (new_events w w') = false) /\
  plot_annual_reviews_and_growth data date_column value_column w = (inl dt_error, w) /\
  plot_general_monthly_reviews data date_column value_column w = (inl dt_error, w) /\
  plot_weekday_reviews data date_column value_column w = (inl dt_error, w).
Proof.
  intros Hh Hc Hn Hne. split.
  - unfold plot_timeseries_data, bind, deref. rewrite Hh.
    unfold lift at 1, groupby_size. rewrite Hc. cbn [fst snd].
    unfold lift at 1, series_reset_index. cbn [s_index_name].
    apply String.eqb_neq in Hne as Hneb. rewrite Hneb.
    unfold plt, emit, lift, getitem; cbn [df_columns].
    rewrite get_col_hd. rewrite get_col_tl, get_col_hd by exact Hne.
    cbn [s_values s_index s_index_name]. unfold series_min; cbn [s_values fst].
    destruct c as [l|l|l|l]; [|exfalso; now apply (Hn l)| |]; cbn [fst snd].
    + destruct (attr_year_needs_timestamp CStr
                  (opt_min String.ltb (somes (map (fun p => Some (fst p))
                     (group_sizes String.compare (somes l))))))
        as [msg ->]; [intros; eexists; reflexivity|].
      eexists _, _. split; [reflexivity|]. split; [reflexivity|].
      unfold new_events. rewrite !console_add_event, <- app_assoc, skipn_length_app.
      reflexivity.
    + destruct (attr_year_needs_timestamp CInt
                  (opt_min Z.ltb (map fst (group_sizes Z.compare l))))
        as [msg ->]; [intros; eexists; reflexivity|].
      eexists _, _. split; [reflexivity|]. split; [reflexivity|].
      unfold new_events. rewrite !console_add_event, <- app_assoc, skipn_length_app.
      reflexivity.
    + destruct (attr_year_needs_timestamp CFloat
                  (opt_min PrimFloat.ltb
                     (not_nan (map fst (group_sizes float_compare (not_nan l))))))
        as [msg ->]; [intros; eexists; reflexivity|].
      eexists _, _. split; [reflexivity|]. split; [reflexivity|].
      unfold new_events. rewrite !console_add_event, <- app_assoc, skipn_length_app.
      reflexivity.
  - unfold plot_annual_reviews_and_growth, plot_general_monthly_reviews,
      plot_weekday_reviews.
    run_monad. rewrite Hh. unfold getitem. rewrite Hc.
    unfold dt_year, dt_month, dt_field, dt_day_name. cbn [s_values].
    destruct c as [l|l|l|l]; try (now repeat split). exfalso. now apply (Hn l).
Qed.

Lemma plots_need_datetime_column_witness :
  (exists msg w',
      plot_timeseries_data sample_library 0 "last_review" "number_of_reviews" world0
        = (inl (AttributeError msg), w') /\
      heap w' = heap world0 /\
      shows_chart (new_events world0 w') = false) /\
  plot_annual_reviews_and_growth 0 "last_review" "number_of_reviews" world0
    = (inl dt_error, world0) /\
  plot_general_monthly_reviews 0 "last_review" "number_of_reviews" world0
    = (inl dt_error, world0) /\
  plot_weekday_reviews 0 "last_review" "number_of_reviews" world0
    = (inl dt_error, world0).
Proof.
  apply (plots_need_datetime_column sample_library 0 "last_review"
           "number_of_reviews" world0 raw_reviews
           (ColObj [Some "2019-05-21"; None; Some "2019-05-21"; Some "2018-11-03"])).
  - reflexivity.
  - reflexivity.
  - discriminate.
  - discriminate.
Defined.

(* ================================================================== *)
(** ** Empty results and rectangular frames *)
(* ================================================================== *)

Lemma mask_filter_all_false {A : Type} (m : list bool) : forall l : list A,
  Forall (fun b => b = false) m -> mask_filter m l = [].
Proof.
  induction m as [|b m IH]; intros [|x l] H; simpl; try reflexivity.
  inversion H; subst. now apply IH.
Qed.

Lemma somes_nil {A : Type} (l : list (option A)) :
  somes l = [] -> Forall (fun b => b = false) (map is_some l).
Proof.
  unfold somes. induction l as [|[x|] l IH]; simpl; intros H.
  - constructor.
  - discriminate.
  - constructor; [reflexivity | now apply IH].
Qed.

Lemma present_cells_nil (col : column) :
  present_cells col = [] -> Forall (fun b => b = false) (col_notnull col).
Proof.
  destruct col as [l|l|l|l]; unfold present_cells, col_notnull; intros H.
  - apply somes_nil. now apply map_eq_nil in H.
  - apply somes_nil. now apply map_eq_nil in H.
  - apply map_eq_nil in H. subst l. constructor.
  - apply map_eq_nil in H. unfold not_nan in H.
    induction l as [|f l IH]; simpl in *; [constructor|].
    destruct (negb (PrimFloat.is_nan f)) eqn:E; [discriminate|].
    constructor; [reflexivity | now apply IH].
Qed.

Lemma col_mask_all_false (m : list bool) (c : column) :
  Forall (fun b => b = false) m -> col_length (col_mask m c) = 0%nat.
Proof.
  intros H. destruct c; unfold col_mask, col_length;
    now rewrite mask_filter_all_false.
Qed.

(** X10.  A frame in which every date is missing (or which has no row at
    all) is not an error for [timeseries_data]: it returns a frame without
    rows, every column of which is empty, and prints the date range NaT to
    NaT. *)
Theorem timeseries_data_all_dates_missing
    (lib : Library) (data : nat) (date_column : string) (w : world)
    (df : DataFrame) (col : column) :
  heap w !! data = Some df ->
  get_col date_column (df_columns df) = Some col ->
  present_cells col = [] ->
  date_column <> "year" -> date_column <> "month" -> date_column <> "day" ->
  exists out,
    timeseries_data lib data date_column w
      = (inr out, add_event (Print CNaT CNaT) w) /\
    col_length (df_index out) = 0%nat /\
    forall c v, get_col c (df_columns out) = Some v -> col_length v = 0%nat.
Proof.
  intros Hh Hc Hp Hy Hm Hd.
  pose proof (present_cells_nil col Hp) as Hmask.
  exists (cleaned df date_column col []). split.
  - rewrite (timeseries_data_returns lib data date_column w df col []); auto.
    now rewrite Hp.
  - unfold cleaned. cbn [df_index df_columns map]. split.
    + now apply col_mask_all_false.
    + intros c v.
      destruct (String.string_dec c "day") as [->|Hcd];
        [rewrite get_set_same; intros E; injection E as <-; reflexivity|].
      rewrite get_set_other by exact Hcd.
      destruct (String.string_dec c "month") as [->|Hcm];
        [rewrite get_set_same; intros E; injection E as <-; reflexivity|].
      rewrite get_set_other by exact Hcm.
      destruct (String.string_dec c "year") as [->|Hcy];
        [rewrite get_set_same; intros E; injection E as <-; reflexivity|].
      rewrite get_set_other by exact Hcy.
      destruct (String.string_dec c date_column) as [->|Hcc];
        [rewrite get_set_same; intros E; injection E as <-; reflexivity|].
      rewrite get_set_other by exact Hcc.
      rewrite get_col_map.
      destruct (get_col c (df_columns df)) as [x|]; [|discriminate].
      intros E. injection E as <-. now apply col_mask_all_false.
Qed.

Lemma timeseries_data_all_dates_missing_witness :
  exists out,
    timeseries_data sample_library 0 "last_review" (mkWorld {[ 0%nat := unreviewed ]} [])
      = (inr out, add_event (Print CNaT CNaT) (mkWorld {[ 0%nat := unreviewed ]} [])) /\
    col_length (df_index out) = 0%nat /\
    forall c v, get_col c (df_columns out) = Some v -> col_length v = 0%nat.
Proof.
  apply (timeseries_data_all_dates_missing sample_library 0 "last_review"
           (mkWorld {[ 0%nat := unreviewed ]} []) unreviewed (ColObj [None; None])).
  - reflexivity.
  - reflexivity.
  - reflexivity.
  - discriminate.
  - discriminate.
  - discriminate.
Defined.

Lemma length_mask_filter {A : Type} (m : list bool) : forall l : list A,
  length l = length m -> length (mask_filter m l) = kept m.
Proof.
  unfold kept. induction m as [|b m IH]; intros [|x l] H; simpl in *;
    try reflexivity; try discriminate.
  injection H as H. destruct b; simpl; rewrite IH; auto.
Qed.

Lemma col_length_mask (m : list bool) (c : column) :
  col_length c = length m -> col_length (col_mask m c) = kept m.
Proof. destruct c; unfold col_mask, col_length; apply length_mask_filter. Qed.

Lemma length_col_notnull (c : column) : length (col_notnull c) = col_length c.
Proof. destruct c; unfold col_notnull, col_length; apply length_map. Qed.

Lemma length_present_cells (c : column) :
  length (present_cells c) = kept (col_notnull c).
Proof.
  unfold kept. destruct c as [l|l|l|l]; unfold present_cells, col_notnull, somes, not_nan;
    rewrite length_map; induction l as [|x l IH]; simpl; try reflexivity.
  - destruct x; simpl; now rewrite IH.
  - destruct x; simpl; now rewrite IH.
  - now rewrite IH.
  - destruct (negb (PrimFloat.is_nan x)); simpl; now rewrite IH.
Qed.

Lemma mapM_length {A B : Type} (f : A -> exn + B) (l : list A) : forall r,
  mapM f l = inr r -> length r = length l.
Proof.
  induction l as [|x l IH]; simpl; intros r H.
  - injection H as <-. reflexivity.
  - destruct (f x); [discriminate|]. destruct (mapM f l); [discriminate|].
    injection H as <-. simpl. f_equal. now apply IH.
Qed.

Lemma get_col_Forall (Q : column -> Prop) (c : string) (v : column)
    (cols : list (string * column)) :
  Forall (fun nc => Q (snd nc)) cols -> get_col c cols = Some v -> Q v.
Proof.
  induction 1 as [|[n x] rest Hx Hr IH]; simpl; [discriminate|].
  destruct (String.eqb n c); [|exact IH].
  intros E. injection E as <-. exact Hx.
Qed.

Lemma set_col_Forall (Q : column -> Prop) (c : string) (v : column)
    (cols : list (string * column)) :
  Forall (fun nc => Q (snd nc)) cols -> Q v ->
  Forall (fun nc => Q (snd nc)) (set_col c v cols).
Proof.
  intros H Hv. induction H as [|[n x] rest Hx Hr IH]; simpl.
  - repeat constructor. exact Hv.
  - destruct (String.eqb n c); constructor; auto.
Qed.

Lemma col_length_field_values (f : Timestamp -> Z) (ts : list (option Timestamp)) :
  col_length (field_values f ts) = length ts.
Proof.
  unfold field_values. destruct (forallb is_some ts); cbn [col_length]; apply length_map.
Qed.

(** X11.  [timeseries_data] keeps frames rectangular: from a frame whose
    columns all have the length of the index it returns a frame whose
    columns, the date column and the new year, month and day columns
    included, all have the length of its index, which is the number of input
    rows with a non-missing date. *)
Theorem timeseries_data_keeps_frames_rectangular
    (lib : Library) (data : nat) (date_column : string) (w : world)
    (df : DataFrame) (col : column) (ts : list (option Timestamp)) :
  heap w !! data = Some df ->
  get_col date_column (df_columns df) = Some col ->
  mapM (convert lib) (present_cells col) = inr ts ->
  date_column <> "year" -> date_column <> "month" -> date_column <> "day" ->
  well_formed df ->
  exists out w',
    timeseries_data lib data date_column w = (inr out, w') /\
    well_formed out /\
    col_length (df_index out) = kept (col_notnull col).
Proof.
  intros Hh Hc Hts Hy Hm Hd Hwf.
  exists (cleaned df date_column col ts), (add_event (date_range df col ts) w).
  split; [now apply timeseries_data_returns|].
  assert (Hlen : col_length col = col_length (df_index df)).
  { exact (get_col_Forall (fun c => col_length c = col_length (df_index df))
             date_column col _ Hwf Hc). }
  assert (Hidx : col_length (col_mask (col_notnull col) (df_index df))
                 = kept (col_notnull col)).
  { apply col_length_mask. now rewrite length_col_notnull. }
  assert (Hn : length ts = kept (col_notnull col)).
  { rewrite (mapM_length _ _ _ Hts). apply length_present_cells. }
  split; [|exact Hidx].
  unfold well_formed, cleaned. cbn [df_index df_columns]. rewrite Hidx.
  repeat apply (set_col_Forall (fun c => col_length c = kept (col_notnull col)));
    try (rewrite ?col_length_field_values; exact Hn).
  unfold well_formed in Hwf. rewrite List.Forall_forall in *.
  intros [n c] Hin. apply in_map_iff in Hin as ([n' c'] & E & Hin).
  injection E as <- <-. cbn [snd fst].
  apply col_length_mask. rewrite length_col_notnull, Hlen.
  exact (Hwf _ Hin).
Qed.

Lemma timeseries_data_keeps_frames_rectangular_witness :
  exists out w',
    timeseries_data sample_library 0 "last_review" world0 = (inr out, w') /\
    well_formed out /\
    col_length (df_index out)
    = kept (col_notnull (ColObj [Some "2019-05-21"; None; Some "2019-05-21";
                                 Some "2018-11-03"])).
Proof.
  apply (timeseries_data_keeps_frames_rectangular sample_library 0 "last_review"
           world0 raw_reviews
           (ColObj [Some "2019-05-21"; None; Some "2019-05-21"; Some "2018-11-03"])
           [Some (mkTimestamp 2019 5 21 0); Some (mkTimestamp 2019 5 21 0);
            Some (mkTimestamp 2018 11 3 0)]).
  - reflexivity.
  - reflexivity.
  - reflexivity.
  - discriminate.
  - discriminate.
  - discriminate.
  - unfold well_formed. simpl. repeat constructor.
Defined.

(* ================================================================== *)
(** ** The functions in sequence *)
(* ================================================================== *)

Lemma review_plots_heap
    (data : nat) (date_column value_column_name : string) (w : world)
    (df : DataFrame) (dates : list (option Timestamp)) :
  heap w !! data = Some df ->
  get_col date_column (df_columns df) = Some (ColDatetime dates) ->
  heap (snd (plot_annual_reviews_and_growth data date_column value_column_name w))
    = <[data := with_column df "year" (field_values ts_year dates)]> (heap w) /\
  heap (snd (plot_general_monthly_reviews data date_column value_column_name w))
    = <[data := with_column df "month" (field_values ts_month dates)]> (heap w) /\
  heap (snd (plot_weekday_reviews data date_column value_column_name w))
    = <[data := with_column df "weekday" (ColObj (weekday_names dates))]> (heap w).
Proof.
  intros Hh Hc. repeat split.
  - unfold plot_annual_reviews_and_growth. run_monad. rewrite Hh.
    unfold getitem at 1. rewrite Hc. unfold dt_year at 1, dt_field at 1.
    cbn [s_values s_index s_index_name s_name]. unfold setitem at 1. cbn [s_values].
    fold (with_column df "year" (field_values ts_year dates)).
    crunch; reflexivity.
  - unfold plot_general_monthly_reviews. run_monad. rewrite Hh.
    unfold getitem at 1. rewrite Hc. unfold dt_month at 1, dt_field at 1.
    cbn [s_values s_index s_index_name s_name]. unfold setitem at 1. cbn [s_values].
    fold (with_column df "month" (field_values ts_month dates)).
    crunch; reflexivity.
  - unfold plot_weekday_reviews. run_monad. rewrite Hh.
    unfold getitem at 1. rewrite Hc. unfold dt_day_name at 1.
    cbn [s_values s_index s_index_name s_name]. unfold setitem at 1. cbn [s_values].
    fold (weekday_names dates).
    fold (with_column df "weekday" (ColObj (weekday_names dates))).
    crunch; reflexivity.
Qed.

Lemma cleaned_date_column (df : DataFrame) (date_column : string) (col : column)
    (ts : list (option Timestamp)) :
  date_column <> "year" -> date_column <> "month" -> date_column <> "day" ->
  get_col date_column (df_columns (cleaned df date_column col ts))
  = Some (ColDatetime ts).
Proof.
  intros Hy Hm Hd. unfold cleaned. cbn [df_columns].
  rewrite !get_set_other by assumption. apply get_set_same.
Qed.

(** The annual plot returns on every datetime column, NaT or not. *)
Lemma plot_annual_runs
    (data : nat) (date_column value_column_name : string) (w : world)
    (df : DataFrame) (dates : list (option Timestamp)) :
  heap w !! data = Some df ->
  get_col date_column (df_columns df) = Some (ColDatetime dates) ->
  value_column_name <> "year" ->
  value_column_name <> "growth_rate" ->
  date_column <> "year" ->
  exists res w',
    plot_annual_reviews_and_growth data date_column value_column_name w
    = (inr res, w').
Proof.
  intros Hh Hc Hv Hg Hd.
  unfold plot_annual_reviews_and_growth. run_monad. rewrite Hh.
  unfold getitem at 1. rewrite Hc. unfold dt_year at 1, dt_field at 1.
  cbn [s_values s_index s_index_name s_name]. world_simpl.
  destruct (groupby_size_shape "year"
              (setitem df "year"
                 (mkSeries (df_index df) (df_index_name df)
                    (field_values ts_year dates) (Some date_column)))
              (field_values ts_year dates)) as (k & c & ->).
  { unfold setitem. cbn [df_columns s_values]. apply get_set_same. }
  unfold series_reset_index. cbn [s_index_name s_values s_index].
  rewrite (eqb_false_sym _ _ Hv).
  unfold getitem at 1. cbn [df_columns df_index df_index_name].
  rewrite get_col_tl, get_col_hd by congruence.
  unfold pct_change, times100. cbn [s_values s_index s_index_name s_name].
  world_simpl.
  rewrite !(getitem_setitem_other df date_column "year") by exact Hd.
  unfold getitem at 1 2. rewrite Hc. unfold dt_year, dt_field.
  cbn [s_values s_index s_index_name s_name].
  rewrite !(getitem_setitem_other _ "year" "growth_rate") by discriminate.
  rewrite !(getitem_setitem_other _ value_column_name "growth_rate") by exact Hg.
  rewrite getitem_setitem_same.
  unfold getitem. cbn [df_columns df_index df_index_name].
  rewrite !get_col_hd.
  rewrite !(get_col_tl value_column_name "year") by congruence.
  rewrite !get_col_hd.
  eexists _, _. reflexivity.
Qed.

(** So does the monthly plot. *)
Lemma plot_general_monthly_runs
    (data : nat) (date_column value_column_name : string) (w : world)
    (df : DataFrame) (dates : list (option Timestamp)) :
  heap w !! data = Some df ->
  get_col date_column (df_columns df) = Some (ColDatetime dates) ->
  value_column_name <> "month" ->
  exists res w',
    plot_general_monthly_reviews data date_column value_column_name w
    = (inr res, w').
Proof.
  intros Hh Hc Hv.
  unfold plot_general_monthly_reviews. run_monad. rewrite Hh.
  unfold getitem at 1. rewrite Hc. unfold dt_month at 1, dt_field at 1.
  cbn [s_values s_index s_index_name s_name]. world_simpl.
  destruct (groupby_size_shape "month"
              (setitem df "month"
                 (mkSeries (df_index df) (df_index_name df)
                    (field_values ts_month dates) (Some date_column)))
              (field_values ts_month dates)) as (k & c & ->).
  { unfold setitem. cbn [df_columns s_values]. apply get_set_same. }
  unfold series_reset_index. cbn [s_index_name s_values s_index].
  rewrite (eqb_false_sym _ _ Hv).
  unfold getitem. cbn [df_columns df_index df_index_name].
  rewrite get_col_hd. rewrite get_col_tl, get_col_hd by congruence.
  eexists _, _. reflexivity.
Qed.

(** X12.  The cleaned frame is a valid input of every plot: once
    [timeseries_data] has returned, [plot_timeseries_data],
    [plot_annual_reviews_and_growth], [plot_general_monthly_reviews] and
    [plot_weekday_reviews] all return on its result (for a count column
    whose name collides with none of the columns involved), and the annual
    and monthly plots leave that frame exactly as it is, since the year and
    month columns they assign are the ones [timeseries_data] has put
    there. *)
Theorem plots_after_cleaning
    (lib : Library) (data : nat) (date_column value_column : string) (w : world)
    (df : DataFrame) (col : column) (ts : list (option Timestamp)) :
  heap w !! data = Some df ->
  get_col date_column (df_columns df) = Some col ->
  mapM (convert lib) (present_cells col) = inr ts ->
  date_column <> "year" -> date_column <> "month" -> date_column <> "day" ->
  value_column <> date_column -> value_column <> "year" ->
  value_column <> "month" -> value_column <> "weekday" ->
  value_column <> "growth_rate" ->
  exists out w',
    timeseries_data lib data date_column w = (inr out, w') /\
    forall (r : nat) (w2 : world),
      heap w2 !! r = Some out ->
      (exists res w3,
          plot_timeseries_data lib r date_column value_column w2 = (inr res, w3)) /\
      (exists res w3,
          plot_annual_reviews_and_growth r date_column value_column w2 = (inr res, w3) /\
          heap w3 = heap w2) /\
      (exists res w3,
          plot_general_monthly_reviews r date_column value_column w2 = (inr res, w3) /\
          heap w3 = heap w2) /\
      (exists res w3,
          plot_weekday_reviews r date_column value_column w2 = (inr res, w3)).
Proof.
  intros Hh Hc Hts Hy Hm Hd Hvd Hvy Hvm Hvw Hvg.
  exists (cleaned df date_column col ts), (add_event (date_range df col ts) w).
  split; [now apply timeseries_data_returns|].
  intros r w2 Hr.
  pose proof (cleaned_date_column df date_column col ts Hy Hm Hd) as Hdc.
  destruct (review_plots_heap r date_column value_column w2 _ _ Hr Hdc)
    as (Ha & Hmo & _).
  repeat split.
  - destruct (plot_timeseries_data_returns lib r date_column value_column w2 _ _ Hr Hdc)
      as (stats & w3 & Hrun); [congruence|]. eauto.
  - destruct (plot_annual_runs r date_column value_column w2 _ ts Hr Hdc Hvy Hvg Hy)
      as (res & w3 & Hrun).
    exists res, w3. split; [exact Hrun|].
    rewrite Hrun in Ha. cbn [snd] in Ha. rewrite Ha.
    apply insert_id. rewrite Hr. f_equal. symmetry.
    apply with_column_id_iff.
    unfold cleaned. cbn [df_columns].
    rewrite !get_set_other by discriminate. apply get_set_same.
  - destruct (plot_general_monthly_runs r date_column value_column w2 _ ts Hr Hdc Hvm)
      as (res & w3 & Hrun).
    exists res, w3. split; [exact Hrun|].
    rewrite Hrun in Hmo. cbn [snd] in Hmo. rewrite Hmo.
    apply insert_id. rewrite Hr. f_equal. symmetry.
    apply with_column_id_iff.
    unfold cleaned. cbn [df_columns].
    rewrite get_set_other by discriminate. apply get_set_same.
  - destruct (plot_weekday_reviews_returns r date_column value_column w2 _ _ Hr Hdc Hvw)
      as [w3 Hrun]. eauto.
Qed.

Lemma plots_after_cleaning_witness :
  exists out w',
    timeseries_data sample_library 0 "last_review" world0 = (inr out, w') /\
    forall (r : nat) (w2 : world),
      heap w2 !! r = Some out ->
      (exists res w3,
          plot_timeseries_data sample_library r "last_review" "number_of_reviews" w2
          = (inr res, w3)) /\
      (exists res w3,
          plot_annual_reviews_and_growth r "last_review" "number_of_reviews" w2
          = (inr res, w3) /\
          heap w3 = heap w2) /\
      (exists res w3,
          plot_general_monthly_reviews r "last_review" "number_of_reviews" w2
          = (inr res, w3) /\
          heap w3 = heap w2) /\
      (exists res w3,
          plot_weekday_reviews r "last_review" "number_of_reviews" w2 = (inr res, w3)).
Proof.
  apply (plots_after_cleaning sample_library 0 "last_review" "number_of_reviews"
           world0 raw_reviews
           (ColObj [Some "2019-05-21"; None; Some "2019-05-21"; Some "2018-11-03"])
           [Some (mkTimestamp 2019 5 21 0); Some (mkTimestamp 2019 5 21 0);
            Some (mkTimestamp 2018 11 3 0)]);
    try discriminate; reflexivity.
Defined.

Ltac known_lookups :=
  repeat match goal with
         | E : ?x = _ |- context [match ?x with _ => _ end] => rewrite E
         end.

Ltac same_date_column Hi Hn Hc Hd :=
  unfold groupby_size, getitem, setitem;
  repeat (world_simpl;
          cbn [df_columns df_index df_index_name s_values fst snd];
          rewrite ?get_set_same; rewrite ?get_set_other by exact Hd;
          rewrite ?Hi, ?Hn, ?Hc;
          known_lookups;
          match goal with
          | |- context [match ?x with _ => _ end] =>
              lazymatch x with
              | context [match _ with _ => _ end] => fail
              | _ => destruct x eqn:?
              end
          end);
  world_simpl.

Lemma plot_annual_ext
    (r1 r2 : nat) (date_column value_column_name : string) (w1 w2 : world)
    (df1 df2 : DataFrame) :
  heap w1 !! r1 = Some df1 ->
  heap w2 !! r2 = Some df2 ->
  df_index df1 = df_index df2 ->
  df_index_name df1 = df_index_name df2 ->
  get_col date_column (df_columns df1) = get_col date_column (df_columns df2) ->
  date_column <> "year" ->
  fst (plot_annual_reviews_and_growth r1 date_column value_column_name w1)
  = fst (plot_annual_reviews_and_growth r2 date_column value_column_name w2).
Proof.
  intros H1 H2 Hi Hn Hc Hd.
  unfold plot_annual_reviews_and_growth. run_monad. rewrite H1, H2.
  same_date_column Hi Hn Hc Hd; reflexivity.
Qed.

Lemma plot_general_monthly_ext
    (r1 r2 : nat) (date_column value_column_name : string) (w1 w2 : world)
    (df1 df2 : DataFrame) :
  heap w1 !! r1 = Some df1 ->
  heap w2 !! r2 = Some df2 ->
  df_index df1 = df_index df2 ->
  df_index_name df1 = df_index_name df2 ->
  get_col date_column (df_columns df1) = get_col date_column (df_columns df2) ->
  date_column <> "month" ->
  fst (plot_general_monthly_reviews r1 date_column value_column_name w1)
  = fst (plot_general_monthly_reviews r2 date_column value_column_name w2).
Proof.
  intros H1 H2 Hi Hn Hc Hd.
  unfold plot_general_monthly_reviews. run_monad. rewrite H1, H2.
  same_date_column Hi Hn Hc Hd; reflexivity.
Qed.

Lemma plot_weekday_ext
    (r1 r2 : nat) (date_column value_column_name : string) (w1 w2 : world)
    (df1 df2 : DataFrame) :
  heap w1 !! r1 = Some df1 ->
  heap w2 !! r2 = Some df2 ->
  df_index df1 = df_index df2 ->
  df_index_name df1 = df_index_name df2 ->
  get_col date_column (df_columns df1) = get_col date_column (df_columns df2) ->
  date_column <> "weekday" ->
  fst (plot_weekday_reviews r1 date_column value_column_name w1)
  = fst (plot_weekday_reviews r2 date_column value_column_name w2).
Proof.
  intros H1 H2 Hi Hn Hc Hd.
  unfold plot_weekday_reviews. run_monad. rewrite H1, H2.
  same_date_column Hi Hn Hc Hd; reflexivity.
Qed.

Lemma plot_timeseries_data_ext
    (lib : Library) (r1 r2 : nat) (date_column value_column : string) (w1 w2 : world)
    (df1 df2 : DataFrame) :
  heap w1 !! r1 = Some df1 ->
  heap w2 !! r2 = Some df2 ->
  get_col date_column (df_columns df1) = get_col date_column (df_columns df2) ->
  fst (plot_timeseries_data lib r1 date_column value_column w1)
  = fst (plot_timeseries_data lib r2 date_column value_column w2).
Proof.
  intros H1 H2 Hc.
  unfold plot_timeseries_data. run_monad. rewrite H1, H2.
  unfold groupby_size. rewrite Hc. crunch; reflexivity.
Qed.

(** X13.  What the four plots over dates return (or raise) depends on the
    frame only through its date column and, for the three review plots, its
    index: two frames that agree on these give the same result, whatever
    their other columns hold.  (The date column must not itself be named
    year, month or weekday.) *)
Theorem plots_depend_on_the_dates_only
    (lib : Library) (r1 r2 : nat) (date_column value_column : string)
    (w1 w2 : world) (df1 df2 : DataFrame) :
  heap w1 !! r1 = Some df1 ->
  heap w2 !! r2 = Some df2 ->
  df_index df1 = df_index df2 ->
  df_index_name df1 = df_index_name df2 ->
  get_col date_column (df_columns df1) = get_col date_column (df_columns df2) ->
  date_column <> "year" -> date_column <> "month" -> date_column <> "weekday" ->
  fst (plot_timeseries_data lib r1 date_column value_column w1)
    = fst (plot_timeseries_data lib r2 date_column value_column w2) /\
  fst (plot_annual_reviews_and_growth r1 date_column value_column w1)
    = fst (plot_annual_reviews_and_growth r2 date_column value_column w2) /\
  fst (plot_general_monthly_reviews r1 date_column value_column w1)
    = fst (plot_general_monthly_reviews r2 date_column value_column w2) /\
  fst (plot_weekday_reviews r1 date_column value_column w1)
    = fst (plot_weekday_reviews r2 date_column value_column w2).
Proof.
  intros H1 H2 Hi Hn Hc Hy Hm Hw. repeat split.
  - now apply plot_timeseries_data_ext with (df1 := df1) (df2 := df2).
  - now apply plot_annual_ext with (df1 := df1) (df2 := df2).
  - now apply plot_general_monthly_ext with (df1 := df1) (df2 := df2).
  - now apply plot_weekday_ext with (df1 := df1) (df2 := df2).
Qed.

Lemma plots_depend_on_the_dates_only_witness :
  fst (plot_timeseries_data sample_library 1 "last_review" "number_of_reviews" world1)
    = fst (plot_timeseries_data sample_library 0 "last_review" "number_of_reviews"
             (mkWorld {[ 0%nat := clean_reviews_priced ]} [])) /\
  fst (plot_annual_reviews_and_growth 1 "last_review" "number_of_reviews" world1)
    = fst (plot_annual_reviews_and_growth 0 "last_review" "number_of_reviews"
             (mkWorld {[ 0%nat := clean_reviews_priced ]} [])) /\
  fst (plot_general_monthly_reviews 1 "last_review" "number_of_reviews" world1)
    = fst (plot_general_monthly_reviews 0 "last_review" "number_of_reviews"
             (mkWorld {[ 0%nat := clean_reviews_priced ]} [])) /\
  fst (plot_weekday_reviews 1 "last_review" "number_of_reviews" world1)
    = fst (plot_weekday_reviews 0 "last_review" "number_of_reviews"
             (mkWorld {[ 0%nat := clean_reviews_priced ]} [])).
Proof.
  apply (plots_depend_on_the_dates_only sample_library 1 0 "last_review"
           "number_of_reviews" world1 (mkWorld {[ 0%nat := clean_reviews_priced ]} [])
           clean_reviews clean_reviews_priced);
    try discriminate; reflexivity.
Defined.

Lemma with_column_twice (df : DataFrame) (name : string) (v : column) :
  with_column (with_column df name v) name v = with_column df name v.
Proof.
  apply with_column_id_iff. unfold with_column. cbn [df_columns]. apply get_set_same.
Qed.

Lemma with_column_other (df : DataFrame) (name c : string) (v : column) :
  c <> name ->
  get_col c (df_columns (with_column df name v)) = get_col c (df_columns df).
Proof. intros H. unfold with_column. cbn [df_columns]. now apply get_set_other. Qed.

(** X14.  Calling a review plot a second time on the same frame changes
    nothing more: the second call returns (or raises) what the first one
    did, and leaves the caller's frames as the first call left them.  (The
    date column must not itself be named year, month or weekday.) *)
Theorem review_plots_twice
    (data : nat) (date_column value_column_name : string) (w : world) (df : DataFrame) :
  heap w !! data = Some df ->
  date_column <> "year" -> date_column <> "month" -> date_column <> "weekday" ->
  (let w1 := snd (plot_annual_reviews_and_growth data date_column value_column_name w) in
   fst (plot_annual_reviews_and_growth data date_column value_column_name w1)
     = fst (plot_annual_reviews_and_growth data date_column value_column_name w) /\
   heap (snd (plot_annual_reviews_and_growth data date_column value_column_name w1))
     = heap w1) /\
  (let w1 := snd (plot_general_monthly_reviews data date_column value_column_name w) in
   fst (plot_general_monthly_reviews data date_column value_column_name w1)
     = fst (plot_general_monthly_reviews data date_column value_column_name w) /\
   heap (snd (plot_general_monthly_reviews data date_column value_column_name w1))
     = heap w1) /\
  (let w1 := snd (plot_weekday_reviews data date_column value_column_name w) in
   fst (plot_weekday_reviews data date_column value_column_name w1)
     = fst (plot_weekday_reviews data date_column value_column_name w) /\
   heap (snd (plot_weekday_reviews data date_column value_column_name w1))
     = heap w1).
Proof.
  intros Hh Hy Hm Hw. cbv zeta.
  destruct (get_col date_column (df_columns df)) as [c|] eqn:Hc.
  2: { destruct (plot_functions_first_line_raises data date_column value_column_name
                   w df Hh) as ([e1 E1] & [e2 E2] & [e3 E3]);
         [intros dates; congruence|].
       rewrite E1, E2, E3. cbn [snd]. rewrite E1, E2, E3. cbn [snd fst]. tauto. }
  assert (Hdt : (exists dates, c = ColDatetime dates) \/
                (forall dates, c <> ColDatetime dates)).
  { destruct c; eauto; right; intros; discriminate. }
  destruct Hdt as [[dates ->] | Hnot].
  2: { destruct (plot_functions_first_line_raises data date_column value_column_name
                   w df Hh) as ([e1 E1] & [e2 E2] & [e3 E3]);
         [intros dates E; rewrite Hc in E; injection E as E; now apply (Hnot dates)|].
       rewrite E1, E2, E3. cbn [snd]. rewrite E1, E2, E3. cbn [snd fst]. tauto. }
  destruct (review_plots_heap data date_column value_column_name w df dates Hh Hc)
    as (Ha & Hmo & Hwd).
  repeat split.
  - apply plot_annual_ext
      with (df1 := with_column df "year" (field_values ts_year dates)) (df2 := df);
      auto.
    + now rewrite Ha, lookup_insert_eq.
    + now apply with_column_other.
  - set (w1 := snd (plot_annual_reviews_and_growth data date_column value_column_name w))
      in *.
    assert (H1 : heap w1 !! data
                 = Some (with_column df "year" (field_values ts_year dates)))
      by now rewrite Ha, lookup_insert_eq.
    destruct (review_plots_heap data date_column value_column_name w1 _ dates H1)
      as (Ha' & _); [now rewrite with_column_other, Hc|].
    rewrite Ha', with_column_twice. now apply insert_id.
  - apply plot_general_monthly_ext
      with (df1 := with_column df "month" (field_values ts_month dates)) (df2 := df);
      auto.
    + now rewrite Hmo, lookup_insert_eq.
    + now apply with_column_other.
  - set (w1 := snd (plot_general_monthly_reviews data date_column value_column_name w))
      in *.
    assert (H1 : heap w1 !! data
                 = Some (with_column df "month" (field_values ts_month dates)))
      by now rewrite Hmo, lookup_insert_eq.
    destruct (review_plots_heap data date_column value_column_name w1 _ dates H1)
      as (_ & Hmo' & _); [now rewrite with_column_other, Hc|].
    rewrite Hmo', with_column_twice. now apply insert_id.
  - apply plot_weekday_ext
      with (df1 := with_column df "weekday" (ColObj (weekday_names dates))) (df2 := df);
      auto.
    + now rewrite Hwd, lookup_insert_eq.
    + now apply with_column_other.
  - set (w1 := snd (plot_weekday_reviews data date_column value_column_name w)) in *.
    assert (H1 : heap w1 !! data
                 = Some (with_column df "weekday" (ColObj (weekday_names dates))))
      by now rewrite Hwd, lookup_insert_eq.
    destruct (review_plots_heap data date_column value_column_name w1 _ dates H1)
      as (_ & _ & Hwd'); [now rewrite with_column_other, Hc|].
    rewrite Hwd', with_column_twice. now apply insert_id.
Qed.

Lemma review_plots_twice_witness :
  (let w1 := snd (plot_annual_reviews_and_growth 1 "last_review" "number_of_reviews"
                    world1) in
   fst (plot_annual_reviews_and_growth 1 "last_review" "number_of_reviews" w1)
     = fst (plot_annual_reviews_and_growth 1 "last_review" "number_of_reviews" world1) /\
   heap (snd (plot_annual_reviews_and_growth 1 "last_review" "number_of_reviews" w1))
     = heap w1) /\
  (let w1 := snd (plot_general_monthly_reviews 1 "last_review" "number_of_reviews"
                    world1) in
   fst (plot_general_monthly_reviews 1 "last_review" "number_of_reviews" w1)
     = fst (plot_general_monthly_reviews 1 "last_review" "number_of_reviews" world1) /\
   heap (snd (plot_general_monthly_reviews 1 "last_review" "number_of_reviews" w1))
     = heap w1) /\
  (let w1 := snd (plot_weekday_reviews 1 "last_review" "number_of_reviews" world1) in
   fst (plot_weekday_reviews 1 "last_review" "number_of_reviews" w1)
     = fst (plot_weekday_reviews 1 "last_review" "number_of_reviews" world1) /\
   heap (snd (plot_weekday_reviews 1 "last_review" "number_of_reviews" w1))
     = heap w1).
Proof.
  apply (review_plots_twice 1 "last_review" "number_of_reviews" world1 clean_reviews);
    try discriminate; reflexivity.
Defined.

(* ================================================================== *)
(** ** stationarity_and_acf_pacf_plots: a plot that fails *)
(* ================================================================== *)

(** X15.  The Dickey-Fuller result is only returned if both correlation
    plots go through: lines 139-140 come before the return, so when
    [plot_acf] or [plot_pacf] raises, the call raises that error although the
    test has been computed, the summary and the stationarity flag are lost,
    and no chart is shown. *)
Theorem stationarity_result_lost_when_a_plot_fails
    (lib : Library) (data : nat) (value_column : string) (w : world)
    (df : DataFrame) (x : Series) (r : AdfResult) :
  heap w !! data = Some df ->
  getitem df value_column = inr x ->
  adfuller lib x = inr r ->
  (forall e,
      plot_acf lib x = inl e ->
      exists w',
        stationarity_and_acf_pacf_plots lib data value_column w = (inl e, w') /\
        shows_chart (new_events w w') = false) /\
  (forall e,
      plot_acf lib x = inr tt ->
      plot_pacf lib x = inl e ->
      exists w',
        stationarity_and_acf_pacf_plots lib data value_column w = (inl e, w') /\
        shows_chart (new_events w w') = false).
Proof.
  intros Hh Hx Hr. split; intros e.
  - intros Ha. unfold stationarity_and_acf_pacf_plots. run_monad.
    rewrite Hh, Hx, Hr, Ha. eexists. split; [reflexivity|].
    unfold new_events. rewrite console_add_event, skipn_length_app. reflexivity.
  - intros Ha Hp. unfold stationarity_and_acf_pacf_plots. run_monad.
    rewrite Hh, Hx, Hr, Ha, Hp. eexists. split; [reflexivity|].
    unfold new_events. rewrite !console_add_event, <- app_assoc, skipn_length_app.
    reflexivity.
Qed.

Lemma stationarity_result_lost_when_a_plot_fails_witness :
  exists w',
    stationarity_and_acf_pacf_plots short_pacf_library 1 "id" world_monthly
    = (inl (ValueError "Can only compute partial correlations for lags up to 50% of the sample size"),
       w') /\
    shows_chart (new_events world_monthly w') = false.
Proof.
  destruct (stationarity_result_lost_when_a_plot_fails short_pacf_library 1 "id"
              world_monthly monthly_reviews
              (mkSeries (range_index 5) None (ColInt [101; 102; 103; 104; 105])
                 (Some "id"))
              (mkAdfResult (-3.5)%float 0.01%float 0 4 [] 0%float))
    as [_ pacf_fails]; [reflexivity | reflexivity | reflexivity |].
  apply pacf_fails; reflexivity.
Defined.

(** Five observations: the test goes through, the partial autocorrelation
    plot does not, and the call raises. *)
Example stationarity_short_series :
  fst (stationarity_and_acf_pacf_plots short_pacf_library 1 "id" world_monthly)
  = inl (ValueError "Can only compute partial correlations for lags up to 50% of the sample size").
Proof. vm_compute. reflexivity. Qed.

(* ================================================================== *)
(** ** plot_weekday_reviews: the dtype of the counts *)
(* ================================================================== *)

Lemma weekday_keys (dates : list (option Timestamp)) (k : string) :
  List.In (Some k)
    (map (fun p => Some (fst p))
       (group_sizes String.compare (somes (weekday_names dates))))
  <-> List.In (Some k) (weekday_names dates).
Proof.
  pose proof (group_sizes_spec String.compare string_compare_eq String.string_dec
                (somes (weekday_names dates))) as [_ Hspec].
  split.
  - intros Hin. apply in_map_iff in Hin as ([k' n] & E & Hin).
    simpl in E. injection E as ->. apply In_somes. apply Hspec in Hin. tauto.
  - intros Hin. apply In_somes in Hin. apply in_map_iff.
    exists (k, Z.of_nat (count_occ String.string_dec (somes (weekday_names dates)) k)).
    split; [reflexivity|]. apply Hspec. tauto.
Qed.

(** X16.  The count column [plot_weekday_reviews] returns is an integer
    column only when all seven weekdays occur among the dates; as soon as
    one weekday has no review, line 254 turns the whole column into floats
    (with NaN for the missing days). *)
Theorem plot_weekday_reviews_count_dtype
    (data : nat) (date_column value_column_name : string) (w : world)
    (df : DataFrame) (dates : list (option Timestamp)) :
  heap w !! data = Some df ->
  get_col date_column (df_columns df) = Some (ColDatetime dates) ->
  value_column_name <> "weekday" ->
  exists out w' counts,
    plot_weekday_reviews data date_column value_column_name w = (inr out, w') /\
    get_col value_column_name (df_columns out) = Some counts /\
    ((forall name, List.In name weekday_order ->
                   List.In (Some name) (weekday_names dates)) ->
     exists zl, counts = ColInt zl) /\
    (forall name,
        List.In name weekday_order ->
        ~ List.In (Some name) (weekday_names dates) ->
        exists fl, counts = ColFloat fl).
Proof.
  intros Hh Hc Hv.
  destruct (plot_weekday_reviews_returns data date_column value_column_name w df dates
              Hh Hc Hv) as [w' Hrun].
  eexists _, _, (reindexed_counts dates). split; [exact Hrun|].
  cbn [df_columns]. split; [rewrite get_col_tl by congruence; apply get_col_hd|].
  unfold reindexed_counts, col_take.
  set (keys := map (fun p => Some (fst p))
                 (group_sizes String.compare (somes (weekday_names dates)))).
  split.
  - intros Hall.
    assert (forallb is_some (map (fun lbl => find_label lbl keys) weekday_order) = true)
      as ->; [|eauto].
    apply forallb_forall. intros p Hp.
    apply in_map_iff in Hp as (name & <- & Hin).
    destruct (find_label_found name keys) as [j ->]; [|reflexivity].
    apply weekday_keys. now apply Hall.
  - intros name Hin Hnone.
    assert (forallb is_some (map (fun lbl => find_label lbl keys) weekday_order) = false)
      as ->; [|eauto].
    destruct (forallb _ _) eqn:E; [|reflexivity].
    rewrite forallb_forall in E.
    specialize (E (find_label name keys)).
    rewrite find_label_None in E.
    + discriminate E. apply in_map_iff. exists name.
      split; [|exact Hin]. apply find_label_None.
      unfold keys. now rewrite weekday_keys.
    + unfold keys. now rewrite weekday_keys.
Qed.

Lemma plot_weekday_reviews_count_dtype_witness :
  exists out w' counts,
    plot_weekday_reviews 1 "last_review" "number_of_reviews" world1 = (inr out, w') /\
    get_col "number_of_reviews" (df_columns out) = Some counts /\
    ((forall name, List.In name weekday_order ->
                   List.In (Some name)
                     (weekday_names [Some (mkTimestamp 2019 5 21 0);
                                     Some (mkTimestamp 2019 5 21 0);
                                     Some (mkTimestamp 2018 11 3 0)])) ->
     exists zl, counts = ColInt zl) /\
    (forall name,
        List.In name weekday_order ->
        ~ List.In (Some name)
            (weekday_names [Some (mkTimestamp 2019 5 21 0);
                            Some (mkTimestamp 2019 5 21 0);
                            Some (mkTimestamp 2018 11 3 0)]) ->
        exists fl, counts = ColFloat fl).
Proof.
  apply (plot_weekday_reviews_count_dtype 1 "last_review" "number_of_reviews" world1
           clean_reviews).
  - reflexivity.
  - reflexivity.
  - discriminate.
Defined.

(** A full week of reviews: the counts stay integers. *)
Example plot_weekday_full_week :
  fst (plot_weekday_reviews 0 "d" "n"
         (mkWorld {[ 0%nat :=
            mkDataFrame (range_index 8) None
              [("d", ColDatetime [Some (mkTimestamp 2019 5 20 0);
                                  Some (mkTimestamp 2019 5 21 0);
                                  Some (mkTimestamp 2019 5 22 0);
                                  Some (mkTimestamp 2019 5 23 0);
                                  Some (mkTimestamp 2019 5 24 0);
                                  Some (mkTimestamp 2019 5 25 0);
                                  Some (mkTimestamp 2019 5 26 0);
                                  Some (mkTimestamp 2019 5 27 0)])] ]} []))
  = inr (mkDataFrame (ColInt [0; 1; 2; 3; 4; 5; 6]) None
           [("weekday",
             ColObj [Some "Monday"; Some "Tuesday"; Some "Wednesday"; Some "Thursday";
                     Some "Friday"; Some "Saturday"; Some "Sunday"]);
            ("n", ColInt [2; 1; 1; 1; 1; 1; 1])]).
Proof. vm_compute. reflexivity. Qed.
